(** * Maverick chess server: board engine, match and tournament registry

    A shallow embedding of [TournamentSystem.py] (classes [ChessBoard],
    [ChessMatch], [TournamentSystem] and the helper [_getUniqueInt]).

    Python objects are mutated in place and any statement may raise, so
    the methods are written in a state-and-exception monad: a computation
    maps the object state to an outcome together with the state reached
    when the outcome was produced (mutations made before a [raise] stay).
    Read-only methods live in the exception-only monad and are lifted.

    The rows of [self.board] are list objects which may be shared (the
    constructor builds the four empty ranks as [[[None] * 8] * 4], four
    references to one list), so a board is a list of row references
    into a store of row objects. *)

From Stdlib Require Import ZArith List String Bool Lia.
Import ListNotations.
Open Scope string_scope.
Open Scope list_scope.
Open Scope Z_scope.

(** ** Python outcomes *)

Inductive exn : Type :=
| TypeError
| IndexError
| AttributeError
| RuntimeError.

(** [Stuck] is not a Python behaviour: it marks the two places where the
    model runs out (a row reference with no object behind it, and a
    random source with no draws left). *)
Inductive outcome (A : Type) : Type :=
| Return (a : A)
| Raise (e : exn)
| Stuck.

Arguments Return {A} a.
Arguments Raise {A} e.
Arguments Stuck {A}.

Definition M (S A : Type) : Type := S -> outcome A * S.

Class Monad (m : Type -> Type) : Type := {
  ret : forall {A}, A -> m A;
  bind : forall {A B}, m A -> (A -> m B) -> m B;
  raise : forall {A}, exn -> m A
}.

#[export] Instance Monad_outcome : Monad outcome := {
  ret := fun A a => Return a;
  bind := fun A B c k =>
    match c with
    | Return a => k a
    | Raise e => Raise e
    | Stuck => Stuck
    end;
  raise := fun A e => Raise e
}.

#[export] Instance Monad_M (S : Type) : Monad (M S) := {
  ret := fun A a s => (Return a, s);
  bind := fun A B c k s =>
    match c s with
    | (Return a, s') => k a s'
    | (Raise e, s') => (Raise e, s')
    | (Stuck, s') => (Stuck, s')
    end;
  raise := fun A e s => (Raise e, s)
}.

Declare Scope py_scope.
Delimit Scope py_scope with py.
Notation "x <- c ;; k" := (bind c (fun x => k))
  (at level 61, c at next level, right associativity) : py_scope.
Notation "c ;; k" := (bind c (fun _ => k))
  (at level 61, right associativity) : py_scope.
Open Scope py_scope.

(** A read-only computation run inside a stateful one. *)
Definition lift {S A : Type} (r : S -> outcome A) : M S A :=
  fun s => (r s, s).

Definition get {S : Type} : M S S := fun s => (Return s, s).
Definition put {S : Type} (s : S) : M S unit := fun _ => (Return tt, s).
Definition modify {S : Type} (f : S -> S) : M S unit :=
  fun s => (Return tt, f s).

(** [when c body]: a Python [if c: body] with no [else]. *)
Definition when {m : Type -> Type} `{Monad m} (c : bool) (body : m unit)
  : m unit :=
  if c then body else ret tt.

(** ** Python lists: indexing accepts [-len .. len-1], anything else
    raises [IndexError]. *)

Definition py_norm (n : nat) (i : Z) : option nat :=
  if (0 <=? i) && (i <? Z.of_nat n) then Some (Z.to_nat i)
  else if (- Z.of_nat n <=? i) && (i <? 0) then Some (Z.to_nat (Z.of_nat n + i))
  else None.

Fixpoint list_update {A : Type} (l : list A) (k : nat) (v : A) : list A :=
  match l, k with
  | [], _ => []
  | _ :: t, O => v :: t
  | h :: t, S k' => h :: list_update t k' v
  end.

(** [l[i]] *)
Definition getitem {A : Type} (l : list A) (i : Z) : outcome A :=
  match py_norm (List.length l) i with
  | Some k => match nth_error l k with
              | Some a => Return a
              | None => Raise IndexError
              end
  | None => Raise IndexError
  end.

(** [l[i] = v], as the list after the assignment *)
Definition setitem {A : Type} (l : list A) (i : Z) (v : A)
  : outcome (list A) :=
  match py_norm (List.length l) i with
  | Some k => Return (list_update l k v)
  | None => Raise IndexError
  end.

(** [x in l] *)
Definition py_in {A : Type} (eqb : A -> A -> bool) (x : A) (l : list A)
  : bool :=
  existsb (eqb x) l.

(** ** The Python values that the code compares across types *)

Inductive pyval : Type :=
| PyNone
| PyInt (z : Z)
| PyStr (s : string)
| PyPair (a b : pyval).

(** [a == b] on these values: structural, and values of different types
    are unequal (a tuple never equals a string). *)
Fixpoint py_eq (a b : pyval) : bool :=
  match a, b with
  | PyNone, PyNone => true
  | PyInt x, PyInt y => x =? y
  | PyStr s, PyStr t => String.eqb s t
  | PyPair a1 a2, PyPair b1 b2 => py_eq a1 b1 && py_eq a2 b2
  | _, _ => false
  end.

(** [(x, y) = v]: unpacking into two targets. An integer or [None] is
    not iterable; a string unpacks only when it has two characters. *)
Definition py_unpack2 (v : pyval) : outcome (pyval * pyval) :=
  match v with
  | PyPair a b => Return (a, b)
  | PyStr (String c1 (String c2 EmptyString)) =>
      Return (PyStr (String c1 EmptyString), PyStr (String c2 EmptyString))
  | PyStr _ => Raise TypeError
  | PyInt _ => Raise TypeError
  | PyNone => Raise TypeError
  end.

(** ** Pieces and colors *)

Inductive Kind : Type := PAWN | ROOK | KNGT | BISH | QUEN | KING.
Inductive Color : Type := BLACK | WHITE.

(** The class constants are one-character strings. *)
Definition kind_const (k : Kind) : string :=
  match k with
  | PAWN => "P" | ROOK => "R" | KNGT => "N"
  | BISH => "B" | QUEN => "Q" | KING => "K"
  end.

Definition color_const (c : Color) : string :=
  match c with BLACK => "X" | WHITE => "O" end.

Definition kind_eqb (a b : Kind) : bool :=
  String.eqb (kind_const a) (kind_const b).

Definition color_eqb (a b : Color) : bool :=
  String.eqb (color_const a) (color_const b).

Definition opposite (c : Color) : Color :=
  match c with WHITE => BLACK | BLACK => WHITE end.

(** A square holds [None] or a [(color, kind)] tuple. *)
Definition entry : Type := option (Color * Kind).

Definition val_of_entry (e : entry) : pyval :=
  match e with
  | None => PyNone
  | Some (c, k) => PyPair (PyStr (color_const c)) (PyStr (kind_const k))
  end.

(** A dict whose keys are the two color constants. *)
Record percolor (X : Type) : Type := PerColor { ofWhite : X; ofBlack : X }.
Arguments PerColor {X} _ _.
Arguments ofWhite {X} _.
Arguments ofBlack {X} _.

Definition pc_get {X : Type} (d : percolor X) (c : Color) : X :=
  match c with WHITE => ofWhite d | BLACK => ofBlack d end.

Definition pc_set {X : Type} (d : percolor X) (c : Color) (x : X)
  : percolor X :=
  match c with
  | WHITE => PerColor x (ofBlack d)
  | BLACK => PerColor (ofWhite d) x
  end.

(** [d.values()] *)
Definition pc_values {X : Type} (d : percolor X) : list X :=
  [ofWhite d; ofBlack d].

(** ** ChessBoard *)

Module ChessBoard.

Definition BOARD_SIZE : Z := 8.

Record t : Type := Build {
  board : list nat;                    (* self.board: row references *)
  rows : list (list entry);            (* the row objects, by reference *)
  flag_enpassant : percolor (list bool);
  flag_canCastle : percolor (bool * bool)
}.

Definition set_rows (h : list (list entry)) (b : t) : t :=
  Build (board b) h (flag_enpassant b) (flag_canCastle b).
Definition set_flag_enpassant (f : percolor (list bool)) (b : t) : t :=
  Build (board b) (rows b) f (flag_canCastle b).
Definition set_flag_canCastle (f : percolor (bool * bool)) (b : t) : t :=
  Build (board b) (rows b) (flag_enpassant b) f.

Definition deref (b : t) (r : nat) : outcome (list entry) :=
  match nth_error (rows b) r with
  | Some row => Return row
  | None => Stuck
  end.

(** [self.board[rank][file]] *)
Definition getSquare (rank file : Z) (b : t) : outcome entry :=
  r <- getitem (board b) rank ;;
  row <- deref b r ;;
  getitem row file.

(** [self.board[rank][file] = v]: the row object is updated in place,
    so every rank that refers to it sees the write. *)
Definition setSquare (rank file : Z) (v : entry) : M t unit :=
  r <- lift (fun b => getitem (board b) rank) ;;
  row <- lift (fun b => deref b r) ;;
  row' <- lift (fun _ => setitem row file v) ;;
  modify (fun b => set_rows (list_update (rows b) r row') b).

(** [__init__] with [startBoard == None]. Row objects in creation
    order: White's home rank, White's pawns, one empty rank (appended
    four times), Black's pawns, Black's home rank. *)
Definition home_rank (c : Color) : list entry :=
  map (fun k => Some (c, k)) [ROOK; KNGT; BISH; QUEN; KING; BISH; KNGT; ROOK].

Definition init : t :=
  Build
    ([0; 1] ++ repeat 2 4 ++ [3; 4])%nat
    [ home_rank WHITE;
      repeat (Some (WHITE, PAWN)) 8;
      repeat None 8;
      repeat (Some (BLACK, PAWN)) 8;
      home_rank BLACK ]
    (PerColor (repeat false 8) (repeat false 8))
    (PerColor (true, true) (true, true)).

(** [__init__] with a [startBoard]: the caller's list of rows is kept
    as it is, without a copy. *)
Definition init_from (startBoard : list nat) (store : list (list entry))
  : t :=
  Build startBoard store
    (PerColor (repeat false 8) (repeat false 8))
    (PerColor (true, true) (true, true)).

Definition is_none (e : entry) : bool :=
  match e with None => true | Some _ => false end.

(** [destin_entry != None and destin_entry[0] == color] *)
Definition owned_by (color : Color) (e : entry) : bool :=
  match e with
  | None => false
  | Some (c, _) => color_eqb c color
  end.

Definition isLegalMove (color : Color)
    (fromRank fromFile toRank toFile : Z) (self : t) : outcome bool :=
  origin_entry <- getSquare fromRank fromFile self ;;
  destin_entry <- getSquare toRank toFile self ;;
  match origin_entry with
  | None => Return false
  | Some (origin_color, origin_type) =>
    if negb (color_eqb origin_color color) then Return false
    else
      (* what follows the per-piece checks *)
      let rest : outcome bool :=
        if owned_by color destin_entry then Return false
        else Return true in
      if kind_eqb origin_type PAWN then
        let pawnStartRank := if color_eqb color WHITE then 2 else 6 in
        let direction := if color_eqb color WHITE then 1 else -1 in
        let rank_delta := (toRank - fromRank) * direction in
        let file_delta_abs := Z.abs (toFile - fromFile) in
        if negb (py_in Z.eqb rank_delta [1; 2]) then Return false
        else if rank_delta =? 1 then
          if negb (py_in Z.eqb file_delta_abs [0; 1]) then Return false
          else if (file_delta_abs =? 1) && is_none destin_entry
               then Return false
          else if (file_delta_abs =? 0) && negb (is_none destin_entry)
               then Return false
          else rest
        else if rank_delta =? 2 then
          if negb (file_delta_abs =? 0) then Return false
          else if negb (fromFile =? pawnStartRank) then Return false
          else rest
        else rest
      else rest
  end.

(** [{ChessBoard.WHITE: 1, ChessBoard.BLACK: 6}[color]] *)
Definition start_rank_of (color : Color) : Z :=
  match color with WHITE => 1 | BLACK => 6 end.

Definition makePly (color : Color)
    (fromRank fromFile toRank toFile : Z) : M t bool :=
  legal <- lift (isLegalMove color fromRank fromFile toRank toFile) ;;
  if negb legal then ret false
  else
    (* Remove moving piece from starting position *)
    movedPiece <- lift (getSquare fromRank fromFile) ;;
    setSquare fromRank fromFile None ;;
    (* Reset en passant flags to false *)
    modify (fun b =>
      set_flag_enpassant
        (pc_set (flag_enpassant b) color (repeat false 8)) b) ;;
    (* Update castle flags; movedPiece is the (color, kind) tuple and
       it is compared with the kind constant *)
    prevCastleFlag <- lift (fun b => Return (pc_get (flag_canCastle b) color)) ;;
    when (py_eq (val_of_entry movedPiece) (PyStr (kind_const KING)))
      (modify (fun b =>
         set_flag_canCastle
           (pc_set (flag_canCastle b) color (false, false)) b)) ;;
    when (py_eq (val_of_entry movedPiece) (PyStr (kind_const ROOK)))
      (if fromFile =? 0 then
         modify (fun b =>
           set_flag_canCastle
             (pc_set (flag_canCastle b) color
                (false, snd prevCastleFlag)) b)
       else if fromFile =? 7 then
         modify (fun b =>
           set_flag_canCastle
             (pc_set (flag_canCastle b) color
                (fst prevCastleFlag, false)) b)
       else ret tt) ;;
    (* If we've moved a pawn for the first time, set the flag *)
    when (py_eq (val_of_entry movedPiece) (PyStr (kind_const PAWN))
          && (fromRank =? start_rank_of color)
          && (Z.abs (toRank - fromRank) =? 2))
      (flags <- lift (fun b =>
                  setitem (pc_get (flag_enpassant b) color) fromFile true) ;;
       modify (fun b =>
         set_flag_enpassant (pc_set (flag_enpassant b) color flags) b)) ;;
    (* Move piece to destination *)
    setSquare toRank toFile movedPiece ;;
    (* Remove en passant pawns, if relevant *)
    flag <- lift (fun b => getitem (pc_get (flag_enpassant b) color) toFile) ;;
    when flag
      (if color_eqb color WHITE && (toRank =? BOARD_SIZE - 2) then
         setSquare (BOARD_SIZE - 2) toFile None
       else if color_eqb color BLACK && (toRank =? 1) then
         setSquare 2 toFile None
       else ret tt) ;;
    ret true.

(** The 8x8 grid as a reader sees it: [self.board] with every row
    reference followed. *)
Definition grid (b : t) : list (list entry) :=
  map (fun r => nth r (rows b) []) (board b).

End ChessBoard.

(** ** The random source

    [random.choice] and [random.randint] are the only calls into the
    [random] module. The source of randomness is a list of raw draws,
    one consumed per call. *)

Definition rng : Type := list Z.

(** [random.choice(seq)] *)
Definition random_choice {A : Type} (seq : list A) : M rng A :=
  fun r =>
    match seq, r with
    | [], _ => (Raise IndexError, r)
    | _ :: _, [] => (Stuck, r)
    | a :: _, d :: r' =>
        (Return (nth (Z.to_nat (d mod Z.of_nat (List.length seq))) seq a), r')
    end.

(** [random.randint(lo, hi)], for [lo <= hi] *)
Definition random_randint (lo hi : Z) : M rng Z :=
  fun r =>
    match r with
    | [] => (Stuck, r)
    | d :: r' => (Return (lo + d mod (hi - lo + 1)), r')
    end.

(** The [while n in intList] loop of [_getUniqueInt], entered after a
    draw [n]: it redraws as long as the draw collides. *)
Fixpoint redraw_while_in (intList : list Z) (maxVals : Z) (n : Z) (r : rng)
  : outcome Z * rng :=
  if py_in Z.eqb n intList then
    match r with
    | [] => (Stuck, r)
    | d :: r' => redraw_while_in intList maxVals (1 + d mod (maxVals - 1 + 1)) r'
    end
  else (Return n, r).

Definition _getUniqueInt (intList : list Z) : M rng Z :=
  let maxVals := 2 ^ 32 - 1 in
  let maxSize := 2 ^ 31 in
  if Z.of_nat (List.length intList) >=? maxSize then raise RuntimeError
  else
    n <- random_randint 1 maxVals ;;
    redraw_while_in intList maxVals n.

(** ** ChessMatch *)

Module ChessMatch.

Inductive Status : Type :=
| STATUS_PENDING
| STATUS_ONGOING
| STATUS_BLACK_WON
| STATUS_WHITE_WON
| STATUS_DRAWN
| STATUS_CANCELLED.

Definition status_const (s : Status) : string :=
  match s with
  | STATUS_PENDING => "PENDING"
  | STATUS_ONGOING => "ONGOING"
  | STATUS_BLACK_WON => "W_BLACK"
  | STATUS_WHITE_WON => "W_WHITE"
  | STATUS_DRAWN => "W_DRAWN"
  | STATUS_CANCELLED => "CANCELD"
  end.

Definition status_eqb (a b : Status) : bool :=
  String.eqb (status_const a) (status_const b).

Definition ply : Type := ((Z * Z) * (Z * Z))%type.

Record t : Type := Build {
  board : ChessBoard.t;
  players : percolor (option Z);
  status : Status;
  history : list ply
}.

Definition set_board (b : ChessBoard.t) (m : t) : t :=
  Build b (players m) (status m) (history m).
Definition set_players (p : percolor (option Z)) (m : t) : t :=
  Build (board m) p (status m) (history m).
Definition set_status (s : Status) (m : t) : t :=
  Build (board m) (players m) s (history m).
Definition set_history (h : list ply) (m : t) : t :=
  Build (board m) (players m) (status m) h.

(** A player slot as a Python value: [None] or the player's integer. *)
Definition val_of_slot (p : option Z) : pyval :=
  match p with
  | None => PyNone
  | Some n => PyInt n
  end.

(** [self.players.values()] *)
Definition player_values (m : t) : list pyval :=
  map val_of_slot (pc_values (players m)).

(** [__init__(firstPlayerID)]: [random.choice] picks the key that
    receives [firstPlayerID] ([None] when not given). *)
Definition init (firstPlayerID : option Z) : M rng t :=
  let players0 := PerColor None None in
  key <- random_choice [WHITE; BLACK] ;;
  ret (Build ChessBoard.init (pc_set players0 key firstPlayerID)
         STATUS_PENDING []).

Definition whoseTurn (self : t) : Color :=
  if Z.of_nat (List.length (history self)) mod 2 =? 0 then WHITE
  else BLACK.

(** Run a board method on [self.board]. *)
Definition on_board {A : Type} (c : M ChessBoard.t A) : M t A :=
  fun m =>
    let (r, b) := c (board m) in (r, set_board b m).

Definition makePly (player : Z) (fromRank fromFile toRank toFile : Z)
  : M t string :=
  self <- get ;;
  if status_eqb (status self) STATUS_ONGOING then
    let color_of_player : option Color :=
      if py_eq (val_of_slot (pc_get (players self) WHITE)) (PyInt player)
      then Some WHITE
      else if py_eq (val_of_slot (pc_get (players self) BLACK)) (PyInt player)
      then Some BLACK
      else None in
    match color_of_player with
    | None => ret "You are not a player in this game"
    | Some color =>
      if negb (color_eqb color (whoseTurn self)) then
        ret "It is not your turn"
      else
        ok <- on_board
                (ChessBoard.makePly color fromRank fromFile toRank toFile) ;;
        if ok then
          modify (fun m =>
            set_history
              (history m ++ [((fromRank, fromFile), (toRank, toFile))]) m) ;;
          ret "SUCCESS"
        else ret "Illegal move"
    end
  else ret "Game not in progress".

(** A call of [makePly] on a match object with the positional
    arguments as given: the method binds exactly five, any other count raises
    [TypeError] before the body runs. *)
Definition makePly_call (args : list Z) : M t string :=
  match args with
  | [player; fromRank; fromFile; toRank; toFile] =>
      makePly player fromRank fromFile toRank toFile
  | _ => raise TypeError
  end.

(** The [for color in [WHITE, BLACK]] loop of [join]; falling off its
    end returns [None]. *)
Fixpoint join_loop (playerID : Z) (colors : list Color)
  : M t (option Color) :=
  match colors with
  | [] => ret None
  | color :: more =>
    self <- get ;;
    if py_eq (val_of_slot (pc_get (players self) color)) PyNone then
      modify (fun m =>
        set_players (pc_set (players m) color (Some playerID)) m) ;;
      self' <- get ;;
      when (negb (py_in py_eq PyNone (player_values self')))
        (modify (set_status STATUS_ONGOING)) ;;
      ret (Some color)
    else join_loop playerID more
  end.

Definition join (playerID : Z) : M t (option Color) :=
  self <- get ;;
  if negb (status_eqb (status self) STATUS_PENDING) then ret None
  else if py_in py_eq (PyInt playerID) (player_values self) then ret None
  else join_loop playerID [WHITE; BLACK].

End ChessMatch.

(** ** TournamentSystem *)

(** A dict with integer keys, in its enumeration order. *)
Definition dict (V : Type) : Type := list (Z * V).

Definition dict_keys {V : Type} (d : dict V) : list Z := map fst d.

Fixpoint dict_get {V : Type} (d : dict V) (k : Z) : option V :=
  match d with
  | [] => None
  | (k', v) :: d' => if k =? k' then Some v else dict_get d' k
  end.

Definition dict_has_key {V : Type} (d : dict V) (k : Z) : bool :=
  match dict_get d k with Some _ => true | None => false end.

(** [d[k] = v]: replaces the value of an existing key in place, a new
    key is added. *)
Fixpoint dict_set {V : Type} (d : dict V) (k : Z) (v : V) : dict V :=
  match d with
  | [] => [(k, v)]
  | (k', v') :: d' =>
      if k =? k' then (k', v) :: d' else (k', v') :: dict_set d' k v
  end.

Module TournamentSystem.

(** What every operation returns: [(successP, {key: value, ...})]. *)
Definition reply : Type := (bool * list (string * pyval))%type.

Record t : Type := Build {
  games : dict ChessMatch.t;
  players : dict string
}.

(** The registry together with the random source its methods draw on. *)
Record world : Type := World { self : t; random : rng }.

Definition init : t := Build [] [].

Definition with_random {A : Type} (c : M rng A) : M world A :=
  fun w => let (r, g) := c (random w) in (r, World (self w) g).

(** Run a match method on [self.games[gameID]]. *)
Definition on_game {A : Type} (gameID : Z) (c : M ChessMatch.t A)
  : M world A :=
  fun w =>
    match dict_get (games (self w)) gameID with
    | None => (Stuck, w)
    | Some g =>
        let (r, g') := c g in
        (r, World (Build (dict_set (games (self w)) gameID g')
                     (players (self w))) (random w))
    end.

(** [v.getStatus()] on a value of the model: no integer, string, tuple
    or [None] has that attribute. *)
Definition py_getStatus (v : pyval) : outcome pyval :=
  Raise AttributeError.

(** [v.join(playerID)] on a value of the model: only a string has a
    [join], and it refuses an integer argument. *)
Definition py_join (v : pyval) (playerID : Z) : outcome pyval :=
  match v with
  | PyStr _ => Raise TypeError
  | _ => Raise AttributeError
  end.

(** Truth value of a Python value in an [if]. *)
Definition py_truthy (v : pyval) : bool :=
  match v with
  | PyNone => false
  | PyInt z => negb (z =? 0)
  | PyStr s => negb (String.eqb s "")
  | PyPair _ _ => true
  end.

(** The loop [for (gameID, game) in self.games] of [joinGame].
    Iterating a dict enumerates its keys, so the loop variable is an
    integer key, which the target [(gameID, game)] unpacks.
    [Return (Some r)] is the [return r] inside the loop, [Return None]
    is the loop running to its end. *)
Fixpoint joinGame_scan (playerID : Z) (keys : list Z)
  : outcome (option reply) :=
  match keys with
  | [] => Return None
  | key :: more =>
    item <- py_unpack2 (PyInt key) ;;
    let (gameID, game) := (item : pyval * pyval) in
    st <- py_getStatus game ;;
    if py_eq st (PyStr (ChessMatch.status_const ChessMatch.STATUS_PENDING))
    then
      color <- py_join game playerID ;;
      if py_truthy color then Return (Some (true, [("gameID", gameID)]))
      else joinGame_scan playerID more
    else joinGame_scan playerID more
  end.

Definition joinGame (playerID : Z) : M world reply :=
  (* Add the player to a pending game if one exists *)
  found <- lift (fun w =>
             joinGame_scan playerID (dict_keys (games (self w)))) ;;
  match found with
  | Some r => ret r
  | None =>
    (* Add a player to a new game otherwise *)
    newGame <- with_random (ChessMatch.init (Some playerID)) ;;
    w <- get ;;
    newID <- with_random (_getUniqueInt (dict_keys (games (self w)))) ;;
    modify (fun w =>
      World (Build (dict_set (games (self w)) newID newGame)
               (players (self w))) (random w)) ;;
    ret (true, [("gameID", PyInt newID)])
  end.

Definition makePly (playerID gameID fromRank fromFile toRank toFile : Z)
  : M world reply :=
  w <- get ;;
  if dict_has_key (games (self w)) gameID then
    result <- on_game gameID
                (ChessMatch.makePly_call
                   [playerID; gameID; fromRank; fromFile; toRank; toFile]) ;;
    if String.eqb result "SUCCESS" then ret (true, [])
    else ret (false, [("error", PyStr result)])
  else ret (false, [("error", PyStr "Invalid game ID")]).

(** [d.values()] *)
Definition dict_values {V : Type} (d : dict V) : list V := map snd d.

Definition set_players (ps : dict string) (w : world) : world :=
  World (Build (games (self w)) ps) (random w).

Definition register (name : string) : M world reply :=
  w <- get ;;
  if py_in String.eqb name (dict_values (players (self w))) then
    ret (false, [("error", PyStr "player with this name already exists")])
  else
    newID <- with_random (_getUniqueInt (dict_keys (players (self w)))) ;;
    modify (fun w => set_players (dict_set (players (self w)) newID name) w) ;;
    ret (true, [("playerID", PyInt newID)]).

(** [cancelGame] has no [return] on its successful path: the caller
    gets [None] there, and a reply tuple on the two refusals. *)
Definition cancelGame (gameID : Z) : M world (option reply) :=
  w <- get ;;
  if dict_has_key (games (self w)) gameID then
    st <- on_game gameID (lift (fun g => Return (ChessMatch.status g))) ;;
    if py_in ChessMatch.status_eqb st
         [ChessMatch.STATUS_ONGOING; ChessMatch.STATUS_PENDING]
    then
      on_game gameID (modify (ChessMatch.set_status ChessMatch.STATUS_CANCELLED)) ;;
      ret None
    else ret (Some (false, [("error", PyStr "Game not active")]))
  else ret (Some (false, [("error", PyStr "Invalid game ID")])).

Definition getStatus (gameID : Z) : M world reply :=
  w <- get ;;
  if dict_has_key (games (self w)) gameID then
    st <- on_game gameID (lift (fun g => Return (ChessMatch.status g))) ;;
    ret (true, [("status", PyStr (ChessMatch.status_const st))])
  else ret (false, [("error", PyStr "Invalid game ID")]).

(** The payload of a successful [getState]. *)
Record state_view : Type := StateView {
  view_players : percolor (option Z);
  view_isWhitesTurn : bool;
  view_board : list (list entry);
  view_history : pyval
}.

(** [b.history] on a board object: [ChessBoard.__init__] sets [board],
    [flag_enpassant] and [flag_canCastle], and nothing in the class
    defines [history]. *)
Definition board_history (b : ChessBoard.t) : outcome pyval :=
  Raise AttributeError.

(** [getState]: the four values of the dict display are evaluated in
    the order written. *)
Definition getState (gameID : Z) : M world (bool * (state_view + string)) :=
  w <- get ;;
  if dict_has_key (games (self w)) gameID then
    on_game gameID
      (lift (fun g =>
         let v_players := ChessMatch.players g in
         let v_turn := color_eqb (ChessMatch.whoseTurn g) WHITE in
         let v_board := ChessBoard.grid (ChessMatch.board g) in
         v_history <- board_history (ChessMatch.board g) ;;
         Return (true, inl (StateView v_players v_turn v_board v_history))))
  else ret (false, inr "Invalid game ID").

End TournamentSystem.

(** ** NetworkServer: the request line handler *)

Module NetworkServer.

(** [s.partition(" ")]: the text before the first space, the space, and
    the text after it; with no space, the whole text and two empty
    strings. *)
Fixpoint partition_space (s : string) : string * string * string :=
  match s with
  | EmptyString => ("", "", "")
  | String c rest =>
      if Ascii.eqb c (Ascii.ascii_of_nat 32) then ("", " ", rest)
      else let '(head, sep, tail) := partition_space rest in
           (String c head, sep, tail)
  end.

(** The bound methods stored in [validRequests]. *)
Inductive command : Type :=
| cmd_register | cmd_joinGame | cmd_getStatus | cmd_getState | cmd_makePly.

(** [validRequests]: request name to command and expected argument
    names (the third component is unused). *)
Definition validRequests : list (string * (command * list string)) :=
  [ ("REGISTER", (cmd_register, ["name"]));
    ("JOIN_GAME", (cmd_joinGame, ["playerID"]));
    ("GET_STATUS", (cmd_getStatus, ["playerID"; "gameID"]));
    ("GET_STATE", (cmd_getState, ["playerID"; "gameID"]));
    ("MAKE_PLY", (cmd_makePly,
                  ["playerID"; "gameID"; "fromRank"; "fromFile";
                   "toRank"; "toFile"])) ].

Fixpoint lookup (name : string) (table : list (string * (command * list string)))
  : option (command * list string) :=
  match table with
  | [] => None
  | (k, v) :: rest => if String.eqb name k then Some v else lookup name rest
  end.

(** Equality of two sets of names given by their elements. *)
Definition set_eqb (a b : list string) : bool :=
  forallb (fun x => py_in String.eqb x b) a
  && forallb (fun x => py_in String.eqb x a) b.

(** [sep.join(parts)] *)
Fixpoint join_with (sep : string) (parts : list string) : string :=
  match parts with
  | [] => ""
  | [x] => x
  | x :: rest => append x (append sep (join_with sep rest))
  end.

(** The double-quote character, as a one-character string. *)
Definition quote : string := String (Ascii.ascii_of_nat 34) EmptyString.

(** [result["error"]] on the payload of a refusal. The one command that
    can run here is [register], whose refusal carries that key with a
    string (lemma [refusals_carry_error] below), so the lookup of a
    missing key, a [KeyError] in Python, is never reached; the empty
    string stands in its place. *)
Fixpoint error_of (payload : list (string * pyval)) : string :=
  match payload with
  | [] => ""
  | (k, PyStr msg) :: rest =>
      if String.eqb k "error" then msg else error_of rest
  | _ :: rest => error_of rest
  end.

Section LineReceived.

(** Two things the interpreter decides: how [str] prints the payload
    dict of a reply, and in which order [list] enumerates a set of
    names. *)
Variable str_of_payload : list (string * pyval) -> string.
Variable list_of_set : list string -> list string.

(** The call of [tsCommand] with the keyword arguments of
    [requestArgs], which always is the one-entry dict with key [name]:
    only [register] has a parameter called [name]. *)
Definition call_with_name (c : command) (arg : string)
  : M TournamentSystem.world TournamentSystem.reply :=
  match c with
  | cmd_register => TournamentSystem.register arg
  | _ => raise TypeError
  end.

(** [lineReceived]: the value is the one line sent back, after which
    the connection is closed. *)
Definition lineReceived (line : string) : M TournamentSystem.world string :=
  let requestName := fst (fst (partition_space line)) in
  let requestArgs := [("name", snd (partition_space line))] in
  let error_line (errMsg : string) : string :=
    append "ERROR: "
      (append errMsg
         (append " [query=" (append quote (append line (append quote "]"))))) in
  match lookup requestName validRequests with
  | Some (tsCommand, expArgs) =>
      if negb (set_eqb expArgs (map fst requestArgs)) then
        ret (error_line
               (append "Invalid arguments, expected: "
                  (join_with "," (list_of_set expArgs))))
      else
        r <- call_with_name tsCommand (snd (partition_space line)) ;;
        let (successP, result) := (r : TournamentSystem.reply) in
        if successP then ret (append "SUCCESS " (str_of_payload result))
        else ret (error_line (error_of result))
  | None =>
      ret (error_line
             (append "Unrecognized verb "
                (append quote (append requestName (append quote " in request")))))
  end.

End LineReceived.

End NetworkServer.

(** * Vocabulary of the statements *)

(** [p] occupies a slot of the match. *)
Definition occupies (m : ChessMatch.t) (p : Z) : Prop :=
  pc_get (ChessMatch.players m) WHITE = Some p
  \/ pc_get (ChessMatch.players m) BLACK = Some p.

(** The error strings of [ChessMatch.makePly]. *)
Definition NOT_YOUR_TURN : string := "It is not your turn".
Definition NOT_IN_PROGRESS : string := "Game not in progress".

(** A match as [ChessMatch(7)] leaves it when the random choice falls
    on BLACK: pending, player 7 alone, nothing played. *)
Definition pending_black_only : ChessMatch.t :=
  ChessMatch.Build ChessBoard.init (PerColor None (Some 7))
    ChessMatch.STATUS_PENDING [].

(** A match in progress on a fresh board: 11 plays WHITE, 12 BLACK. *)
Definition ongoing_11_12 : ChessMatch.t :=
  ChessMatch.Build ChessBoard.init (PerColor (Some 11) (Some 12))
    ChessMatch.STATUS_ONGOING [].

(** The piece-kind shape rules, written from the words of the
    specification (section 4.1, step 3), to be compared with what
    [ChessBoard.isLegalMove] accepts. *)
Module Spec.

Definition empty_at (b : ChessBoard.t) (sq : Z * Z) : bool :=
  match ChessBoard.getSquare (fst sq) (snd sq) b with
  | Return None => true
  | _ => false
  end.

(** The squares strictly between origin and destination of a
    straight or diagonal move. *)
Definition between (fromRank fromFile toRank toFile : Z) : list (Z * Z) :=
  let steps := Z.max (Z.abs (toRank - fromRank)) (Z.abs (toFile - fromFile)) in
  map (fun k => (fromRank + Z.of_nat k * Z.sgn (toRank - fromRank),
                 fromFile + Z.of_nat k * Z.sgn (toFile - fromFile)))
    (seq 1 (Z.to_nat steps - 1)).

Definition path_clear (b : ChessBoard.t)
    (fromRank fromFile toRank toFile : Z) : bool :=
  forallb (empty_at b) (between fromRank fromFile toRank toFile).

Definition rook_rule (b : ChessBoard.t)
    (fromRank fromFile toRank toFile : Z) : bool :=
  ((toRank =? fromRank) || (toFile =? fromFile))
  && path_clear b fromRank fromFile toRank toFile.

Definition bishop_rule (b : ChessBoard.t)
    (fromRank fromFile toRank toFile : Z) : bool :=
  (Z.abs (toRank - fromRank) =? Z.abs (toFile - fromFile))
  && path_clear b fromRank fromFile toRank toFile.

Definition knight_rule (fromRank fromFile toRank toFile : Z) : bool :=
  let dr := Z.abs (toRank - fromRank) in
  let df := Z.abs (toFile - fromFile) in
  ((dr =? 1) && (df =? 2)) || ((dr =? 2) && (df =? 1)).

(** One square in any direction, or two files sideways with the
    castling right of that side (queen side is toward file 0). *)
Definition king_rule (b : ChessBoard.t) (color : Color)
    (fromRank fromFile toRank toFile : Z) : bool :=
  let dr := Z.abs (toRank - fromRank) in
  let df := Z.abs (toFile - fromFile) in
  let rights := pc_get (ChessBoard.flag_canCastle b) color in
  ((dr <=? 1) && (df <=? 1))
  || ((dr =? 0) && (df =? 2)
      && (if toFile <? fromFile then fst rights else snd rights)).

Definition shape_rule (b : ChessBoard.t) (color : Color) (kind : Kind)
    (fromRank fromFile toRank toFile : Z) : bool :=
  match kind with
  | PAWN => true
  | ROOK => rook_rule b fromRank fromFile toRank toFile
  | BISH => bishop_rule b fromRank fromFile toRank toFile
  | QUEN => rook_rule b fromRank fromFile toRank toFile
            || bishop_rule b fromRank fromFile toRank toFile
  | KNGT => knight_rule fromRank fromFile toRank toFile
  | KING => king_rule b color fromRank fromFile toRank toFile
  end.

End Spec.

(** A non-pawn move of the fresh board that [isLegalMove] accepts while
    the shape rule of its piece refuses it. *)
Definition accepted_against_shape (kind : Kind)
    (fromRank fromFile toRank toFile : Z) : Prop :=
  ChessBoard.getSquare fromRank fromFile ChessBoard.init
    = Return (Some (WHITE, kind))
  /\ ChessBoard.isLegalMove WHITE fromRank fromFile toRank toFile
       ChessBoard.init = Return true
  /\ Spec.shape_rule ChessBoard.init WHITE kind
       fromRank fromFile toRank toFile = false.

(** A board given to the constructor: eight separate ranks, empty but
    for a BLACK pawn on (5, 6) and a WHITE pawn on (1, 2) with a BLACK
    rook two ranks ahead of it on (3, 2). *)
Definition sparse_board : ChessBoard.t :=
  ChessBoard.init_from
    [0; 1; 2; 3; 4; 5; 6; 7]%nat
    [ repeat None 8;
      [None; None; Some (WHITE, PAWN); None; None; None; None; None];
      repeat None 8;
      [None; None; Some (BLACK, ROOK); None; None; None; None; None];
      repeat None 8;
      [None; None; None; None; None; None; Some (BLACK, PAWN); None];
      repeat None 8;
      repeat None 8 ].

(** Partial correctness of a method body: from a state satisfying [P],
    a normal return with value [a] ends in a state satisfying [Q a]. *)
Definition hoare {S A : Type} (P : S -> Prop) (c : M S A)
    (Q : A -> S -> Prop) : Prop :=
  forall s, P s ->
    match c s with
    | (Return a, s') => Q a s'
    | _ => True
    end.

(** Any-outcome invariance: the state a body ends in, however it ends,
    satisfies [I] when the state it started from does. *)
Definition keeps {S A : Type} (I : S -> Prop) (c : M S A) : Prop :=
  forall s, I s -> I (snd (c s)).

(** A board of eight ranks, each referring to a row object of eight
    squares. *)
Definition eight_by_eight (b : ChessBoard.t) : Prop :=
  List.length (ChessBoard.board b) = 8%nat
  /\ Forall (fun r => exists row,
               nth_error (ChessBoard.rows b) r = Some row
               /\ List.length row = 8%nat)
       (ChessBoard.board b).

(** A coordinate Python accepts as an index into a list of eight. *)
Definition indexable (i : Z) : Prop := -8 <= i < 8.

(** A ply as the arguments of [ChessBoard.makePly]. *)
Record ply_args : Type := Ply {
  ply_color : Color;
  ply_fromRank : Z; ply_fromFile : Z;
  ply_toRank : Z; ply_toFile : Z
}.

(** The board left by a sequence of [makePly] calls, whatever each of
    them answered. *)
Fixpoint play (plies : list ply_args) (b : ChessBoard.t) : ChessBoard.t :=
  match plies with
  | [] => b
  | p :: more =>
      play more
        (snd (ChessBoard.makePly (ply_color p) (ply_fromRank p)
                (ply_fromFile p) (ply_toRank p) (ply_toFile p) b))
  end.

(** The rank step that counts as forward for a pawn of the color. *)
Definition forward (color : Color) : Z :=
  match color with WHITE => 1 | BLACK => -1 end.

(** The square holds a piece of the other color. *)
Definition enemy_of (color : Color) (e : entry) : bool :=
  negb (ChessBoard.is_none e) && negb (ChessBoard.owned_by color e).

(** The error strings of [ChessMatch.makePly], continued. *)
Definition NOT_A_PLAYER : string := "You are not a player in this game".
Definition ILLEGAL_MOVE : string := "Illegal move".

(** A call on a match object. *)
Inductive match_op : Type :=
| DoJoin (playerID : Z)
| DoPly (player fromRank fromFile toRank toFile : Z).

(** The match left by a sequence of calls, whatever each answered. *)
Fixpoint run_ops (ops : list match_op) (m : ChessMatch.t) : ChessMatch.t :=
  match ops with
  | [] => m
  | DoJoin p :: more => run_ops more (snd (ChessMatch.join p m))
  | DoPly p fr ff tr tf :: more =>
      run_ops more (snd (ChessMatch.makePly p fr ff tr tf m))
  end.

(** What holds of the seats and the status of every match that the
    constructor, [join] and [makePly] produce. *)
Record seats_sound (m : ChessMatch.t) : Prop := SeatsSound {
  sound_status :
    ChessMatch.status m = ChessMatch.STATUS_PENDING
    \/ ChessMatch.status m = ChessMatch.STATUS_ONGOING;
  sound_ongoing :
    ChessMatch.status m = ChessMatch.STATUS_ONGOING <->
    (pc_get (ChessMatch.players m) WHITE <> None
     /\ pc_get (ChessMatch.players m) BLACK <> None);
  sound_no_self_play :
    forall p, ~ (pc_get (ChessMatch.players m) WHITE = Some p
                 /\ pc_get (ChessMatch.players m) BLACK = Some p);
  sound_pending_history :
    ChessMatch.status m = ChessMatch.STATUS_PENDING ->
    ChessMatch.history m = []
}.

(** [pending_black_only] after [join(8)]: 8 plays WHITE, 7 BLACK. *)
Definition ongoing_8_7 : ChessMatch.t :=
  ChessMatch.Build ChessBoard.init (PerColor (Some 8) (Some 7))
    ChessMatch.STATUS_ONGOING [].


(** The bounds of [_getUniqueInt]. *)
Definition maxVals : Z := 2 ^ 32 - 1.
Definition maxSize : Z := 2 ^ 31.

(** The reply of [register] to a name already taken. *)
Definition DUPLICATE_NAME : TournamentSystem.reply :=
  (false, [("error", PyStr "player with this name already exists")]).

(** The replies of the registry to an unknown or inactive game. *)
Definition INVALID_GAME_ID : TournamentSystem.reply :=
  (false, [("error", PyStr "Invalid game ID")]).
Definition NOT_ACTIVE : TournamentSystem.reply :=
  (false, [("error", PyStr "Game not active")]).

(** The registry with the match stored under [gameID] replaced. *)
Definition with_game (gameID : Z) (m : ChessMatch.t)
    (w : TournamentSystem.world) : TournamentSystem.world :=
  TournamentSystem.World
    (TournamentSystem.Build
       (dict_set (TournamentSystem.games (TournamentSystem.self w)) gameID m)
       (TournamentSystem.players (TournamentSystem.self w)))
    (TournamentSystem.random w).

(** A registry holding the match in progress [ongoing_11_12] as game
    42 and a match won by WHITE as game 43. *)
Definition two_games : TournamentSystem.world :=
  TournamentSystem.World
    (TournamentSystem.Build
       [(42, ongoing_11_12);
        (43, ChessMatch.set_status ChessMatch.STATUS_WHITE_WON ongoing_11_12)]
       [(11, "Alice"); (12, "Bob")])
    [].

(** The line [lineReceived] sends for an error message. *)
Definition error_line (line errMsg : string) : string :=
  append "ERROR: "
    (append errMsg
       (append " [query="
          (append NetworkServer.quote
             (append line (append NetworkServer.quote "]"))))).

(** The request name and the argument text of a request line. *)
Definition verb_of (line : string) : string :=
  fst (fst (NetworkServer.partition_space line)).
Definition argument_of (line : string) : string :=
  snd (NetworkServer.partition_space line).

(** The row objects after the two writes of an applied ply: the origin
    square of row [rf] is emptied, then the moved piece is stored in
    row [rt], which is the row just written when [rt = rf]. *)
Definition rows_after_ply (rows : list (list entry)) (rf kf rt kt : nat)
    (rowf rowt : list entry) (moved : entry) : list (list entry) :=
  let rows1 := list_update rows rf (list_update rowf kf None) in
  let rowt1 := if Nat.eqb rt rf then list_update rowf kf None else rowt in
  list_update rows1 rt (list_update rowt1 kt moved).

(** A board given to the constructor, eight separate ranks: a WHITE
    pawn on (7, 3) with (0, 3) empty, and a WHITE pawn on (1, 0) with
    a BLACK rook on (2, 7). *)
Definition edge_board : ChessBoard.t :=
  ChessBoard.init_from
    [0; 1; 2; 3; 4; 5; 6; 7]%nat
    [ repeat None 8;
      [Some (WHITE, PAWN); None; None; None; None; None; None; None];
      [None; None; None; None; None; None; None; Some (BLACK, ROOK)];
      repeat None 8;
      repeat None 8;
      repeat None 8;
      repeat None 8;
      [None; None; None; Some (WHITE, PAWN); None; None; None; None] ].

(** The identifiers that the accepted calls return when the names are
    registered one after the other, in the order of the calls. *)
Fixpoint registered_ids (names : list string) (w : TournamentSystem.world)
  : list Z :=
  match names with
  | [] => []
  | name :: more =>
      let (r, w') := TournamentSystem.register name w in
      match r with
      | Return (true, [(_, PyInt n)]) => n :: registered_ids more w'
      | _ => registered_ids more w'
      end
  end.

(** * Properties *)

(** ** Stepping through a method body *)

Lemma bind_lift {S A B : Type} (r : S -> outcome A) (k : A -> M S B) (s : S) :
  bind (lift r) k s
  = match r s with
    | Return a => k a s
    | Raise e => (Raise e, s)
    | Stuck => (Stuck, s)
    end.
Proof. unfold lift. cbn. destruct (r s); reflexivity. Qed.

Lemma bind_get {S B : Type} (k : S -> M S B) (s : S) :
  bind get k s = k s s.
Proof. reflexivity. Qed.

Lemma bind_modify {S B : Type} (f : S -> S) (k : unit -> M S B) (s : S) :
  bind (modify f) k s = k tt (f s).
Proof. reflexivity. Qed.

(** ** Rejected moves (C7) *)

(** C7. Whenever [isLegalMove] returns [False], [ChessBoard.makePly]
    returns [False] and the board object is exactly the one it was
    given: the row references, the row objects behind them (hence the
    8x8 grid), both en-passant flag lists and both castling pairs. *)
Theorem makePly_illegal_leaves_board :
  forall (b : ChessBoard.t) (color : Color) (fromRank fromFile toRank toFile : Z),
    ChessBoard.isLegalMove color fromRank fromFile toRank toFile b
      = Return false ->
    ChessBoard.makePly color fromRank fromFile toRank toFile b
      = (Return false, b).
Proof.
  intros b color fr ff tr tf Hill.
  unfold ChessBoard.makePly.
  rewrite bind_lift, Hill. reflexivity.
Qed.

Lemma makePly_illegal_leaves_board_witness :
  ChessBoard.makePly WHITE 1 0 3 0 ChessBoard.init
    = (Return false, ChessBoard.init).
Proof.
  apply (makePly_illegal_leaves_board ChessBoard.init WHITE 1 0 3 0).
  reflexivity.
Defined.

(** The same when the legality check raises (a coordinate outside the
    board): the exception passes through and nothing was written. *)
Lemma makePly_raise_leaves_board :
  forall b color fromRank fromFile toRank toFile e,
    ChessBoard.isLegalMove color fromRank fromFile toRank toFile b
      = Raise e ->
    ChessBoard.makePly color fromRank fromFile toRank toFile b
      = (Raise e, b).
Proof.
  intros b color fr ff tr tf e Hr.
  unfold ChessBoard.makePly.
  rewrite bind_lift, Hr. reflexivity.
Qed.

(** ** Turn order (C8) *)

Lemma even_length_mod2 (n : nat) :
  (Z.of_nat n mod 2 =? 0) = Nat.even n.
Proof.
  destruct (Nat.Even_or_Odd n) as [[k Hk] | [k Hk]]; subst n.
  - replace (Z.of_nat (2 * k)) with (Z.of_nat k * 2) by lia.
    rewrite Z.mod_mul by lia.
    rewrite Nat.even_mul. reflexivity.
  - replace (Z.of_nat (2 * k + 1)) with (1 + Z.of_nat k * 2) by lia.
    rewrite Z.mod_add by lia.
    rewrite Nat.even_add, Nat.even_mul. reflexivity.
Qed.

Lemma whoseTurn_white_iff_even (m : ChessMatch.t) :
  ChessMatch.whoseTurn m = WHITE
  <-> Nat.even (List.length (ChessMatch.history m)) = true.
Proof.
  unfold ChessMatch.whoseTurn. rewrite even_length_mod2.
  destruct (Nat.even _); split; intros H; try reflexivity; discriminate H.
Qed.

Lemma slot_eq_player (s : option Z) (p : Z) :
  py_eq (ChessMatch.val_of_slot s) (PyInt p) = true <-> s = Some p.
Proof.
  destruct s as [q|]; cbn.
  - rewrite Z.eqb_eq. split; intros H; [subst; reflexivity | congruence].
  - split; intros H; discriminate H.
Qed.

Lemma status_eqb_eq (a b : ChessMatch.Status) :
  ChessMatch.status_eqb a b = true <-> a = b.
Proof.
  destruct a, b; cbn; split; intros H; try reflexivity; discriminate H.
Qed.

Lemma color_eqb_eq (a b : Color) : color_eqb a b = true <-> a = b.
Proof. destruct a, b; cbn; split; intros H; try reflexivity; discriminate H. Qed.

Lemma pending_black_only_reached :
  ChessMatch.init (Some 7) [1] = (Return pending_black_only, []).
Proof. reflexivity. Qed.

Lemma ongoing_11_12_reached :
  exists m0 : ChessMatch.t,
    ChessMatch.init (Some 11) [0] = (Return m0, [])
    /\ ChessMatch.join 12 m0 = (Return (Some BLACK), ongoing_11_12).
Proof. eexists. split; reflexivity. Qed.

(** C8, as stated, fails on a match that is not in progress: in the
    pending match holding only player 7 as BLACK, WHITE is to move, 7
    occupies the color that is not to move, and [makePly] answers that
    the game is not in progress, not that it is not 7's turn. *)
Lemma not_your_turn_needs_ongoing :
  ~ (forall (m : ChessMatch.t) (p fromRank fromFile toRank toFile : Z),
       pc_get (ChessMatch.players m) (opposite (ChessMatch.whoseTurn m))
         = Some p ->
       ChessMatch.makePly p fromRank fromFile toRank toFile m
         = (Return NOT_YOUR_TURN, m)).
Proof.
  intros claim.
  specialize (claim pending_black_only 7 6 0 5 0 eq_refl).
  cbv in claim. discriminate claim.
Qed.

(** The status is tested first: a match that is not in progress answers
    so to every caller and is left as it was. *)
Lemma makePly_not_in_progress :
  forall (m : ChessMatch.t) (p fromRank fromFile toRank toFile : Z),
    ChessMatch.status m <> ChessMatch.STATUS_ONGOING ->
    ChessMatch.makePly p fromRank fromFile toRank toFile m
      = (Return NOT_IN_PROGRESS, m).
Proof.
  intros m p fr ff tr tf Hst.
  assert (E : ChessMatch.status_eqb (ChessMatch.status m)
                ChessMatch.STATUS_ONGOING = false).
  { destruct (ChessMatch.status_eqb (ChessMatch.status m)
                ChessMatch.STATUS_ONGOING) eqn:E; [|reflexivity].
    apply status_eqb_eq in E. contradiction. }
  unfold ChessMatch.makePly. rewrite bind_get, E. reflexivity.
Qed.

(** A player seated on both colors of a match in progress is let
    through when WHITE is to move: the WHITE seat is looked at first. *)
Lemma not_your_turn_needs_one_seat :
  let m := ChessMatch.Build ChessBoard.init (PerColor (Some 7) (Some 7))
             ChessMatch.STATUS_ONGOING [] in
  pc_get (ChessMatch.players m) (opposite (ChessMatch.whoseTurn m)) = Some 7
  /\ fst (ChessMatch.makePly 7 1 0 2 0 m) = Return "SUCCESS".
Proof. split; reflexivity. Qed.

(** C8 (amended). For every match with ply history of length n,
    [whoseTurn] is WHITE exactly when n is even; and [makePly] by the
    player who holds the color that is not to move leaves the whole
    match (history and board included) as it was, whatever the status:
    it returns the not-your-turn message when the status is ONGOING and
    the game-not-in-progress message otherwise. The single exception is
    a match in progress with WHITE to move in which that player also
    holds the WHITE seat: the WHITE seat is looked at first. With BLACK
    to move, holding both seats makes no difference. *)
Theorem turn_order_enforced :
  forall (m : ChessMatch.t),
    (ChessMatch.whoseTurn m = WHITE
     <-> Nat.even (List.length (ChessMatch.history m)) = true)
    /\ (forall (p fromRank fromFile toRank toFile : Z),
          pc_get (ChessMatch.players m) (opposite (ChessMatch.whoseTurn m))
            = Some p ->
          (ChessMatch.status m = ChessMatch.STATUS_ONGOING ->
           ChessMatch.whoseTurn m = WHITE ->
           pc_get (ChessMatch.players m) WHITE <> Some p) ->
          snd (ChessMatch.makePly p fromRank fromFile toRank toFile m) = m
          /\ (ChessMatch.status m = ChessMatch.STATUS_ONGOING ->
              ChessMatch.makePly p fromRank fromFile toRank toFile m
                = (Return NOT_YOUR_TURN, m))
          /\ (ChessMatch.status m <> ChessMatch.STATUS_ONGOING ->
              ChessMatch.makePly p fromRank fromFile toRank toFile m
                = (Return NOT_IN_PROGRESS, m))).
Proof.
  intros m. split; [apply whoseTurn_white_iff_even|].
  intros p fr ff tr tf Hother Hexc.
  assert (Hon : ChessMatch.status m = ChessMatch.STATUS_ONGOING ->
                ChessMatch.makePly p fr ff tr tf m = (Return NOT_YOUR_TURN, m)).
  { intros Hst. specialize (Hexc Hst).
    unfold ChessMatch.makePly. rewrite bind_get, Hst.
    change (ChessMatch.status_eqb ChessMatch.STATUS_ONGOING
              ChessMatch.STATUS_ONGOING) with true. cbv iota.
    destruct (ChessMatch.whoseTurn m) eqn:Hturn; cbn [opposite] in Hother.
    - (* BLACK to move, p holds WHITE: the first test settles it *)
      rewrite (proj2 (slot_eq_player _ p) Hother). reflexivity.
    - (* WHITE to move, p holds BLACK and not WHITE *)
      destruct (py_eq (ChessMatch.val_of_slot
                         (pc_get (ChessMatch.players m) WHITE)) (PyInt p))
        eqn:Hw.
      + apply slot_eq_player in Hw. exfalso. exact (Hexc eq_refl Hw).
      + rewrite (proj2 (slot_eq_player _ p) Hother). reflexivity. }
  assert (Hoff : ChessMatch.status m <> ChessMatch.STATUS_ONGOING ->
                 ChessMatch.makePly p fr ff tr tf m
                   = (Return NOT_IN_PROGRESS, m)).
  { intros Hst. apply makePly_not_in_progress. exact Hst. }
  split; [|split; assumption].
  destruct (ChessMatch.status_eqb (ChessMatch.status m)
              ChessMatch.STATUS_ONGOING) eqn:E.
  - apply status_eqb_eq in E. rewrite (Hon E). reflexivity.
  - rewrite Hoff; [reflexivity|].
    intros Hst. rewrite Hst in E. discriminate E.
Qed.

Lemma turn_order_enforced_witness :
  ChessMatch.makePly 12 6 0 5 0 ongoing_11_12
    = (Return NOT_YOUR_TURN, ongoing_11_12)
  /\ ChessMatch.makePly 7 6 0 5 0 pending_black_only
     = (Return NOT_IN_PROGRESS, pending_black_only).
Proof.
  split.
  - apply (proj2 (turn_order_enforced ongoing_11_12) 12 6 0 5 0).
    + reflexivity.
    + intros _ _. cbn. discriminate.
    + reflexivity.
  - apply (proj2 (turn_order_enforced pending_black_only) 7 6 0 5 0).
    + reflexivity.
    + intros H. discriminate H.
    + discriminate.
Defined.

(** ** Joining a match (C9) *)

Lemma player_in_values (m : ChessMatch.t) (p : Z) :
  py_in py_eq (PyInt p) (ChessMatch.player_values m) = true <-> occupies m p.
Proof.
  unfold occupies, ChessMatch.player_values, pc_values, py_in.
  destruct m as [b [w k] st h]; cbn.
  destruct w as [x|], k as [y|]; cbn;
    rewrite ?orb_false_r, ?orb_true_iff, ?Z.eqb_eq;
    split; intros H;
    repeat match goal with
           | H : _ \/ _ |- _ => destruct H
           | H : Some _ = Some _ |- _ => injection H as H
           | H : false = true |- _ => discriminate H
           | H : None = Some _ |- _ => discriminate H
           end; subst; auto.
Qed.

(** C9. [join] returns [None] and changes nothing when the match is not
    PENDING or the player already holds a seat; it also returns [None]
    on a pending match with no free seat. Otherwise the player is seated
    on a free color, which is returned; nothing else of the match
    changes except the status, which becomes ONGOING exactly when the
    other seat was already taken (the seat just filled is the second)
    and stays PENDING when it was not. *)
Theorem join_seats_player :
  forall (m : ChessMatch.t) (p : Z),
    (ChessMatch.status m <> ChessMatch.STATUS_PENDING \/ occupies m p ->
     ChessMatch.join p m = (Return None, m))
    /\ (ChessMatch.status m = ChessMatch.STATUS_PENDING ->
        ~ occupies m p ->
        ((forall c, pc_get (ChessMatch.players m) c <> None) ->
         ChessMatch.join p m = (Return None, m))
        /\ ((exists c, pc_get (ChessMatch.players m) c = None) ->
            exists (c : Color) (m' : ChessMatch.t),
              ChessMatch.join p m = (Return (Some c), m')
              /\ pc_get (ChessMatch.players m) c = None
              /\ ChessMatch.players m'
                 = pc_set (ChessMatch.players m) c (Some p)
              /\ ChessMatch.board m' = ChessMatch.board m
              /\ ChessMatch.history m' = ChessMatch.history m
              /\ (ChessMatch.status m' = ChessMatch.STATUS_ONGOING
                  <-> pc_get (ChessMatch.players m) (opposite c) <> None)
              /\ (pc_get (ChessMatch.players m) (opposite c) = None ->
                  ChessMatch.status m' = ChessMatch.STATUS_PENDING))).
Proof.
  intros m p. split.
  - intros [Hst | Hocc]; unfold ChessMatch.join; rewrite bind_get.
    + destruct (ChessMatch.status_eqb (ChessMatch.status m)
                  ChessMatch.STATUS_PENDING) eqn:E.
      * apply status_eqb_eq in E. contradiction.
      * reflexivity.
    + destruct (negb _); [reflexivity|].
      rewrite (proj2 (player_in_values m p) Hocc). reflexivity.
  - intros Hst Hfree. unfold ChessMatch.join. rewrite bind_get, Hst.
    change (negb (ChessMatch.status_eqb ChessMatch.STATUS_PENDING
                    ChessMatch.STATUS_PENDING)) with false. cbv iota.
    destruct (py_in py_eq (PyInt p) (ChessMatch.player_values m)) eqn:Hin.
    { apply player_in_values in Hin. contradiction. }
    clear Hin Hfree.
    destruct m as [b [w k] st h]; cbn in Hst; subst st.
    split.
    + intros Hfull.
      pose proof (Hfull WHITE) as Hw. pose proof (Hfull BLACK) as Hk.
      cbn in Hw, Hk.
      destruct w as [x|]; [|contradiction].
      destruct k as [y|]; [|contradiction].
      reflexivity.
    + intros Hex.
      destruct w as [x|].
      * destruct k as [y|].
        -- (* no free seat: the premise does not hold *)
           exfalso. destruct Hex as [[|] H]; discriminate H.
        -- exists BLACK. eexists. split; [reflexivity|]. cbn.
           repeat split; try reflexivity; try discriminate; intros H; discriminate H.
      * destruct k as [y|].
        -- exists WHITE. eexists. split; [reflexivity|]. cbn.
           repeat split; try reflexivity; try discriminate; intros H; discriminate H.
        -- exists WHITE. eexists. split; [reflexivity|]. cbn.
           repeat split; try reflexivity; intros H;
             try discriminate H; try (exfalso; apply H; reflexivity).
Qed.

Lemma join_seats_player_witness :
  ChessMatch.join 7 pending_black_only = (Return None, pending_black_only)
  /\ exists (c : Color) (m' : ChessMatch.t),
       ChessMatch.join 8 pending_black_only = (Return (Some c), m')
       /\ pc_get (ChessMatch.players pending_black_only) c = None
       /\ ChessMatch.players m'
          = pc_set (ChessMatch.players pending_black_only) c (Some 8)
       /\ ChessMatch.board m' = ChessMatch.board pending_black_only
       /\ ChessMatch.history m' = ChessMatch.history pending_black_only
       /\ (ChessMatch.status m' = ChessMatch.STATUS_ONGOING
           <-> pc_get (ChessMatch.players pending_black_only) (opposite c)
               <> None)
       /\ (pc_get (ChessMatch.players pending_black_only) (opposite c) = None ->
           ChessMatch.status m' = ChessMatch.STATUS_PENDING).
Proof.
  split.
  - apply (proj1 (join_seats_player pending_black_only 7)).
    right. right. reflexivity.
  - apply (proj2 (proj2 (join_seats_player pending_black_only 8) eq_refl
                    ltac:(intros [H | H]; discriminate H))).
    exists WHITE. reflexivity.
Defined.

(** ** Shape rules of the pieces (C1) *)

(** C1 does not hold of the code: [isLegalMove] has no check for rooks,
    knights, bishops, queens or kings beyond ownership of the two
    squares. On the fresh board it accepts a rook moving two ranks up
    and one file across, a rook jumping over its own pawn, a knight
    moving three ranks straight, a bishop moving straight, a queen
    making a knight's move and a king moving three ranks. *)
Theorem isLegalMove_ignores_piece_shape :
  accepted_against_shape ROOK 0 0 2 1
  /\ accepted_against_shape ROOK 0 0 2 0
  /\ accepted_against_shape KNGT 0 1 3 1
  /\ accepted_against_shape BISH 0 2 2 2
  /\ accepted_against_shape QUEN 0 3 2 4
  /\ accepted_against_shape KING 0 4 3 4.
Proof. unfold accepted_against_shape. repeat split; vm_compute; reflexivity. Qed.

(** What [isLegalMove] does for a piece that is not a pawn: the move is
    accepted exactly when the destination does not hold a piece of the
    mover, wherever it is. *)
Lemma isLegalMove_non_pawn :
  forall (b : ChessBoard.t) (color : Color) (kind : Kind)
         (fromRank fromFile toRank toFile : Z) (destin : entry),
    kind <> PAWN ->
    ChessBoard.getSquare fromRank fromFile b = Return (Some (color, kind)) ->
    ChessBoard.getSquare toRank toFile b = Return destin ->
    ChessBoard.isLegalMove color fromRank fromFile toRank toFile b
      = Return (negb (ChessBoard.owned_by color destin)).
Proof.
  intros b color kind fr ff tr tf destin Hk Ho Hd.
  unfold ChessBoard.isLegalMove. rewrite Ho, Hd. cbn [bind Monad_outcome].
  rewrite (proj2 (color_eqb_eq color color) eq_refl). cbn [negb].
  destruct kind; try contradiction;
    cbn [kind_eqb kind_const String.eqb Ascii.eqb Bool.eqb];
    destruct (ChessBoard.owned_by color destin); reflexivity.
Qed.

(** ** The pawn's two-square advance (C3) *)

(** C3 does not hold of the code. On the fresh board the WHITE pawn on
    (1, 0) has both (2, 0) and (3, 0) empty before it, and its advance
    to (3, 0) is refused: the test of the starting rank compares the
    origin file with 2 (6 for BLACK). In the other direction, on a board
    with separate ranks, the WHITE pawn on (1, 2) may advance onto the
    BLACK rook on (3, 2), and the BLACK pawn on (5, 6), off its starting
    rank, may advance two squares. *)
Theorem pawn_double_advance_tests_file :
  (ChessBoard.getSquare 1 0 ChessBoard.init = Return (Some (WHITE, PAWN))
   /\ ChessBoard.getSquare 2 0 ChessBoard.init = Return None
   /\ ChessBoard.getSquare 3 0 ChessBoard.init = Return None
   /\ ChessBoard.isLegalMove WHITE 1 0 3 0 ChessBoard.init = Return false)
  /\ (ChessBoard.getSquare 1 2 sparse_board = Return (Some (WHITE, PAWN))
      /\ ChessBoard.getSquare 3 2 sparse_board = Return (Some (BLACK, ROOK))
      /\ ChessBoard.isLegalMove WHITE 1 2 3 2 sparse_board = Return true)
  /\ (ChessBoard.getSquare 5 6 sparse_board = Return (Some (BLACK, PAWN))
      /\ ChessBoard.isLegalMove BLACK 5 6 3 6 sparse_board = Return true).
Proof. repeat split; vm_compute; reflexivity. Qed.

(** What [isLegalMove] does for a pawn when the arguments, as numbers,
    keep the file and add two forward steps to the rank ([toFile] is
    [fromFile], [toRank] is [fromRank + 2] for WHITE, [fromRank - 2]
    for BLACK): the move is accepted exactly when the argument
    [fromFile] is the number 2 (WHITE) or 6 (BLACK) and the destination
    holds no piece of the mover. Neither the origin rank nor the square
    in between is looked at. The test reads the arguments, not the
    squares they address: file 2 given as -6 fails it, and the same two
    squares given with [toRank] as a negative index are not this case
    (see [pawn_rules_read_arguments]). *)
Lemma isLegalMove_double_advance :
  forall (b : ChessBoard.t) (color : Color) (fromRank fromFile : Z)
         (destin : entry),
    let toRank := fromRank + 2 * (if color_eqb color WHITE then 1 else -1) in
    ChessBoard.getSquare fromRank fromFile b = Return (Some (color, PAWN)) ->
    ChessBoard.getSquare toRank fromFile b = Return destin ->
    ChessBoard.isLegalMove color fromRank fromFile toRank fromFile b
      = Return ((fromFile =? (if color_eqb color WHITE then 2 else 6))
                && negb (ChessBoard.owned_by color destin)).
Proof.
  intros b color fr ff destin toRank Ho Hd. subst toRank.
  unfold ChessBoard.isLegalMove. rewrite Ho, Hd. cbn [bind Monad_outcome].
  rewrite (proj2 (color_eqb_eq color color) eq_refl). cbn [negb].
  change (kind_eqb PAWN PAWN) with true. cbv iota.
  replace ((fr + 2 * (if color_eqb color WHITE then 1 else -1) - fr)
           * (if color_eqb color WHITE then 1 else -1)) with 2
    by (destruct (color_eqb color WHITE); lia).
  replace (Z.abs (ff - ff)) with 0 by lia.
  cbn [py_in existsb Z.eqb negb orb Pos.eqb].
  destruct (ff =? (if color_eqb color WHITE then 2 else 6));
    destruct (ChessBoard.owned_by color destin); reflexivity.
Qed.

(** ** What a ply does to the flags (C5, C6) *)

Section HoareRules.
Context {S : Type}.

Lemma hoare_bind {A B : Type} (P : S -> Prop) (R : A -> S -> Prop)
    (Q : B -> S -> Prop) (c : M S A) (k : A -> M S B) :
  hoare P c R -> (forall a, hoare (R a) (k a) Q) -> hoare P (bind c k) Q.
Proof.
  intros Hc Hk s HP. specialize (Hc s HP). cbn.
  destruct (c s) as [[a | e |] s']; try exact I.
  apply (Hk a s' Hc).
Qed.

Lemma hoare_ret {A : Type} (P : S -> Prop) (Q : A -> S -> Prop) (a : A) :
  (forall s, P s -> Q a s) -> hoare P (ret a) Q.
Proof. intros H s HP. cbn. auto. Qed.

Lemma hoare_lift {A : Type} (P : S -> Prop) (r : S -> outcome A) :
  hoare P (lift r) (fun _ s => P s).
Proof. intros s HP. unfold lift. destruct (r s); auto. Qed.

Lemma hoare_modify (P Q : S -> Prop) (f : S -> S) :
  (forall s, P s -> Q (f s)) -> hoare P (modify f) (fun _ s => Q s).
Proof. intros H s HP. cbn. auto. Qed.

Lemma hoare_when (P : S -> Prop) (c : bool) (body : M S unit) :
  hoare P body (fun _ s => P s) -> hoare P (when c body) (fun _ s => P s).
Proof.
  intros H. destruct c; cbn; [exact H|].
  apply hoare_ret. auto.
Qed.

Lemma hoare_weaken {A : Type} (P P' : S -> Prop) (Q Q' : A -> S -> Prop)
    (c : M S A) :
  hoare P' c Q' -> (forall s, P s -> P' s) ->
  (forall a s, Q' a s -> Q a s) -> hoare P c Q.
Proof.
  intros H HP HQ s Hs. specialize (H s (HP s Hs)).
  destruct (c s) as [[a | e |] s']; auto.
Qed.
End HoareRules.

Lemma when_false {S : Type} (body : M S unit) : when false body = ret tt.
Proof. reflexivity. Qed.

(** One statement of a method body that keeps the assertion [P]. *)
Ltac hstep P := eapply (hoare_bind P (fun _ s => P s)).

(** The moved piece is a [(color, kind)] tuple or [None]; compared with
    a kind constant, a string, it is never equal. *)
Lemma entry_never_equals_kind (e : entry) (k : Kind) :
  py_eq (val_of_entry e) (PyStr (kind_const k)) = false.
Proof. destruct e as [[c k']|]; reflexivity. Qed.

(** Writing a square touches the row objects only. *)
Lemma setSquare_keeps_flags (rank file : Z) (v : entry)
    (P : percolor (list bool) -> percolor (bool * bool) -> Prop) :
  hoare (fun b => P (ChessBoard.flag_enpassant b) (ChessBoard.flag_canCastle b))
    (ChessBoard.setSquare rank file v)
    (fun _ b => P (ChessBoard.flag_enpassant b) (ChessBoard.flag_canCastle b)).
Proof.
  unfold ChessBoard.setSquare.
  eapply hoare_bind; [apply hoare_lift | intros r; cbv beta].
  eapply hoare_bind; [apply hoare_lift | intros row; cbv beta].
  eapply hoare_bind; [apply hoare_lift | intros row'; cbv beta].
  apply hoare_modify. intros b Hb. exact Hb.
Qed.

(** No ply ever changes a castling pair: the two tests that guard the
    updates compare the moved tuple with a kind constant. *)
Lemma makePly_keeps_canCastle :
  forall (color : Color) (fromRank fromFile toRank toFile : Z)
         (rights : percolor (bool * bool)),
    hoare (fun b => ChessBoard.flag_canCastle b = rights)
      (ChessBoard.makePly color fromRank fromFile toRank toFile)
      (fun _ b => ChessBoard.flag_canCastle b = rights).
Proof.
  intros color fr ff tr tf rights.
  pose (P := fun b => ChessBoard.flag_canCastle b = rights).
  assert (Hsq : forall r f v,
             hoare P (ChessBoard.setSquare r f v) (fun _ b => P b)).
  { intros r f v.
    apply (setSquare_keeps_flags r f v (fun _ cf => cf = rights)). }
  unfold ChessBoard.makePly. fold P.
  hstep P; [apply hoare_lift | intros legal; cbv beta].
  destruct legal; cbn [negb]; [|apply hoare_ret; auto].
  hstep P; [apply hoare_lift | intros movedPiece; cbv beta].
  hstep P; [apply Hsq | intros ?; cbv beta].
  hstep P; [apply hoare_modify; intros b Hb; exact Hb | intros ?; cbv beta].
  hstep P; [apply hoare_lift | intros prev; cbv beta].
  rewrite !entry_never_equals_kind. cbn [andb]. rewrite !when_false.
  hstep P; [apply hoare_ret; auto | intros ?; cbv beta].
  hstep P; [apply hoare_ret; auto | intros ?; cbv beta].
  hstep P; [apply hoare_ret; auto | intros ?; cbv beta].
  hstep P; [apply Hsq | intros ?; cbv beta].
  hstep P; [apply hoare_lift | intros flag; cbv beta].
  hstep P; [| intros ?; apply hoare_ret; intros s Hs; exact Hs].
  apply hoare_when.
  destruct (color_eqb color WHITE && (tr =? ChessBoard.BOARD_SIZE - 2));
    [apply Hsq|].
  destruct (color_eqb color BLACK && (tr =? 1)); [apply Hsq|].
  apply hoare_ret; auto.
Qed.

(** After every ply that is applied, the mover's en-passant list is
    eight times [False]: it is reset, and the test that guards the one
    assignment of [True] again compares the moved tuple with a kind
    constant. *)
Lemma makePly_leaves_enpassant_clear :
  forall (color : Color) (fromRank fromFile toRank toFile : Z),
    hoare (fun _ => True)
      (ChessBoard.makePly color fromRank fromFile toRank toFile)
      (fun ok b =>
         ok = true ->
         pc_get (ChessBoard.flag_enpassant b) color = repeat false 8).
Proof.
  intros color fr ff tr tf.
  pose (T := fun _ : ChessBoard.t => True).
  pose (J := fun b =>
               pc_get (ChessBoard.flag_enpassant b) color = repeat false 8).
  assert (Hsq : forall r f v,
             hoare J (ChessBoard.setSquare r f v) (fun _ b => J b)).
  { intros r f v.
    apply (setSquare_keeps_flags r f v
             (fun ep _ => pc_get ep color = repeat false 8)). }
  unfold ChessBoard.makePly. fold T.
  hstep T; [apply hoare_lift | intros legal; cbv beta].
  destruct legal; cbn [negb];
    [|apply hoare_ret; intros s _ H; discriminate H].
  hstep T; [apply hoare_lift | intros movedPiece; cbv beta].
  hstep T; [apply (setSquare_keeps_flags _ _ _ (fun _ _ => True))
           | intros ?; cbv beta].
  eapply (hoare_bind T (fun _ b => J b)).
  { apply hoare_modify. intros b _. unfold J. destruct color; reflexivity. }
  intros ?; cbv beta.
  hstep J; [apply hoare_lift | intros prev; cbv beta].
  rewrite !entry_never_equals_kind. cbn [andb]. rewrite !when_false.
  hstep J; [apply hoare_ret; auto | intros ?; cbv beta].
  hstep J; [apply hoare_ret; auto | intros ?; cbv beta].
  hstep J; [apply hoare_ret; auto | intros ?; cbv beta].
  hstep J; [apply Hsq | intros ?; cbv beta].
  hstep J; [apply hoare_lift | intros flag; cbv beta].
  hstep J; [| intros ?; apply hoare_ret; intros s Hs _; exact Hs].
  apply hoare_when.
  destruct (color_eqb color WHITE && (tr =? ChessBoard.BOARD_SIZE - 2));
    [apply Hsq|].
  destruct (color_eqb color BLACK && (tr =? 1)); [apply Hsq|].
  apply hoare_ret; auto.
Qed.

(** C5 does not hold of the code. From the fresh board WHITE plays the
    pawn (1, 4) to (2, 4) and then the king (0, 4) to (1, 4); both plies
    are applied and WHITE's castling pair is still (True, True), where
    it should be (False, False). Likewise after the pawn (1, 0) to
    (2, 0) and the rook (0, 0) to (1, 0) the queen-side flag is still
    True. *)
Theorem castling_rights_never_cleared :
  (let (r1, b1) := ChessBoard.makePly WHITE 1 4 2 4 ChessBoard.init in
   let (r2, b2) := ChessBoard.makePly WHITE 0 4 1 4 b1 in
   r1 = Return true
   /\ ChessBoard.getSquare 0 4 b1 = Return (Some (WHITE, KING))
   /\ r2 = Return true
   /\ ChessBoard.getSquare 1 4 b2 = Return (Some (WHITE, KING))
   /\ pc_get (ChessBoard.flag_canCastle b2) WHITE = (true, true))
  /\ (let (r1, b1) := ChessBoard.makePly WHITE 1 0 2 0 ChessBoard.init in
      let (r2, b2) := ChessBoard.makePly WHITE 0 0 1 0 b1 in
      r1 = Return true
      /\ ChessBoard.getSquare 0 0 b1 = Return (Some (WHITE, ROOK))
      /\ r2 = Return true
      /\ ChessBoard.getSquare 1 0 b2 = Return (Some (WHITE, ROOK))
      /\ pc_get (ChessBoard.flag_canCastle b2) WHITE = (true, true)).
Proof. vm_compute. repeat split; reflexivity. Qed.

(** C6 does not hold of the code. On the fresh board the WHITE pawn on
    (1, 2) makes its first two-square advance to (3, 2); the ply is
    applied, and WHITE's en-passant flag of file 2 is False, like the
    seven others. *)
Theorem double_advance_sets_no_flag :
  let (r, b) := ChessBoard.makePly WHITE 1 2 3 2 ChessBoard.init in
  ChessBoard.getSquare 1 2 ChessBoard.init = Return (Some (WHITE, PAWN))
  /\ r = Return true
  /\ ChessBoard.getSquare 3 2 b = Return (Some (WHITE, PAWN))
  /\ getitem (pc_get (ChessBoard.flag_enpassant b) WHITE) 2 = Return false
  /\ pc_get (ChessBoard.flag_enpassant b) WHITE = repeat false 8.
Proof. vm_compute. repeat split; reflexivity. Qed.

(** ** Squares a ply writes (C10) *)

(** C10 does not hold of the code. On the fresh board the ranks 2 to 5
    are one row object. WHITE's pawn move from (1, 0) to (2, 0) is
    applied, and afterwards (3, 0), (4, 0) and (5, 0), which are neither
    origin nor destination and were empty, hold a WHITE pawn too. *)
Theorem ply_writes_shared_ranks :
  let (r, b) := ChessBoard.makePly WHITE 1 0 2 0 ChessBoard.init in
  r = Return true
  /\ ChessBoard.getSquare 1 0 b = Return None
  /\ ChessBoard.getSquare 2 0 b = Return (Some (WHITE, PAWN))
  /\ (forall rank, In rank [3; 4; 5] ->
        (rank, 0) <> (1, 0) /\ (rank, 0) <> (2, 0)
        /\ ChessBoard.getSquare rank 0 ChessBoard.init = Return None
        /\ ChessBoard.getSquare rank 0 b = Return (Some (WHITE, PAWN)))
  /\ nth 3 (ChessBoard.grid b) [] = Some (WHITE, PAWN) :: repeat None 7
  /\ nth_error (ChessBoard.board ChessBoard.init) 2
     = nth_error (ChessBoard.board ChessBoard.init) 3.
Proof.
  vm_compute. repeat split; try reflexivity;
    repeat match goal with
           | H : _ \/ _ |- _ => destruct H
           | H : False |- _ => destruct H
           end; subst; try reflexivity; intros E; discriminate E.
Qed.

(** ** The registry (C2, C4) *)

Lemma dict_set_same {V : Type} (d : dict V) (k : Z) (v : V) :
  dict_get d k = Some v -> dict_set d k v = d.
Proof.
  induction d as [|[k' v'] d IH]; cbn; intros H; [discriminate H|].
  destruct (k =? k').
  - injection H as H. subst. reflexivity.
  - rewrite (IH H). reflexivity.
Qed.

(** An unknown game id is answered with the invalid-id error and the
    registry is left alone. *)
Lemma makePly_unknown_game :
  forall (w : TournamentSystem.world)
         (playerID gameID fromRank fromFile toRank toFile : Z),
    dict_has_key (TournamentSystem.games (TournamentSystem.self w)) gameID
      = false ->
    TournamentSystem.makePly playerID gameID fromRank fromFile toRank toFile w
      = (Return (false, [("error", PyStr "Invalid game ID")]), w).
Proof.
  intros w p g fr ff tr tf H.
  unfold TournamentSystem.makePly. rewrite bind_get, H. reflexivity.
Qed.

(** For a known game the call of the match's [makePly] passes six
    arguments (the game id among them) to a method of five: it raises
    [TypeError] and the registry is left alone. *)
Lemma makePly_known_game :
  forall (w : TournamentSystem.world)
         (playerID gameID fromRank fromFile toRank toFile : Z),
    dict_has_key (TournamentSystem.games (TournamentSystem.self w)) gameID
      = true ->
    TournamentSystem.makePly playerID gameID fromRank fromFile toRank toFile w
      = (Raise TypeError, w).
Proof.
  intros w p g fr ff tr tf H.
  unfold TournamentSystem.makePly. rewrite bind_get, H.
  unfold dict_has_key in H.
  destruct (dict_get (TournamentSystem.games (TournamentSystem.self w)) g)
    as [m|] eqn:Hg; [|discriminate H].
  cbn. unfold TournamentSystem.on_game. rewrite Hg. cbn.
  rewrite (dict_set_same _ _ _ Hg).
  destruct w as [[gs ps] r]. reflexivity.
Qed.

(** With at least one game in the registry, [joinGame] raises
    [TypeError] at the first turn of its loop (the loop variable is an
    integer key and cannot be unpacked) and the registry is left
    alone. *)
Lemma joinGame_nonempty_registry :
  forall (w : TournamentSystem.world) (playerID : Z),
    TournamentSystem.games (TournamentSystem.self w) <> [] ->
    TournamentSystem.joinGame playerID w = (Raise TypeError, w).
Proof.
  intros w p H. unfold TournamentSystem.joinGame. rewrite bind_lift.
  destruct (TournamentSystem.games (TournamentSystem.self w)) as [|[k m] gs];
    [contradiction|].
  reflexivity.
Qed.

(** With no identifier taken, the first draw is the identifier. *)
Lemma getUniqueInt_first_game (d : Z) (r : rng) :
  _getUniqueInt [] (d :: r) = (Return (1 + d mod (2 ^ 32 - 1 - 1 + 1)), r).
Proof.
  unfold _getUniqueInt.
  change (Z.of_nat (List.length (@nil Z)) >=? 2 ^ 31) with false.
  destruct r; reflexivity.
Qed.

(** On the empty registry [joinGame] does create a match: one draw
    seats the player, the next one is the game id. The match is pending
    and holds that player alone. *)
Lemma joinGame_empty_registry :
  forall (names : dict string) (playerID d1 d2 : Z) (r : rng),
    let w := TournamentSystem.World (TournamentSystem.Build [] names)
               (d1 :: d2 :: r) in
    let gameID := 1 + d2 mod (2 ^ 32 - 1 - 1 + 1) in
    let seat := if d1 mod 2 =? 0 then WHITE else BLACK in
    TournamentSystem.joinGame playerID w
    = (Return (true, [("gameID", PyInt gameID)]),
       TournamentSystem.World
         (TournamentSystem.Build
            [(gameID,
              ChessMatch.Build ChessBoard.init
                (pc_set (PerColor None None) seat (Some playerID))
                ChessMatch.STATUS_PENDING [])]
            names)
         r).
Proof.
  intros names p d1 d2 r w gameID seat. subst w gameID seat.
  assert (Hc : d1 mod 2 = 0 \/ d1 mod 2 = 1)
    by (pose proof (Z.mod_pos_bound d1 2); lia).
  unfold TournamentSystem.joinGame. rewrite bind_lift.
  cbn -[Z.modulo Z.pow Z.add Z.sub Z.eqb Z.to_nat _getUniqueInt].
  change (Z.of_nat 2) with 2.
  unfold TournamentSystem.with_random.
  cbn [TournamentSystem.random TournamentSystem.self].
  rewrite getUniqueInt_first_game.
  destruct Hc as [E | E]; rewrite E; reflexivity.
Qed.

(** C4 does not hold of the code. From the empty registry the first
    [joinGame] creates game 42, pending, with player 11 alone; the
    second [joinGame], by the new player 12, does not join it: it
    raises [TypeError], and game 42 stays pending with one player. *)
Theorem second_joinGame_raises :
  let w0 := TournamentSystem.World TournamentSystem.init [0; 41] in
  let (r1, w1) := TournamentSystem.joinGame 11 w0 in
  let (r2, w2) := TournamentSystem.joinGame 12 w1 in
  r1 = Return (true, [("gameID", PyInt 42)])
  /\ TournamentSystem.games (TournamentSystem.self w1)
     = [(42, ChessMatch.Build ChessBoard.init (PerColor (Some 11) None)
               ChessMatch.STATUS_PENDING [])]
  /\ r2 = Raise TypeError
  /\ w2 = w1.
Proof. vm_compute. repeat split; reflexivity. Qed.

(** C2 does not hold of the code. In the registry reached by
    [joinGame(11)], game 42 is known and [makePly] on it raises
    [TypeError] instead of answering with the match's reason. With a
    game in progress stored under 42, the ply of player 11 that the
    match itself accepts with SUCCESS raises [TypeError] as well. Only
    the unknown id is answered as claimed. *)
Theorem makePly_never_reaches_match :
  (let (r1, w1) := TournamentSystem.joinGame 11
                     (TournamentSystem.World TournamentSystem.init [0; 41]) in
   dict_has_key (TournamentSystem.games (TournamentSystem.self w1)) 42 = true
   /\ TournamentSystem.makePly 11 42 1 0 2 0 w1 = (Raise TypeError, w1))
  /\ (let w := TournamentSystem.World
                 (TournamentSystem.Build [(42, ongoing_11_12)] []) [] in
      fst (ChessMatch.makePly 11 1 0 2 0 ongoing_11_12) = Return "SUCCESS"
      /\ TournamentSystem.makePly 11 42 1 0 2 0 w = (Raise TypeError, w)
      /\ TournamentSystem.makePly 11 43 1 0 2 0 w
         = (Return (false, [("error", PyStr "Invalid game ID")]), w)).
Proof. vm_compute. repeat split; reflexivity. Qed.

(** * Further properties of the code *)

(** ** Lists and indices *)

Lemma list_update_length {A : Type} (l : list A) (k : nat) (v : A) :
  List.length (list_update l k v) = List.length l.
Proof.
  revert k. induction l as [|h t IH]; intros [|k]; cbn; auto.
Qed.

Lemma nth_error_list_update_eq {A : Type} (l : list A) (k : nat) (v : A) :
  (k < List.length l)%nat -> nth_error (list_update l k v) k = Some v.
Proof.
  revert k. induction l as [|h t IH]; intros [|k] H; cbn in *;
    try lia; auto. apply IH. lia.
Qed.

Lemma nth_error_list_update_neq {A : Type} (l : list A) (k j : nat) (v : A) :
  k <> j -> nth_error (list_update l k v) j = nth_error l j.
Proof.
  revert k j. induction l as [|h t IH]; intros [|k] [|j] H; cbn;
    try reflexivity; try contradiction. apply IH. congruence.
Qed.

Lemma py_norm_some (n : nat) (i : Z) (k : nat) :
  py_norm n i = Some k ->
  (k < n)%nat /\ - Z.of_nat n <= i < Z.of_nat n
  /\ (Z.of_nat k = i \/ Z.of_nat k = Z.of_nat n + i).
Proof.
  unfold py_norm. intros H.
  destruct ((0 <=? i) && (i <? Z.of_nat n)) eqn:E1.
  - apply andb_prop in E1 as [Ha Hb]. injection H as <-. lia.
  - destruct ((- Z.of_nat n <=? i) && (i <? 0)) eqn:E2; [|discriminate H].
    apply andb_prop in E2 as [Ha Hb]. injection H as <-. lia.
Qed.

Lemma py_norm_none (n : nat) (i : Z) :
  py_norm n i = None <-> ~ (- Z.of_nat n <= i < Z.of_nat n).
Proof.
  unfold py_norm.
  destruct ((0 <=? i) && (i <? Z.of_nat n)) eqn:E1.
  - apply andb_prop in E1 as [Ha Hb]. split; [discriminate | lia].
  - destruct ((- Z.of_nat n <=? i) && (i <? 0)) eqn:E2.
    + apply andb_prop in E2 as [Ha Hb]. split; [discriminate | lia].
    + split; [|reflexivity]. intros _.
      apply andb_false_iff in E1. apply andb_false_iff in E2. lia.
Qed.

Lemma getitem_return {A : Type} (l : list A) (i : Z) (a : A) :
  getitem l i = Return a <->
  exists k, py_norm (List.length l) i = Some k /\ nth_error l k = Some a.
Proof.
  unfold getitem. split.
  - destruct (py_norm (List.length l) i) as [k|]; [|discriminate].
    destruct (nth_error l k) as [x|] eqn:E; [|discriminate].
    intros H. injection H as <-. eauto.
  - intros (k & -> & ->). reflexivity.
Qed.

Lemma getitem_outside {A : Type} (l : list A) (i : Z) :
  ~ (- Z.of_nat (List.length l) <= i < Z.of_nat (List.length l)) ->
  getitem l i = Raise IndexError.
Proof.
  intros H. unfold getitem.
  rewrite (proj2 (py_norm_none _ _) H). reflexivity.
Qed.

Lemma getitem_inside {A : Type} (l : list A) (i : Z) :
  - Z.of_nat (List.length l) <= i < Z.of_nat (List.length l) ->
  exists a, getitem l i = Return a.
Proof.
  intros H. unfold getitem.
  destruct (py_norm (List.length l) i) as [k|] eqn:E.
  - destruct (py_norm_some _ _ _ E) as (Hk & _).
    destruct (nth_error l k) as [a|] eqn:En; [eauto|].
    apply nth_error_None in En. lia.
  - apply py_norm_none in E. contradiction.
Qed.

(** ** Reading and writing squares *)

Lemma getSquare_return (rank file : Z) (b : ChessBoard.t) (e : entry) :
  ChessBoard.getSquare rank file b = Return e <->
  exists r row,
    getitem (ChessBoard.board b) rank = Return r
    /\ nth_error (ChessBoard.rows b) r = Some row
    /\ getitem row file = Return e.
Proof.
  unfold ChessBoard.getSquare, ChessBoard.deref. cbn [bind Monad_outcome].
  split.
  - destruct (getitem (ChessBoard.board b) rank) as [r| |]; try discriminate.
    destruct (nth_error (ChessBoard.rows b) r) as [row|] eqn:Erow;
      try discriminate.
    intros H. exists r, row. repeat split; assumption.
  - intros (r & row & -> & -> & H). exact H.
Qed.

Lemma setSquare_run (rank file : Z) (v : entry) (b : ChessBoard.t)
    (r : nat) (row : list entry) (k : nat) :
  getitem (ChessBoard.board b) rank = Return r ->
  nth_error (ChessBoard.rows b) r = Some row ->
  py_norm (List.length row) file = Some k ->
  ChessBoard.setSquare rank file v b
  = (Return tt,
     ChessBoard.set_rows
       (list_update (ChessBoard.rows b) r (list_update row k v)) b).
Proof.
  intros Hr Hrow Hk. unfold ChessBoard.setSquare.
  rewrite bind_lift, Hr, bind_lift. unfold ChessBoard.deref. rewrite Hrow.
  rewrite bind_lift. unfold setitem. rewrite Hk. reflexivity.
Qed.

Lemma eight_by_eight_row (b : ChessBoard.t) (rank : Z) (r : nat) :
  eight_by_eight b ->
  getitem (ChessBoard.board b) rank = Return r ->
  exists row, nth_error (ChessBoard.rows b) r = Some row
              /\ List.length row = 8%nat.
Proof.
  intros [_ Hrows] Hr.
  apply getitem_return in Hr as (k & _ & Hk).
  apply nth_error_In in Hk.
  rewrite Forall_forall in Hrows. exact (Hrows r Hk).
Qed.

Lemma getSquare_inside (b : ChessBoard.t) (rank file : Z) :
  eight_by_eight b -> indexable rank -> indexable file ->
  exists e, ChessBoard.getSquare rank file b = Return e.
Proof.
  intros Hb Hr Hf. unfold indexable in *.
  destruct (getitem_inside (ChessBoard.board b) rank) as [r Hgr].
  { destruct Hb as [-> _]. cbn. lia. }
  destruct (eight_by_eight_row b rank r Hb Hgr) as (row & Hrow & Hlen).
  destruct (getitem_inside row file) as [e He].
  { rewrite Hlen. cbn. lia. }
  exists e. apply getSquare_return. eauto.
Qed.

Lemma getSquare_outside (b : ChessBoard.t) (rank file : Z) :
  eight_by_eight b -> ~ (indexable rank /\ indexable file) ->
  ChessBoard.getSquare rank file b = Raise IndexError.
Proof.
  intros Hb Hout. unfold indexable in *.
  unfold ChessBoard.getSquare. cbn [bind Monad_outcome].
  destruct (getitem (ChessBoard.board b) rank) as [r| |] eqn:Hgr.
  - destruct (eight_by_eight_row b rank r Hb Hgr) as (row & Hrow & Hlen).
    unfold ChessBoard.deref. rewrite Hrow.
    apply getitem_outside. rewrite Hlen.
    apply getitem_return in Hgr as (k & Hk & _).
    apply py_norm_some in Hk. destruct Hb as [Hl _]. rewrite Hl in Hk.
    cbn in *. lia.
  - unfold getitem in Hgr.
    destruct (py_norm _ rank) as [k|]; [destruct (nth_error _ k)|];
      congruence.
  - unfold getitem in Hgr.
    destruct (py_norm _ rank) as [k|]; [destruct (nth_error _ k)|];
      discriminate.
Qed.

Lemma isLegalMove_returns (b : ChessBoard.t) (color : Color)
    (fromRank fromFile toRank toFile : Z) (o d : entry) :
  ChessBoard.getSquare fromRank fromFile b = Return o ->
  ChessBoard.getSquare toRank toFile b = Return d ->
  exists ok,
    ChessBoard.isLegalMove color fromRank fromFile toRank toFile b
      = Return ok.
Proof.
  intros Ho Hd. unfold ChessBoard.isLegalMove.
  rewrite Ho, Hd. cbn [bind Monad_outcome].
  destruct o as [[oc ok]|]; [|eauto].
  repeat match goal with
         | |- context [if ?c then _ else _] => destruct c
         end; eauto.
Qed.

(** ** Legality: bounds and ownership *)

(** On a board of eight ranks of eight squares, [isLegalMove] answers
    with a boolean exactly when each of the four coordinates lies in
    -8..7 (negative ones count from the far edge); with any coordinate
    outside it raises [IndexError]. *)
Theorem isLegalMove_index_bounds :
  forall (b : ChessBoard.t) (color : Color)
         (fromRank fromFile toRank toFile : Z),
    eight_by_eight b ->
    (indexable fromRank /\ indexable fromFile
     /\ indexable toRank /\ indexable toFile ->
     exists ok,
       ChessBoard.isLegalMove color fromRank fromFile toRank toFile b
         = Return ok)
    /\ (~ (indexable fromRank /\ indexable fromFile
           /\ indexable toRank /\ indexable toFile) ->
        ChessBoard.isLegalMove color fromRank fromFile toRank toFile b
          = Raise IndexError).
Proof.
  intros b color fr ff tr tf Hb. split.
  - intros (H1 & H2 & H3 & H4).
    destruct (getSquare_inside b fr ff Hb H1 H2) as [o Ho].
    destruct (getSquare_inside b tr tf Hb H3 H4) as [d Hd].
    exact (isLegalMove_returns b color fr ff tr tf o d Ho Hd).
  - intros Hout. unfold ChessBoard.isLegalMove.
    destruct (ChessBoard.getSquare fr ff b) as [o| |] eqn:Ho.
    + cbn [bind Monad_outcome].
      rewrite (getSquare_outside b tr tf Hb); [reflexivity|].
      intros [H3 H4]. apply Hout.
      assert (Hin : indexable fr /\ indexable ff).
      { unfold indexable.
        destruct (Z_le_dec (-8) fr), (Z_lt_dec fr 8),
                 (Z_le_dec (-8) ff), (Z_lt_dec ff 8); try lia;
          rewrite (getSquare_outside b fr ff Hb) in Ho;
          try discriminate Ho; unfold indexable; lia. }
      tauto.
    + cbn [bind Monad_outcome].
      destruct (getSquare_inside b 0 0 Hb) as [e0 _];
        [unfold indexable; lia | unfold indexable; lia |].
      assert (Hex : ~ (indexable fr /\ indexable ff)).
      { intros [H1 H2].
        destruct (getSquare_inside b fr ff Hb H1 H2) as [x Hx]. congruence. }
      rewrite (getSquare_outside b fr ff Hb Hex) in Ho.
      injection Ho as <-. reflexivity.
    + exfalso.
      destruct (Z_le_dec (-8) fr), (Z_lt_dec fr 8),
               (Z_le_dec (-8) ff), (Z_lt_dec ff 8);
        try (rewrite (getSquare_outside b fr ff Hb) in Ho;
             [discriminate Ho | unfold indexable; lia]).
      destruct (getSquare_inside b fr ff Hb) as [x Hx];
        [unfold indexable; lia | unfold indexable; lia | congruence].
Qed.

Lemma init_eight_by_eight : eight_by_eight ChessBoard.init.
Proof.
  split; [reflexivity|].
  repeat constructor; eexists; split; reflexivity.
Qed.

Lemma isLegalMove_index_bounds_witness :
  (exists ok, ChessBoard.isLegalMove WHITE (-7) (-8) 2 0 ChessBoard.init
              = Return ok)
  /\ ChessBoard.isLegalMove WHITE 1 0 8 0 ChessBoard.init = Raise IndexError.
Proof.
  split.
  - apply (proj1 (isLegalMove_index_bounds ChessBoard.init WHITE (-7) (-8) 2 0
                    init_eight_by_eight)).
    unfold indexable. lia.
  - apply (proj2 (isLegalMove_index_bounds ChessBoard.init WHITE 1 0 8 0
                    init_eight_by_eight)).
    unfold indexable. lia.
Defined.

Lemma own_piece_required
    (b : ChessBoard.t) (color : Color)
    (fromRank fromFile toRank toFile : Z) (o d : entry) :
  ChessBoard.getSquare fromRank fromFile b = Return o ->
  ChessBoard.getSquare toRank toFile b = Return d ->
  ChessBoard.owned_by color o = false
  \/ ChessBoard.owned_by color d = true ->
  ChessBoard.isLegalMove color fromRank fromFile toRank toFile b
    = Return false.
Proof.
  intros Ho Hd Hown.
  unfold ChessBoard.isLegalMove. rewrite Ho, Hd. cbn [bind Monad_outcome].
  destruct o as [[oc ok]|]; [|reflexivity].
  cbn [ChessBoard.owned_by] in Hown.
  destruct (color_eqb oc color); cbn [negb]; [|reflexivity].
  destruct Hown as [Hown | Hown]; [discriminate Hown|].
  rewrite Hown.
  repeat match goal with
         | |- context [if ?c then _ else _] => destruct c
         end; reflexivity.
Qed.

(** Whatever the piece, a move is refused when the origin square is
    empty, when it holds a piece of the other color, or when the
    destination holds a piece of the mover. *)
Theorem isLegalMove_needs_own_piece :
  forall (b : ChessBoard.t) (color : Color)
         (fromRank fromFile toRank toFile : Z) (o d : entry),
    ChessBoard.getSquare fromRank fromFile b = Return o ->
    ChessBoard.getSquare toRank toFile b = Return d ->
    ChessBoard.owned_by color o = false
    \/ ChessBoard.owned_by color d = true ->
    ChessBoard.isLegalMove color fromRank fromFile toRank toFile b
      = Return false.
Proof.
  intros b color fr ff tr tf o d. apply own_piece_required.
Qed.

Lemma isLegalMove_needs_own_piece_witness :
  ChessBoard.isLegalMove WHITE 3 3 4 3 ChessBoard.init = Return false
  /\ ChessBoard.isLegalMove WHITE 6 0 5 0 ChessBoard.init = Return false
  /\ ChessBoard.isLegalMove WHITE 0 0 1 0 ChessBoard.init = Return false.
Proof.
  split; [|split].
  - apply (isLegalMove_needs_own_piece ChessBoard.init WHITE 3 3 4 3
             None None); [reflexivity | reflexivity | left; reflexivity].
  - apply (isLegalMove_needs_own_piece ChessBoard.init WHITE 6 0 5 0
             (Some (BLACK, PAWN)) None);
      [reflexivity | reflexivity | left; reflexivity].
  - apply (isLegalMove_needs_own_piece ChessBoard.init WHITE 0 0 1 0
             (Some (WHITE, ROOK)) (Some (WHITE, PAWN)));
      [reflexivity | reflexivity | right; reflexivity].
Defined.

(** ** Pawns *)

Lemma color_eqb_refl (c : Color) : color_eqb c c = true.
Proof. destruct c; reflexivity. Qed.

Lemma forward_as_test (color : Color) :
  (if color_eqb color WHITE then 1 else -1) = forward color.
Proof. destruct color; reflexivity. Qed.

(** A pawn move is refused unless the difference of the rank
    arguments, [toRank - fromRank] as numbers, is one or two forward
    steps of its color (+1, +2 for WHITE; -1, -2 for BLACK). The test
    reads the arguments, not the squares they address: with ranks given
    as 0..7 it excludes moves backwards, along the rank and of three
    ranks or more, but a negative index passes it where the board
    distance is another one ([fromRank] -1, [toRank] 0 takes a WHITE
    pawn from rank 7 to rank 0, see [pawn_rules_read_arguments]). *)
Theorem pawn_moves_forward_only :
  forall (b : ChessBoard.t) (color : Color)
         (fromRank fromFile toRank toFile : Z) (d : entry),
    ChessBoard.getSquare fromRank fromFile b = Return (Some (color, PAWN)) ->
    ChessBoard.getSquare toRank toFile b = Return d ->
    (toRank - fromRank) * forward color <> 1 ->
    (toRank - fromRank) * forward color <> 2 ->
    ChessBoard.isLegalMove color fromRank fromFile toRank toFile b
      = Return false.
Proof.
  intros b color fr ff tr tf d Ho Hd H1 H2.
  unfold ChessBoard.isLegalMove. rewrite Ho, Hd. cbn [bind Monad_outcome].
  rewrite color_eqb_refl. cbn [negb].
  change (kind_eqb PAWN PAWN) with true. cbv iota.
  rewrite !forward_as_test.
  unfold py_in. cbn [existsb].
  apply Z.eqb_neq in H1. apply Z.eqb_neq in H2.
  rewrite H1, H2. reflexivity.
Qed.

Lemma pawn_moves_forward_only_witness :
  ChessBoard.isLegalMove BLACK 6 3 7 3 ChessBoard.init = Return false
  /\ ChessBoard.isLegalMove WHITE 1 3 1 4 ChessBoard.init = Return false
  /\ ChessBoard.isLegalMove WHITE 1 3 4 3 ChessBoard.init = Return false.
Proof.
  split; [|split].
  - apply (pawn_moves_forward_only ChessBoard.init BLACK 6 3 7 3
             (Some (BLACK, QUEN))); [reflexivity | reflexivity | cbn; lia | cbn; lia].
  - apply (pawn_moves_forward_only ChessBoard.init WHITE 1 3 1 4
             (Some (WHITE, PAWN))); [reflexivity | reflexivity | cbn; lia | cbn; lia].
  - apply (pawn_moves_forward_only ChessBoard.init WHITE 1 3 4 3 None);
      [reflexivity | reflexivity | cbn; lia | cbn; lia].
Defined.

(** A pawn whose rank argument advances by one forward step
    ([toRank] is [fromRank + 1] for WHITE, [fromRank - 1] for BLACK, as
    numbers), by the difference of the file arguments, [toFile -
    fromFile] as numbers: 0 needs an empty destination; +1 or -1 needs
    a piece of the other color there; anything else is refused. The
    test reads the arguments, not the squares they address: [fromFile]
    0 with [toFile] -1 counts as one file aside though the destination
    is on file 7, and [fromFile] -8 with [toFile] 0 is refused though
    both are file 0 (see [pawn_rules_read_arguments]). *)
Theorem pawn_single_step :
  forall (b : ChessBoard.t) (color : Color)
         (fromRank fromFile toFile : Z) (d : entry),
    let toRank := fromRank + forward color in
    ChessBoard.getSquare fromRank fromFile b = Return (Some (color, PAWN)) ->
    ChessBoard.getSquare toRank toFile b = Return d ->
    ChessBoard.isLegalMove color fromRank fromFile toRank toFile b
    = Return (if Z.abs (toFile - fromFile) =? 0 then ChessBoard.is_none d
              else if Z.abs (toFile - fromFile) =? 1 then enemy_of color d
              else false).
Proof.
  intros b color fr ff tf d toRank Ho Hd. subst toRank.
  unfold ChessBoard.isLegalMove. rewrite Ho, Hd. cbn [bind Monad_outcome].
  rewrite color_eqb_refl. cbn [negb].
  change (kind_eqb PAWN PAWN) with true. cbv iota.
  rewrite !forward_as_test.
  replace ((fr + forward color - fr) * forward color) with 1
    by (destruct color; cbn; lia).
  unfold py_in, enemy_of. cbn [existsb Z.eqb Pos.eqb orb negb].
  destruct (Z.abs (tf - ff) =? 0) eqn:E0.
  - apply Z.eqb_eq in E0. rewrite E0. cbn [Z.eqb orb negb andb].
    destruct d as [[dc dk]|]; cbn [ChessBoard.is_none negb]; [reflexivity|].
    reflexivity.
  - destruct (Z.abs (tf - ff) =? 1) eqn:E1; cbn [orb negb andb];
      [|reflexivity].
    destruct d as [[dc dk]|]; cbn [ChessBoard.is_none ChessBoard.owned_by negb andb];
      [|reflexivity].
    destruct (color_eqb dc color); reflexivity.
Qed.

Lemma pawn_single_step_witness :
  ChessBoard.isLegalMove WHITE 1 4 2 4 ChessBoard.init = Return true
  /\ ChessBoard.isLegalMove WHITE 1 4 2 5 ChessBoard.init = Return false
  /\ ChessBoard.isLegalMove BLACK 5 6 4 6 sparse_board = Return true.
Proof.
  split; [|split].
  - apply (pawn_single_step ChessBoard.init WHITE 1 4 4 None); reflexivity.
  - apply (pawn_single_step ChessBoard.init WHITE 1 4 5 None); reflexivity.
  - apply (pawn_single_step sparse_board BLACK 5 6 6 None); reflexivity.
Defined.

(** The pawn tests are made on the arguments as given, while a square
    of rank or file 0..7 can also be given by that number less 8. A
    WHITE pawn addressed as rank -1 may step to rank 0, which takes it
    from rank 7 to rank 0; a WHITE pawn on file 0 may capture on file
    7 given as -1; its step straight ahead is refused when its own file
    is given as -8; and on the fresh board the two-square advance of
    the pawn on file 2 is refused when that file is given as -6. *)
Lemma pawn_rules_read_arguments :
  (ChessBoard.getSquare (-1) 3 edge_board = ChessBoard.getSquare 7 3 edge_board
   /\ ChessBoard.getSquare 7 3 edge_board = Return (Some (WHITE, PAWN))
   /\ ChessBoard.isLegalMove WHITE (-1) 3 0 3 edge_board = Return true
   /\ ChessBoard.isLegalMove WHITE 7 3 0 3 edge_board = Return false)
  /\ (ChessBoard.getSquare 2 (-1) edge_board = ChessBoard.getSquare 2 7 edge_board
      /\ ChessBoard.isLegalMove WHITE 1 0 2 (-1) edge_board = Return true
      /\ ChessBoard.isLegalMove WHITE 1 0 2 7 edge_board = Return false)
  /\ (ChessBoard.getSquare 1 (-8) edge_board = ChessBoard.getSquare 1 0 edge_board
      /\ ChessBoard.isLegalMove WHITE 1 (-8) 2 0 edge_board = Return false
      /\ ChessBoard.isLegalMove WHITE 1 0 2 0 edge_board = Return true)
  /\ (ChessBoard.getSquare 1 (-6) ChessBoard.init
        = ChessBoard.getSquare 1 2 ChessBoard.init
      /\ ChessBoard.isLegalMove WHITE 1 (-6) 3 (-6) ChessBoard.init
         = Return false
      /\ ChessBoard.isLegalMove WHITE 1 2 3 2 ChessBoard.init = Return true).
Proof. repeat split; vm_compute; reflexivity. Qed.

(** ** What an applied ply writes *)

Lemma bind_run {S A B : Type} (c : M S A) (k : A -> M S B) (s s' : S) (a : A) :
  c s = (Return a, s') -> bind c k s = k a s'.
Proof. intros H. cbn. rewrite H. reflexivity. Qed.

Lemma bind_ret {S A B : Type} (a : A) (k : A -> M S B) (s : S) :
  bind (ret a) k s = k a s.
Proof. reflexivity. Qed.

Lemma pc_get_set_same {X : Type} (d : percolor X) (c : Color) (x : X) :
  pc_get (pc_set d c x) c = x.
Proof. destruct c; reflexivity. Qed.

Lemma pc_get_set_other {X : Type} (d : percolor X) (c : Color) (x : X) :
  pc_get (pc_set d c x) (opposite c) = pc_get d (opposite c).
Proof. destruct c; reflexivity. Qed.

Lemma getitem_clear_flags (i : Z) (k : nat) :
  py_norm 8 i = Some k -> getitem (repeat false 8) i = Return false.
Proof.
  intros H. unfold getitem. cbn [repeat List.length]. rewrite H.
  apply py_norm_some in H as (Hk & _).
  do 8 (destruct k as [|k]; [reflexivity|]). lia.
Qed.

Lemma makePly_applied_state
    (b : ChessBoard.t) (color : Color) (fromRank fromFile toRank toFile : Z)
    (rf kf rt kt : nat) (rowf rowt : list entry) (moved : entry) :
  ChessBoard.isLegalMove color fromRank fromFile toRank toFile b
    = Return true ->
  getitem (ChessBoard.board b) fromRank = Return rf ->
  nth_error (ChessBoard.rows b) rf = Some rowf ->
  py_norm (List.length rowf) fromFile = Some kf ->
  nth_error rowf kf = Some moved ->
  getitem (ChessBoard.board b) toRank = Return rt ->
  nth_error (ChessBoard.rows b) rt = Some rowt ->
  py_norm (List.length rowt) toFile = Some kt ->
  List.length rowt = 8%nat ->
  ChessBoard.makePly color fromRank fromFile toRank toFile b
  = (Return true,
     ChessBoard.Build (ChessBoard.board b)
       (rows_after_ply (ChessBoard.rows b) rf kf rt kt rowf rowt moved)
       (pc_set (ChessBoard.flag_enpassant b) color (repeat false 8))
       (ChessBoard.flag_canCastle b)).
Proof.
  intros Hlegal Hrf Hrowf Hkf Hmoved Hrt Hrowt Hkt Hlen.
  assert (Hget : ChessBoard.getSquare fromRank fromFile b = Return moved).
  { apply getSquare_return. exists rf, rowf. repeat split; try assumption.
    apply getitem_return. eauto. }
  unfold ChessBoard.makePly.
  rewrite bind_lift, Hlegal. cbn [negb].
  rewrite bind_lift, Hget.
  rewrite (bind_run _ _ _ _ _
             (setSquare_run fromRank fromFile None b rf rowf kf Hrf Hrowf Hkf)).
  rewrite bind_modify, bind_lift.
  rewrite !entry_never_equals_kind. cbn [andb]. rewrite !when_false.
  rewrite !bind_ret.
  set (rows1 := list_update (ChessBoard.rows b) rf (list_update rowf kf None)).
  set (rowt1 := if Nat.eqb rt rf then list_update rowf kf None else rowt).
  assert (Hrowt1 : nth_error rows1 rt = Some rowt1
                   /\ List.length rowt1 = List.length rowt).
  { subst rows1 rowt1. destruct (Nat.eqb_spec rt rf) as [-> | Hne].
    - split.
      + apply nth_error_list_update_eq.
        apply nth_error_Some. congruence.
      + rewrite list_update_length. congruence.
    - split; [|reflexivity].
      rewrite nth_error_list_update_neq by congruence. exact Hrowt. }
  destruct Hrowt1 as [Hn1 Hl1].
  match goal with
  | |- bind (ChessBoard.setSquare _ _ _) _ ?s = _ =>
      assert (Hset : ChessBoard.setSquare toRank toFile moved s
                     = (Return tt,
                        ChessBoard.set_rows
                          (list_update (ChessBoard.rows s) rt
                             (list_update rowt1 kt moved)) s))
        by (apply setSquare_run;
            [exact Hrt | exact Hn1 | rewrite Hl1; exact Hkt])
  end.
  rewrite (bind_run _ _ _ _ _ Hset). clear Hset.
  rewrite bind_lift. cbn [ChessBoard.flag_enpassant ChessBoard.set_rows
                          ChessBoard.set_flag_enpassant].
  rewrite pc_get_set_same.
  rewrite (getitem_clear_flags toFile kt) by (rewrite <- Hlen; exact Hkt).
  rewrite when_false, bind_ret. reflexivity.
Qed.

(** A move [isLegalMove] accepts has both of its squares on the board,
    a piece of the mover on the first and none of the mover's on the
    second. *)
Lemma legal_move_squares
    (b : ChessBoard.t) (color : Color) (fromRank fromFile toRank toFile : Z) :
  ChessBoard.isLegalMove color fromRank fromFile toRank toFile b
    = Return true ->
  exists (k : Kind) (d : entry),
    ChessBoard.getSquare fromRank fromFile b = Return (Some (color, k))
    /\ ChessBoard.getSquare toRank toFile b = Return d
    /\ ChessBoard.owned_by color d = false.
Proof.
  intros H.
  destruct (ChessBoard.getSquare fromRank fromFile b) as [o| |] eqn:Ho;
    try (unfold ChessBoard.isLegalMove in H; rewrite Ho in H;
         discriminate H).
  destruct (ChessBoard.getSquare toRank toFile b) as [d| |] eqn:Hd;
    try (unfold ChessBoard.isLegalMove in H; rewrite Ho, Hd in H;
         discriminate H).
  destruct (ChessBoard.owned_by color o) eqn:Eo.
  - destruct (ChessBoard.owned_by color d) eqn:Ed.
    + rewrite (own_piece_required b color _ _ _ _ o d Ho Hd) in H
        by (right; exact Ed). discriminate H.
    + destruct o as [[oc ok]|]; [|discriminate Eo].
      cbn in Eo. apply color_eqb_eq in Eo. subst oc.
      exists ok, d. auto.
  - rewrite (own_piece_required b color _ _ _ _ o d Ho Hd) in H
      by (left; exact Eo). discriminate H.
Qed.

(** The same, down to the row objects and normalised indices. *)
Lemma legal_move_located
    (b : ChessBoard.t) (color : Color) (fromRank fromFile toRank toFile : Z) :
  eight_by_eight b ->
  ChessBoard.isLegalMove color fromRank fromFile toRank toFile b
    = Return true ->
  exists (rf kf rt kt : nat) (rowf rowt : list entry) (k : Kind),
    getitem (ChessBoard.board b) fromRank = Return rf
    /\ nth_error (ChessBoard.rows b) rf = Some rowf
    /\ py_norm (List.length rowf) fromFile = Some kf
    /\ nth_error rowf kf = Some (Some (color, k))
    /\ getitem (ChessBoard.board b) toRank = Return rt
    /\ nth_error (ChessBoard.rows b) rt = Some rowt
    /\ py_norm (List.length rowt) toFile = Some kt
    /\ List.length rowt = 8%nat
    /\ List.length rowf = 8%nat.
Proof.
  intros Hb H.
  destruct (legal_move_squares b color _ _ _ _ H) as (k & d & Ho & Hd & _).
  apply getSquare_return in Ho as (rf & rowf & Hrf & Hrowf & Hgf).
  apply getSquare_return in Hd as (rt & rowt & Hrt & Hrowt & Hgt).
  apply getitem_return in Hgf as (kf & Hkf & Hnf).
  apply getitem_return in Hgt as (kt & Hkt & Hnt).
  destruct (eight_by_eight_row b _ _ Hb Hrt) as (rowt' & Hrowt' & Hlen).
  destruct (eight_by_eight_row b _ _ Hb Hrf) as (rowf' & Hrowf' & Hlenf).
  assert (rowt' = rowt) by congruence. subst rowt'.
  assert (rowf' = rowf) by congruence. subst rowf'.
  exists rf, kf, rt, kt, rowf, rowt, k. repeat split; assumption.
Qed.

Lemma makePly_answer (b : ChessBoard.t) (color : Color)
    (fromRank fromFile toRank toFile : Z) :
  eight_by_eight b ->
  fst (ChessBoard.makePly color fromRank fromFile toRank toFile b)
  = ChessBoard.isLegalMove color fromRank fromFile toRank toFile b.
Proof.
  intros Hb.
  destruct (ChessBoard.isLegalMove color fromRank fromFile toRank toFile b)
    as [[|]| |] eqn:H.
  - destruct (legal_move_located b color _ _ _ _ Hb H)
      as (rf & kf & rt & kt & rowf & rowt & k
          & H1 & H2 & H3 & H4 & H5 & H6 & H7 & H8 & _).
    rewrite (makePly_applied_state b color _ _ _ _ rf kf rt kt rowf rowt
               _ H H1 H2 H3 H4 H5 H6 H7 H8).
    reflexivity.
  - unfold ChessBoard.makePly. rewrite bind_lift, H. reflexivity.
  - unfold ChessBoard.makePly. rewrite bind_lift, H. reflexivity.
  - unfold ChessBoard.makePly. rewrite bind_lift, H. reflexivity.
Qed.

(** On a board of eight ranks of eight squares, [makePly] answers as
    [isLegalMove] does on the same arguments: [True] when it says
    [True] (no later step of the ply raises), [False] when it says
    [False], and [IndexError] when it raises. *)
Theorem makePly_answers_as_isLegalMove :
  forall (b : ChessBoard.t) (color : Color)
         (fromRank fromFile toRank toFile : Z),
    eight_by_eight b ->
    fst (ChessBoard.makePly color fromRank fromFile toRank toFile b)
    = ChessBoard.isLegalMove color fromRank fromFile toRank toFile b.
Proof.
  intros b color fr ff tr tf. apply makePly_answer.
Qed.

Lemma makePly_answers_as_isLegalMove_witness :
  fst (ChessBoard.makePly WHITE 1 4 2 4 ChessBoard.init)
  = ChessBoard.isLegalMove WHITE 1 4 2 4 ChessBoard.init.
Proof.
  apply (makePly_answers_as_isLegalMove ChessBoard.init WHITE 1 4 2 4).
  exact init_eight_by_eight.
Defined.

(** After an applied ply the destination square holds the piece that
    stood on the origin square, a piece of the mover. *)
Theorem makePly_moves_piece_to_destination :
  forall (b : ChessBoard.t) (color : Color)
         (fromRank fromFile toRank toFile : Z),
    eight_by_eight b ->
    ChessBoard.isLegalMove color fromRank fromFile toRank toFile b
      = Return true ->
    let b' := snd (ChessBoard.makePly color fromRank fromFile toRank toFile b) in
    ChessBoard.getSquare toRank toFile b'
      = ChessBoard.getSquare fromRank fromFile b
    /\ exists k, ChessBoard.getSquare toRank toFile b'
                 = Return (Some (color, k)).
Proof.
  intros b color fr ff tr tf Hb H b'. subst b'.
  destruct (legal_move_located b color fr ff tr tf Hb H)
    as (rf & kf & rt & kt & rowf & rowt & k
        & H1 & H2 & H3 & H4 & H5 & H6 & H7 & H8 & H9).
  rewrite (makePly_applied_state b color fr ff tr tf rf kf rt kt rowf rowt
             _ H H1 H2 H3 H4 H5 H6 H7 H8).
  cbn [snd].
  assert (Hfrom : ChessBoard.getSquare fr ff b = Return (Some (color, k))).
  { apply getSquare_return. exists rf, rowf. repeat split; try assumption.
    apply getitem_return. eauto. }
  assert (Hto : ChessBoard.getSquare tr tf
                  (ChessBoard.Build (ChessBoard.board b)
                     (rows_after_ply (ChessBoard.rows b) rf kf rt kt
                        rowf rowt (Some (color, k)))
                     (pc_set (ChessBoard.flag_enpassant b) color
                        (repeat false 8))
                     (ChessBoard.flag_canCastle b))
                = Return (Some (color, k))).
  { apply getSquare_return. unfold rows_after_ply. cbn.
    eexists rt, _. split; [exact H5|]. split.
    - apply nth_error_list_update_eq. rewrite list_update_length.
      apply nth_error_Some. congruence.
    - apply getitem_return. exists kt.
      assert (Hl : List.length
                     (if Nat.eqb rt rf then list_update rowf kf None else rowt)
                   = 8%nat).
      { destruct (Nat.eqb rt rf); [rewrite list_update_length|]; assumption. }
      rewrite list_update_length, Hl. rewrite H8 in H7. split; [exact H7|].
      apply nth_error_list_update_eq. rewrite Hl.
      apply py_norm_some in H7. tauto. }
  rewrite Hto, Hfrom. split; [reflexivity | eauto].
Qed.

Lemma makePly_moves_piece_to_destination_witness :
  let b' := snd (ChessBoard.makePly WHITE 0 1 2 2 ChessBoard.init) in
  ChessBoard.getSquare 2 2 b' = ChessBoard.getSquare 0 1 ChessBoard.init
  /\ exists k, ChessBoard.getSquare 2 2 b' = Return (Some (WHITE, k)).
Proof.
  apply (makePly_moves_piece_to_destination ChessBoard.init WHITE 0 1 2 2).
  - exact init_eight_by_eight.
  - reflexivity.
Defined.

(** ** What no ply changes *)

Section KeepsRules.
Context {S : Type}.

Lemma keeps_bind {A B : Type} (I : S -> Prop) (c : M S A) (k : A -> M S B) :
  keeps I c -> (forall a, keeps I (k a)) -> keeps I (bind c k).
Proof.
  intros Hc Hk s Hs. specialize (Hc s Hs). cbn.
  destruct (c s) as [[a | e |] s']; cbn in *; try exact Hc.
  apply (Hk a s' Hc).
Qed.

Lemma keeps_ret {A : Type} (I : S -> Prop) (a : A) : keeps I (ret a).
Proof. intros s Hs. exact Hs. Qed.

Lemma keeps_lift {A : Type} (I : S -> Prop) (r : S -> outcome A) :
  keeps I (lift r).
Proof. intros s Hs. exact Hs. Qed.

Lemma keeps_modify (I : S -> Prop) (f : S -> S) :
  (forall s, I s -> I (f s)) -> keeps I (modify f).
Proof. intros H s Hs. cbn. auto. Qed.

Lemma keeps_when (I : S -> Prop) (c : bool) (body : M S unit) :
  keeps I body -> keeps I (when c body).
Proof. intros H. destruct c; [exact H | apply keeps_ret]. Qed.

Lemma keeps_if {A : Type} (I : S -> Prop) (c : bool) (x y : M S A) :
  keeps I x -> keeps I y -> keeps I (if c then x else y).
Proof. destruct c; auto. Qed.
End KeepsRules.

(** Every statement of [makePly] keeps an assertion that the square
    writes and the flag updates keep. *)
Lemma makePly_keeps (I : ChessBoard.t -> Prop)
    (color : Color) (fromRank fromFile toRank toFile : Z) :
  (forall r f v, keeps I (ChessBoard.setSquare r f v)) ->
  (forall b fe, I b -> I (ChessBoard.set_flag_enpassant fe b)) ->
  (forall b fc, I b -> I (ChessBoard.set_flag_canCastle fc b)) ->
  keeps I (ChessBoard.makePly color fromRank fromFile toRank toFile).
Proof.
  intros Hsq Hfe Hfc. unfold ChessBoard.makePly.
  apply keeps_bind; [apply keeps_lift | intros legal].
  apply keeps_if; [apply keeps_ret|].
  apply keeps_bind; [apply keeps_lift | intros moved].
  apply keeps_bind; [apply Hsq | intros ?].
  apply keeps_bind; [apply keeps_modify; intros; apply Hfe; assumption
                    | intros ?].
  apply keeps_bind; [apply keeps_lift | intros prev].
  apply keeps_bind;
    [apply keeps_when, keeps_modify; intros; apply Hfc; assumption
    | intros ?].
  apply keeps_bind.
  { apply keeps_when. repeat apply keeps_if;
      try (apply keeps_modify; intros; apply Hfc; assumption).
    apply keeps_ret. }
  intros ?.
  apply keeps_bind.
  { apply keeps_when.
    apply keeps_bind; [apply keeps_lift | intros flags].
    apply keeps_modify; intros; apply Hfe; assumption. }
  intros ?.
  apply keeps_bind; [apply Hsq | intros ?].
  apply keeps_bind; [apply keeps_lift | intros flag].
  apply keeps_bind; [| intros ?; apply keeps_ret].
  apply keeps_when. repeat apply keeps_if; try apply Hsq. apply keeps_ret.
Qed.

Lemma setSquare_state (rank file : Z) (v : entry) (b : ChessBoard.t) :
  snd (ChessBoard.setSquare rank file v b) = b
  \/ exists r row k,
       getitem (ChessBoard.board b) rank = Return r
       /\ nth_error (ChessBoard.rows b) r = Some row
       /\ py_norm (List.length row) file = Some k
       /\ snd (ChessBoard.setSquare rank file v b)
          = ChessBoard.set_rows
              (list_update (ChessBoard.rows b) r (list_update row k v)) b.
Proof.
  unfold ChessBoard.setSquare. rewrite bind_lift.
  destruct (getitem (ChessBoard.board b) rank) as [r| |] eqn:Hr; auto.
  rewrite bind_lift. unfold ChessBoard.deref.
  destruct (nth_error (ChessBoard.rows b) r) as [row|] eqn:Hrow; auto.
  rewrite bind_lift. unfold setitem.
  destruct (py_norm (List.length row) file) as [k|] eqn:Hk; auto.
  right. exists r, row, k. auto.
Qed.

Lemma setSquare_keeps_refs (l : list nat) (rank file : Z) (v : entry) :
  keeps (fun b => ChessBoard.board b = l) (ChessBoard.setSquare rank file v).
Proof.
  intros b Hb.
  destruct (setSquare_state rank file v b) as [-> | (r & row & k & _ & _ & _ & ->)];
    exact Hb.
Qed.

Lemma setSquare_keeps_shape (rank file : Z) (v : entry) :
  keeps eight_by_eight (ChessBoard.setSquare rank file v).
Proof.
  intros b Hb.
  destruct (setSquare_state rank file v b)
    as [-> | (r & row & k & Hr & Hrow & Hk & ->)]; [exact Hb|].
  destruct (eight_by_eight_row b rank r Hb Hr) as (row' & Hrow' & Hlen).
  assert (row' = row) by congruence. subst row'.
  destruct Hb as [Hl Hrows]. split; [exact Hl|]. cbn.
  rewrite Forall_forall in *. intros x Hx.
  destruct (Hrows x Hx) as (rx & Hrx & Hlx).
  destruct (Nat.eq_dec r x) as [-> | Hne].
  - exists (list_update row k v). split.
    + apply nth_error_list_update_eq. apply nth_error_Some. congruence.
    + rewrite list_update_length. exact Hlen.
  - exists rx. split; [|exact Hlx].
    rewrite nth_error_list_update_neq by exact Hne. exact Hrx.
Qed.

(** Whatever [makePly] answers, the board keeps its list of row
    references and stays eight ranks of eight squares. *)
Lemma makePly_keeps_refs (l : list nat) (color : Color)
    (fromRank fromFile toRank toFile : Z) :
  keeps (fun b => ChessBoard.board b = l)
    (ChessBoard.makePly color fromRank fromFile toRank toFile).
Proof.
  apply makePly_keeps; [apply setSquare_keeps_refs | auto | auto].
Qed.

Lemma makePly_keeps_shape (color : Color)
    (fromRank fromFile toRank toFile : Z) :
  keeps eight_by_eight
    (ChessBoard.makePly color fromRank fromFile toRank toFile).
Proof.
  apply makePly_keeps; [apply setSquare_keeps_shape | auto | auto].
Qed.

Lemma play_keeps (I : ChessBoard.t -> Prop) :
  (forall c fr ff tr tf, keeps I (ChessBoard.makePly c fr ff tr tf)) ->
  forall plies b, I b -> I (play plies b).
Proof.
  intros H plies. induction plies as [|p more IH]; intros b Hb; cbn.
  - exact Hb.
  - apply IH. apply H. exact Hb.
Qed.

(** Any sequence of plies, legal or not, in range or not, leaves a
    board of eight ranks of eight squares in that shape. *)
Theorem play_keeps_board_shape :
  forall (plies : list ply_args) (b : ChessBoard.t),
    eight_by_eight b -> eight_by_eight (play plies b).
Proof.
  intros plies b. apply play_keeps. intros. apply makePly_keeps_shape.
Qed.

Lemma play_keeps_board_shape_witness :
  eight_by_eight
    (play [Ply WHITE 1 4 2 4; Ply BLACK 9 9 0 0; Ply BLACK 6 4 5 3]
       ChessBoard.init).
Proof.
  apply (play_keeps_board_shape _ ChessBoard.init). exact init_eight_by_eight.
Defined.

(** On a board made by the constructor the ranks 2 to 5 stay one row
    object: after any sequence of plies they show the same contents in
    every file. *)
Theorem constructor_board_middle_ranks_agree :
  forall (plies : list ply_args) (r1 r2 file : Z),
    2 <= r1 <= 5 -> 2 <= r2 <= 5 ->
    ChessBoard.getSquare r1 file (play plies ChessBoard.init)
    = ChessBoard.getSquare r2 file (play plies ChessBoard.init).
Proof.
  intros plies r1 r2 file H1 H2.
  assert (Hrefs : ChessBoard.board (play plies ChessBoard.init)
                  = ChessBoard.board ChessBoard.init).
  { apply (play_keeps (fun b => ChessBoard.board b
                                = ChessBoard.board ChessBoard.init)).
    - intros. apply makePly_keeps_refs.
    - reflexivity. }
  unfold ChessBoard.getSquare. rewrite Hrefs.
  assert (Hr : forall r, 2 <= r <= 5 ->
                 getitem (ChessBoard.board ChessBoard.init) r = Return 2%nat).
  { intros r Hr.
    assert (Hc : r = 2 \/ r = 3 \/ r = 4 \/ r = 5) by lia.
    destruct Hc as [-> | [-> | [-> | ->]]]; reflexivity. }
  rewrite (Hr r1 H1), (Hr r2 H2). reflexivity.
Qed.

Lemma constructor_board_middle_ranks_agree_witness :
  ChessBoard.getSquare 2 4 (play [Ply WHITE 1 4 2 4] ChessBoard.init)
  = ChessBoard.getSquare 5 4 (play [Ply WHITE 1 4 2 4] ChessBoard.init).
Proof.
  apply (constructor_board_middle_ranks_agree [Ply WHITE 1 4 2 4] 2 5 4); lia.
Defined.

(** ** Squares an applied ply leaves alone, on a board without sharing *)

Lemma py_norm_nat (i : Z) : 0 <= i < 8 -> py_norm 8 i = Some (Z.to_nat i).
Proof.
  intros H. unfold py_norm.
  destruct (Z.leb_spec 0 i); [|lia].
  destruct (Z.ltb_spec i (Z.of_nat 8)); [reflexivity | cbn in *; lia].
Qed.

Lemma getSquare_nat (b : ChessBoard.t) (r f : Z) (ref : nat)
    (row : list entry) :
  0 <= r < 8 -> 0 <= f < 8 ->
  List.length (ChessBoard.board b) = 8%nat ->
  nth_error (ChessBoard.board b) (Z.to_nat r) = Some ref ->
  nth_error (ChessBoard.rows b) ref = Some row ->
  List.length row = 8%nat ->
  ChessBoard.getSquare r f b
  = match nth_error row (Z.to_nat f) with
    | Some e => Return e
    | None => Raise IndexError
    end.
Proof.
  intros Hr Hf Hl Href Hrow Hlen.
  unfold ChessBoard.getSquare, ChessBoard.deref, getitem.
  rewrite Hl, (py_norm_nat r Hr), Href. cbn [bind Monad_outcome].
  rewrite Hrow, Hlen, (py_norm_nat f Hf). reflexivity.
Qed.

Lemma getitem_nat {A : Type} (l : list A) (i : Z) (a : A) :
  0 <= i < 8 -> List.length l = 8%nat ->
  getitem l i = Return a -> nth_error l (Z.to_nat i) = Some a.
Proof.
  intros Hi Hl H. apply getitem_return in H as (k & Hk & Hn).
  rewrite Hl, (py_norm_nat i Hi) in Hk. injection Hk as <-. exact Hn.
Qed.

Lemma nth_error_list_update {A : Type} (l : list A) (k j : nat) (v : A) :
  (k < List.length l)%nat ->
  nth_error (list_update l k v) j
  = if Nat.eqb k j then Some v else nth_error l j.
Proof.
  intros Hk. destruct (Nat.eqb_spec k j) as [<- | Hne].
  - apply nth_error_list_update_eq. exact Hk.
  - apply nth_error_list_update_neq. exact Hne.
Qed.

(** On a board whose eight ranks are eight different row objects, an
    applied ply between squares given by coordinates 0..7 empties the
    origin square and changes no square other than origin and
    destination. *)
Theorem makePly_frame_without_sharing :
  forall (b : ChessBoard.t) (color : Color)
         (fromRank fromFile toRank toFile : Z),
    eight_by_eight b ->
    NoDup (ChessBoard.board b) ->
    0 <= fromRank < 8 -> 0 <= fromFile < 8 ->
    0 <= toRank < 8 -> 0 <= toFile < 8 ->
    ChessBoard.isLegalMove color fromRank fromFile toRank toFile b
      = Return true ->
    let b' := snd (ChessBoard.makePly color fromRank fromFile toRank toFile b) in
    ChessBoard.getSquare fromRank fromFile b' = Return None
    /\ forall r f : Z,
         0 <= r < 8 -> 0 <= f < 8 ->
         (r, f) <> (fromRank, fromFile) -> (r, f) <> (toRank, toFile) ->
         ChessBoard.getSquare r f b' = ChessBoard.getSquare r f b.
Proof.
  intros b color fr ff tr tf Hb Hnd Hfr Hff Htr Htf H b'. subst b'.
  destruct (legal_move_squares b color fr ff tr tf H)
    as (k0 & d & Hsq_o & Hsq_d & Hown).
  assert (Hdiff : (fr, ff) <> (tr, tf)).
  { intros E. injection E as -> ->. rewrite Hsq_o in Hsq_d.
    injection Hsq_d as <-. cbn in Hown. rewrite color_eqb_refl in Hown.
    discriminate Hown. }
  destruct (legal_move_located b color fr ff tr tf Hb H)
    as (rf & kf & rt & kt & rowf & rowt & k
        & H1 & H2 & H3 & H4 & H5 & H6 & H7 & H8 & H9).
  rewrite (makePly_applied_state b color fr ff tr tf rf kf rt kt rowf rowt
             _ H H1 H2 H3 H4 H5 H6 H7 H8).
  cbn [snd].
  pose proof Hb as [Hl Hrows].
  rewrite H9, (py_norm_nat ff Hff) in H3. injection H3 as <-.
  rewrite H8, (py_norm_nat tf Htf) in H7. injection H7 as <-.
  apply (getitem_nat _ fr rf Hfr Hl) in H1.
  apply (getitem_nat _ tr rt Htr Hl) in H5.
  assert (Hinj : forall r1 r2 x,
             0 <= r1 < 8 -> 0 <= r2 < 8 ->
             nth_error (ChessBoard.board b) (Z.to_nat r1) = Some x ->
             nth_error (ChessBoard.board b) (Z.to_nat r2) = Some x ->
             r1 = r2).
  { intros r1 r2 x Hr1 Hr2 E1 E2.
    assert (Z.to_nat r1 = Z.to_nat r2).
    { apply (proj1 (NoDup_nth_error (ChessBoard.board b)) Hnd).
      - rewrite Hl. lia.
      - congruence. }
    lia. }
  set (b' := ChessBoard.Build _ _ _ _).
  assert (Hl' : List.length (ChessBoard.board b') = 8%nat) by exact Hl.
  assert (Hrf_lt : (rf < List.length (ChessBoard.rows b))%nat)
    by (apply nth_error_Some; congruence).
  assert (Hrt_lt : (rt < List.length (ChessBoard.rows b))%nat)
    by (apply nth_error_Some; congruence).
  (* the row behind any reference after the ply *)
  assert (Hrow' : forall x,
             nth_error (ChessBoard.rows b') x
             = if Nat.eqb rt x then
                 Some (list_update
                         (if Nat.eqb rt rf then list_update rowf (Z.to_nat ff) None
                          else rowt) (Z.to_nat tf) (Some (color, k)))
               else if Nat.eqb rf x then
                 Some (list_update rowf (Z.to_nat ff) None)
               else nth_error (ChessBoard.rows b) x).
  { intros x. subst b'. cbn [ChessBoard.rows]. unfold rows_after_ply.
    rewrite nth_error_list_update by (rewrite list_update_length; exact Hrt_lt).
    destruct (Nat.eqb rt x); [reflexivity|].
    rewrite nth_error_list_update by exact Hrf_lt. reflexivity. }
  assert (Hkf : (Z.to_nat ff < 8)%nat) by lia.
  assert (Hkt : (Z.to_nat tf < 8)%nat) by lia.
  split.
  - (* the origin square *)
    destruct (Nat.eqb_spec rt rf) as [E | Hne].
    + assert (tr = fr) by (apply (Hinj tr fr rt); congruence). subst tr.
      assert (Hf : Z.to_nat tf <> Z.to_nat ff)
        by (intros E'; apply Hdiff; f_equal; lia).
      rewrite (getSquare_nat b' fr ff rf
                 (list_update (list_update rowf (Z.to_nat ff) None)
                    (Z.to_nat tf) (Some (color, k)))); try assumption.
      * rewrite nth_error_list_update_neq by exact Hf.
        rewrite nth_error_list_update_eq by lia. reflexivity.
      * rewrite Hrow'. rewrite E, Nat.eqb_refl. reflexivity.
      * rewrite !list_update_length. exact H9.
    + rewrite (getSquare_nat b' fr ff rf
                 (list_update rowf (Z.to_nat ff) None)); try assumption.
      * rewrite nth_error_list_update_eq by lia. reflexivity.
      * rewrite Hrow'. destruct (Nat.eqb_spec rt rf); [contradiction|].
        rewrite Nat.eqb_refl. reflexivity.
      * rewrite list_update_length. exact H9.
  - (* every other square *)
    intros r f Hr Hf Hno Hnd'.
    destruct (nth_error (ChessBoard.board b) (Z.to_nat r)) as [x|] eqn:Hx.
    2: { apply nth_error_None in Hx. lia. }
    assert (Hxin : In x (ChessBoard.board b)) by (eapply nth_error_In; eauto).
    rewrite Forall_forall in Hrows.
    destruct (Hrows x Hxin) as (row & Hrow & Hlen).
    rewrite (getSquare_nat b r f x row Hr Hf Hl Hx Hrow Hlen).
    destruct (Nat.eqb_spec rt x) as [Et | Hnt].
    + (* the destination rank, another file *)
      subst x. assert (r = tr) by (apply (Hinj r tr rt); assumption). subst r.
      assert (row = rowt) by congruence. subst row.
      assert (Hfne : Z.to_nat tf <> Z.to_nat f)
        by (intros E'; apply Hnd'; f_equal; lia).
      destruct (Nat.eqb_spec rt rf) as [E | Hne].
      * assert (tr = fr) by (apply (Hinj tr fr rt); congruence). subst tr.
        assert (rowf = rowt) by congruence. subst rowf.
        assert (Hfne' : Z.to_nat ff <> Z.to_nat f)
          by (intros E'; apply Hno; f_equal; lia).
        rewrite (getSquare_nat b' fr f rt
                   (list_update (list_update rowt (Z.to_nat ff) None)
                      (Z.to_nat tf) (Some (color, k)))); try assumption.
        -- rewrite !nth_error_list_update_neq by assumption. reflexivity.
        -- rewrite Hrow', Nat.eqb_refl.
           destruct (Nat.eqb_spec rt rf); [reflexivity | contradiction].
        -- rewrite !list_update_length. exact H8.
      * rewrite (getSquare_nat b' tr f rt
                   (list_update rowt (Z.to_nat tf) (Some (color, k))));
          try assumption.
        -- rewrite nth_error_list_update_neq by assumption. reflexivity.
        -- rewrite Hrow', Nat.eqb_refl.
           destruct (Nat.eqb_spec rt rf); [contradiction | reflexivity].
        -- rewrite list_update_length. exact H8.
    + destruct (Nat.eqb_spec rf x) as [Ef | Hnf].
      * (* the origin rank, another file *)
        subst x. assert (r = fr) by (apply (Hinj r fr rf); assumption). subst r.
        assert (row = rowf) by congruence. subst row.
        assert (Hfne : Z.to_nat ff <> Z.to_nat f)
          by (intros E'; apply Hno; f_equal; lia).
        rewrite (getSquare_nat b' fr f rf
                   (list_update rowf (Z.to_nat ff) None)); try assumption.
        -- rewrite nth_error_list_update_neq by assumption. reflexivity.
        -- rewrite Hrow'.
           destruct (Nat.eqb_spec rt rf); [contradiction|].
           rewrite Nat.eqb_refl. reflexivity.
        -- rewrite list_update_length. exact H9.
      * (* a rank the ply does not touch *)
        rewrite (getSquare_nat b' r f x row); try assumption.
        -- reflexivity.
        -- rewrite Hrow'.
           destruct (Nat.eqb_spec rt x); [contradiction|].
           destruct (Nat.eqb_spec rf x); [contradiction|]. exact Hrow.
Qed.

Lemma sparse_board_eight_by_eight : eight_by_eight sparse_board.
Proof.
  split; [reflexivity|].
  repeat constructor; eexists; split; reflexivity.
Qed.

Lemma makePly_frame_without_sharing_witness :
  let b' := snd (ChessBoard.makePly BLACK 5 6 4 6 sparse_board) in
  ChessBoard.getSquare 5 6 b' = Return None
  /\ forall r f : Z,
       0 <= r < 8 -> 0 <= f < 8 ->
       (r, f) <> (5, 6) -> (r, f) <> (4, 6) ->
       ChessBoard.getSquare r f b' = ChessBoard.getSquare r f sparse_board.
Proof.
  apply (makePly_frame_without_sharing sparse_board BLACK 5 6 4 6).
  - exact sparse_board_eight_by_eight.
  - cbn. repeat constructor; cbn; intuition lia.
  - lia.
  - lia.
  - lia.
  - lia.
  - reflexivity.
Defined.

(** ** Castling rights and en-passant flags, as the code keeps them *)

(** No call of [makePly], whatever it answers, changes the castling
    pair of either color. *)
Theorem no_ply_changes_castling_rights :
  forall (b : ChessBoard.t) (color : Color)
         (fromRank fromFile toRank toFile : Z),
    ChessBoard.flag_canCastle
      (snd (ChessBoard.makePly color fromRank fromFile toRank toFile b))
    = ChessBoard.flag_canCastle b.
Proof.
  intros b color fr ff tr tf.
  assert (H : keeps (fun s => ChessBoard.flag_canCastle s
                              = ChessBoard.flag_canCastle b)
                (ChessBoard.makePly color fr ff tr tf)).
  { unfold ChessBoard.makePly.
    assert (Hsq : forall r f v,
               keeps (fun s => ChessBoard.flag_canCastle s
                               = ChessBoard.flag_canCastle b)
                 (ChessBoard.setSquare r f v)).
    { intros r f v s Hs.
      destruct (setSquare_state r f v s)
        as [-> | (x & row & k & _ & _ & _ & ->)]; exact Hs. }
    apply keeps_bind; [apply keeps_lift | intros legal].
    apply keeps_if; [apply keeps_ret|].
    apply keeps_bind; [apply keeps_lift | intros moved].
    apply keeps_bind; [apply Hsq | intros ?].
    apply keeps_bind; [apply keeps_modify; auto | intros ?].
    apply keeps_bind; [apply keeps_lift | intros prev].
    rewrite !entry_never_equals_kind. cbn [andb]. rewrite !when_false.
    apply keeps_bind; [apply keeps_ret | intros ?].
    apply keeps_bind; [apply keeps_ret | intros ?].
    apply keeps_bind; [apply keeps_ret | intros ?].
    apply keeps_bind; [apply Hsq | intros ?].
    apply keeps_bind; [apply keeps_lift | intros flag].
    apply keeps_bind; [| intros ?; apply keeps_ret].
    apply keeps_when. repeat apply keeps_if; try apply Hsq. apply keeps_ret. }
  apply H. reflexivity.
Qed.

(** After every applied ply the mover's en-passant flags are eight
    times [False], also after a pawn's two-square advance, and the
    other color's flags are the ones from before. *)
Theorem applied_ply_clears_enpassant :
  forall (b : ChessBoard.t) (color : Color)
         (fromRank fromFile toRank toFile : Z),
    eight_by_eight b ->
    ChessBoard.isLegalMove color fromRank fromFile toRank toFile b
      = Return true ->
    let b' := snd (ChessBoard.makePly color fromRank fromFile toRank toFile b) in
    pc_get (ChessBoard.flag_enpassant b') color = repeat false 8
    /\ pc_get (ChessBoard.flag_enpassant b') (opposite color)
       = pc_get (ChessBoard.flag_enpassant b) (opposite color).
Proof.
  intros b color fr ff tr tf Hb H b'. subst b'.
  destruct (legal_move_located b color fr ff tr tf Hb H)
    as (rf & kf & rt & kt & rowf & rowt & k
        & H1 & H2 & H3 & H4 & H5 & H6 & H7 & H8 & _).
  rewrite (makePly_applied_state b color fr ff tr tf rf kf rt kt rowf rowt
             _ H H1 H2 H3 H4 H5 H6 H7 H8).
  cbn [snd ChessBoard.flag_enpassant].
  split; [apply pc_get_set_same | apply pc_get_set_other].
Qed.

Lemma applied_ply_clears_enpassant_witness :
  let b' := snd (ChessBoard.makePly WHITE 1 2 3 2 ChessBoard.init) in
  pc_get (ChessBoard.flag_enpassant b') WHITE = repeat false 8
  /\ pc_get (ChessBoard.flag_enpassant b') (opposite WHITE)
     = pc_get (ChessBoard.flag_enpassant ChessBoard.init) (opposite WHITE).
Proof.
  apply (applied_ply_clears_enpassant ChessBoard.init WHITE 1 2 3 2).
  - exact init_eight_by_eight.
  - reflexivity.
Defined.

(** ** Matches: who may move *)

Lemma slot_neq_player (sl : option Z) (p : Z) :
  sl <> Some p -> py_eq (ChessMatch.val_of_slot sl) (PyInt p) = false.
Proof.
  intros H. destruct (py_eq _ _) eqn:E; [|reflexivity].
  apply slot_eq_player in E. contradiction.
Qed.

Lemma set_board_same (m : ChessMatch.t) :
  ChessMatch.set_board (ChessMatch.board m) m = m.
Proof. destruct m. reflexivity. Qed.

(** The body of [ChessMatch.makePly] once the status test and the seat
    lookup are passed by the player to move. *)
Lemma makePly_by_player_to_move
    (m : ChessMatch.t) (p fromRank fromFile toRank toFile : Z) :
  ChessMatch.status m = ChessMatch.STATUS_ONGOING ->
  pc_get (ChessMatch.players m) (ChessMatch.whoseTurn m) = Some p ->
  pc_get (ChessMatch.players m) (opposite (ChessMatch.whoseTurn m))
    <> Some p ->
  ChessMatch.makePly p fromRank fromFile toRank toFile m
  = (let (r, b') := ChessBoard.makePly (ChessMatch.whoseTurn m)
                      fromRank fromFile toRank toFile (ChessMatch.board m) in
     match r with
     | Return true =>
         (Return "SUCCESS",
          ChessMatch.set_history
            (ChessMatch.history m
             ++ [((fromRank, fromFile), (toRank, toFile))])
            (ChessMatch.set_board b' m))
     | Return false => (Return ILLEGAL_MOVE, ChessMatch.set_board b' m)
     | Raise e => (Raise e, ChessMatch.set_board b' m)
     | Stuck => (Stuck, ChessMatch.set_board b' m)
     end).
Proof.
  intros Hst Hseat Hother.
  unfold ChessMatch.makePly. rewrite bind_get, Hst.
  change (ChessMatch.status_eqb ChessMatch.STATUS_ONGOING
            ChessMatch.STATUS_ONGOING) with true. cbv iota.
  destruct (ChessMatch.whoseTurn m) eqn:Ht; cbn [opposite] in Hother.
  - rewrite (slot_neq_player _ p Hother).
    rewrite (proj2 (slot_eq_player _ p) Hseat).
    cbn [color_eqb color_const String.eqb Ascii.eqb Bool.eqb negb].
    cbv iota. cbn [bind Monad_M]. unfold ChessMatch.on_board.
    destruct (ChessBoard.makePly BLACK fromRank fromFile toRank toFile
                (ChessMatch.board m)) as [[[|]| |] b']; reflexivity.
  - rewrite (proj2 (slot_eq_player _ p) Hseat).
    cbn [color_eqb color_const String.eqb Ascii.eqb Bool.eqb negb].
    cbv iota. cbn [bind Monad_M]. unfold ChessMatch.on_board.
    destruct (ChessBoard.makePly WHITE fromRank fromFile toRank toFile
                (ChessMatch.board m)) as [[[|]| |] b']; reflexivity.
Qed.

Lemma refused_out_of_turn
    (m : ChessMatch.t) (p fromRank fromFile toRank toFile : Z) :
  ChessMatch.status m = ChessMatch.STATUS_ONGOING ->
  pc_get (ChessMatch.players m) (opposite (ChessMatch.whoseTurn m)) = Some p ->
  pc_get (ChessMatch.players m) (ChessMatch.whoseTurn m) <> Some p ->
  ChessMatch.makePly p fromRank fromFile toRank toFile m
    = (Return NOT_YOUR_TURN, m).
Proof.
  intros Hst Hother Hnot.
  unfold ChessMatch.makePly. rewrite bind_get, Hst.
  change (ChessMatch.status_eqb ChessMatch.STATUS_ONGOING
            ChessMatch.STATUS_ONGOING) with true. cbv iota.
  destruct (ChessMatch.whoseTurn m) eqn:Ht; cbn [opposite] in Hother.
  - rewrite (proj2 (slot_eq_player _ p) Hother). reflexivity.
  - rewrite (slot_neq_player _ p Hnot).
    rewrite (proj2 (slot_eq_player _ p) Hother). reflexivity.
Qed.

(** In a match in progress, a caller who holds neither seat is told so
    and the match is left as it was. *)
Theorem makePly_refuses_strangers :
  forall (m : ChessMatch.t) (p fromRank fromFile toRank toFile : Z),
    ChessMatch.status m = ChessMatch.STATUS_ONGOING ->
    ~ occupies m p ->
    ChessMatch.makePly p fromRank fromFile toRank toFile m
      = (Return NOT_A_PLAYER, m).
Proof.
  intros m p fr ff tr tf Hst Hocc.
  unfold ChessMatch.makePly. rewrite bind_get, Hst.
  change (ChessMatch.status_eqb ChessMatch.STATUS_ONGOING
            ChessMatch.STATUS_ONGOING) with true. cbv iota.
  unfold occupies in Hocc.
  rewrite !slot_neq_player by tauto. reflexivity.
Qed.

Lemma makePly_refuses_strangers_witness :
  ChessMatch.makePly 13 1 0 2 0 ongoing_11_12
    = (Return NOT_A_PLAYER, ongoing_11_12).
Proof.
  apply (makePly_refuses_strangers ongoing_11_12 13 1 0 2 0).
  - reflexivity.
  - intros [H | H]; discriminate H.
Defined.

(** In a match in progress, a move of the player to move that
    [isLegalMove] refuses is answered with the illegal-move message;
    board, history, seats and status stay as they were. *)
Theorem makePly_illegal_move_keeps_match :
  forall (m : ChessMatch.t) (p fromRank fromFile toRank toFile : Z),
    ChessMatch.status m = ChessMatch.STATUS_ONGOING ->
    pc_get (ChessMatch.players m) (ChessMatch.whoseTurn m) = Some p ->
    pc_get (ChessMatch.players m) (opposite (ChessMatch.whoseTurn m))
      <> Some p ->
    ChessBoard.isLegalMove (ChessMatch.whoseTurn m)
      fromRank fromFile toRank toFile (ChessMatch.board m) = Return false ->
    ChessMatch.makePly p fromRank fromFile toRank toFile m
      = (Return ILLEGAL_MOVE, m).
Proof.
  intros m p fr ff tr tf Hst Hseat Hother Hill.
  rewrite (makePly_by_player_to_move m p fr ff tr tf Hst Hseat Hother).
  unfold ChessBoard.makePly. rewrite bind_lift, Hill. cbn [negb].
  cbn. rewrite set_board_same. reflexivity.
Qed.

Lemma makePly_illegal_move_keeps_match_witness :
  ChessMatch.makePly 11 1 0 3 0 ongoing_11_12
    = (Return ILLEGAL_MOVE, ongoing_11_12).
Proof.
  apply (makePly_illegal_move_keeps_match ongoing_11_12 11 1 0 3 0).
  - reflexivity.
  - reflexivity.
  - cbn. discriminate.
  - reflexivity.
Defined.

Lemma length_app_one_mod2 {A : Type} (h : list A) (x : A) :
  (Z.of_nat (List.length (h ++ [x])) mod 2 =? 0)
  = negb (Z.of_nat (List.length h) mod 2 =? 0).
Proof.
  rewrite !even_length_mod2. rewrite length_app. cbn [List.length].
  rewrite Nat.add_1_r, Nat.even_succ, <- Nat.negb_even. reflexivity.
Qed.

(** In a match in progress on a board of eight by eight, a move of the
    player to move that [isLegalMove] accepts succeeds: the ply is
    appended to the history, seats and status stay, the turn passes to
    the other color, and a further call by the same player is refused
    as out of turn. *)
Theorem makePly_success_passes_turn :
  forall (m : ChessMatch.t) (p fromRank fromFile toRank toFile : Z),
    ChessMatch.status m = ChessMatch.STATUS_ONGOING ->
    pc_get (ChessMatch.players m) (ChessMatch.whoseTurn m) = Some p ->
    pc_get (ChessMatch.players m) (opposite (ChessMatch.whoseTurn m))
      <> Some p ->
    eight_by_eight (ChessMatch.board m) ->
    ChessBoard.isLegalMove (ChessMatch.whoseTurn m)
      fromRank fromFile toRank toFile (ChessMatch.board m) = Return true ->
    let r := ChessMatch.makePly p fromRank fromFile toRank toFile m in
    fst r = Return "SUCCESS"
    /\ ChessMatch.history (snd r)
       = ChessMatch.history m ++ [((fromRank, fromFile), (toRank, toFile))]
    /\ ChessMatch.players (snd r) = ChessMatch.players m
    /\ ChessMatch.status (snd r) = ChessMatch.status m
    /\ ChessMatch.whoseTurn (snd r) = opposite (ChessMatch.whoseTurn m)
    /\ forall fr2 ff2 tr2 tf2,
         ChessMatch.makePly p fr2 ff2 tr2 tf2 (snd r)
           = (Return NOT_YOUR_TURN, snd r).
Proof.
  intros m p fr ff tr tf Hst Hseat Hother Hb Hlegal r. subst r.
  rewrite (makePly_by_player_to_move m p fr ff tr tf Hst Hseat Hother).
  pose proof (makePly_answer (ChessMatch.board m) (ChessMatch.whoseTurn m)
                fr ff tr tf Hb) as Hans.
  rewrite Hlegal in Hans.
  destruct (ChessBoard.makePly (ChessMatch.whoseTurn m) fr ff tr tf
              (ChessMatch.board m)) as [res b'].
  cbn [fst] in Hans. subst res. cbn [fst snd].
  set (m' := ChessMatch.set_history _ _).
  assert (Hturn : ChessMatch.whoseTurn m' = opposite (ChessMatch.whoseTurn m)).
  { unfold ChessMatch.whoseTurn. subst m'. cbn [ChessMatch.history
      ChessMatch.set_history ChessMatch.set_board].
    rewrite length_app_one_mod2.
    destruct (Z.of_nat (List.length (ChessMatch.history m)) mod 2 =? 0);
      reflexivity. }
  repeat split; try reflexivity; try exact Hturn.
  intros fr2 ff2 tr2 tf2. apply refused_out_of_turn.
  - exact Hst.
  - rewrite Hturn. destruct (ChessMatch.whoseTurn m); exact Hseat.
  - rewrite Hturn. exact Hother.
Qed.

Lemma makePly_success_passes_turn_witness :
  let r := ChessMatch.makePly 11 1 4 2 4 ongoing_11_12 in
  fst r = Return "SUCCESS"
  /\ ChessMatch.history (snd r)
     = ChessMatch.history ongoing_11_12 ++ [((1, 4), (2, 4))]
  /\ ChessMatch.players (snd r) = ChessMatch.players ongoing_11_12
  /\ ChessMatch.status (snd r) = ChessMatch.status ongoing_11_12
  /\ ChessMatch.whoseTurn (snd r) = opposite (ChessMatch.whoseTurn ongoing_11_12)
  /\ forall fr2 ff2 tr2 tf2,
       ChessMatch.makePly 11 fr2 ff2 tr2 tf2 (snd r)
         = (Return NOT_YOUR_TURN, snd r).
Proof.
  apply (makePly_success_passes_turn ongoing_11_12 11 1 4 2 4).
  - reflexivity.
  - reflexivity.
  - cbn. discriminate.
  - exact init_eight_by_eight.
  - reflexivity.
Defined.

(** ** Matches: seats and status *)

Lemma join_refuses_seated (m : ChessMatch.t) (p : Z) :
  occupies m p -> ChessMatch.join p m = (Return None, m).
Proof.
  intros Hocc. unfold ChessMatch.join. rewrite bind_get.
  destruct (negb _); [reflexivity|].
  rewrite (proj2 (player_in_values m p) Hocc). reflexivity.
Qed.

(** What [join] leaves behind: the match as it was and [None], or the
    player on a seat that was free, the other seat as it was, and the
    status set by whether that other seat is taken. *)
Lemma join_outcome (m : ChessMatch.t) (p : Z) :
  ChessMatch.join p m = (Return None, m)
  \/ exists c,
       ChessMatch.status m = ChessMatch.STATUS_PENDING
       /\ ~ occupies m p
       /\ pc_get (ChessMatch.players m) c = None
       /\ ChessMatch.join p m
          = (Return (Some c),
             ChessMatch.Build (ChessMatch.board m)
               (pc_set (ChessMatch.players m) c (Some p))
               (match pc_get (ChessMatch.players m) (opposite c) with
                | Some _ => ChessMatch.STATUS_ONGOING
                | None => ChessMatch.STATUS_PENDING
                end)
               (ChessMatch.history m)).
Proof.
  unfold ChessMatch.join. rewrite bind_get.
  destruct (ChessMatch.status_eqb (ChessMatch.status m)
              ChessMatch.STATUS_PENDING) eqn:Est; cbn [negb]; [|auto].
  apply status_eqb_eq in Est.
  destruct (py_in py_eq (PyInt p) (ChessMatch.player_values m)) eqn:Ein;
    [auto|].
  assert (Hocc : ~ occupies m p).
  { intros H. apply player_in_values in H. congruence. }
  destruct m as [b [w k] st h]. cbn in Est. subst st.
  destruct w as [x|], k as [y|].
  - left. reflexivity.
  - right. exists BLACK. repeat split; try assumption; reflexivity.
  - right. exists WHITE. repeat split; try assumption; reflexivity.
  - right. exists WHITE. repeat split; try assumption; reflexivity.
Qed.

(** A player who has just been seated by [join] is refused by the next
    [join] on the same match, which changes nothing. *)
Theorem join_twice_refused :
  forall (m m' : ChessMatch.t) (p : Z) (c : Color),
    ChessMatch.join p m = (Return (Some c), m') ->
    ChessMatch.join p m' = (Return None, m').
Proof.
  intros m m' p c H.
  destruct (join_outcome m p) as [E | (c' & _ & _ & _ & E)];
    rewrite E in H; [discriminate H|].
  injection H as Hc Hm'. subst c m'. apply join_refuses_seated.
  unfold occupies. cbn [ChessMatch.players].
  destruct c', (ChessMatch.players m) as [w k]; cbn; auto.
Qed.

Lemma join_twice_refused_witness :
  ChessMatch.join 8 ongoing_8_7 = (Return None, ongoing_8_7).
Proof.
  apply (join_twice_refused pending_black_only ongoing_8_7 8 WHITE).
  reflexivity.
Defined.

Lemma join_keeps_sound (p : Z) : keeps seats_sound (ChessMatch.join p).
Proof.
  intros m Hm.
  destruct (join_outcome m p) as [-> | (c & Hst & Hocc & Hfree & ->)];
    [exact Hm|].
  cbn [snd]. destruct Hm as [H1 H2 H3 H4].
  destruct m as [b [w k] st h]. cbn in *. subst st.
  unfold occupies in Hocc. cbn in Hocc.
  destruct c, w as [x|], k as [y|]; cbn in Hfree; try discriminate Hfree;
    constructor; cbn;
    solve [ auto
          | split; [intros E; discriminate E | intros [E1 E2]; congruence]
          | split; [intros _; split; discriminate | reflexivity]
          | intros E; discriminate E
          | intros q [E1 E2];
            first [ discriminate E1 | discriminate E2
                  | apply Hocc; left; congruence
                  | apply Hocc; right; congruence ] ].
Qed.

(** [ChessMatch.makePly] touches the board and the history only, and
    only in a match in progress. *)
Lemma match_makePly_state (m : ChessMatch.t)
    (p fromRank fromFile toRank toFile : Z) :
  snd (ChessMatch.makePly p fromRank fromFile toRank toFile m) = m
  \/ (ChessMatch.status m = ChessMatch.STATUS_ONGOING
      /\ exists b' h',
           snd (ChessMatch.makePly p fromRank fromFile toRank toFile m)
           = ChessMatch.Build b' (ChessMatch.players m)
               (ChessMatch.status m) h').
Proof.
  unfold ChessMatch.makePly. rewrite bind_get.
  destruct (ChessMatch.status_eqb (ChessMatch.status m)
              ChessMatch.STATUS_ONGOING) eqn:Est; [|auto].
  apply status_eqb_eq in Est.
  match goal with
  | |- context [match ?x with Some _ => _ | None => _ end] =>
      destruct x as [color|]
  end; [|auto].
  destruct (negb (color_eqb color (ChessMatch.whoseTurn m))); [auto|].
  right. split; [exact Est|].
  cbn [bind Monad_M]. unfold ChessMatch.on_board.
  destruct (ChessBoard.makePly color fromRank fromFile toRank toFile
              (ChessMatch.board m)) as [[[|]| |] b'];
    cbn; unfold ChessMatch.set_history, ChessMatch.set_board; cbn;
    do 2 eexists; reflexivity.
Qed.

Lemma makePly_keeps_sound (p fromRank fromFile toRank toFile : Z) :
  keeps seats_sound (ChessMatch.makePly p fromRank fromFile toRank toFile).
Proof.
  intros m Hm.
  destruct (match_makePly_state m p fromRank fromFile toRank toFile)
    as [-> | (Hst & b' & h' & ->)]; [exact Hm|].
  destruct Hm as [H1 H2 H3 H4].
  constructor; cbn; auto.
  intros E. rewrite Hst in E. discriminate E.
Qed.

(** On a match with sound seats the player who holds the color that is
    not to move never holds WHITE as well while WHITE is to move. *)
Lemma sound_seats_meet_turn_condition (m : ChessMatch.t) (p : Z) :
  seats_sound m ->
  pc_get (ChessMatch.players m) (opposite (ChessMatch.whoseTurn m)) = Some p ->
  ChessMatch.whoseTurn m = WHITE ->
  pc_get (ChessMatch.players m) WHITE <> Some p.
Proof.
  intros [_ _ Hself _] Hother Hturn Hw.
  rewrite Hturn in Hother. cbn [opposite] in Hother.
  exact (Hself p (conj Hw Hother)).
Qed.

(** Every match that the constructor makes and any sequence of [join]
    and [makePly] calls then leaves is PENDING or ONGOING, is ONGOING
    exactly when both seats are taken, never has one player on both
    seats, and has an empty history while PENDING. *)
Theorem reachable_matches_sound :
  forall (firstPlayerID : option Z) (draw : Z) (draws : rng)
         (ops : list match_op) (m0 : ChessMatch.t),
    fst (ChessMatch.init firstPlayerID (draw :: draws)) = Return m0 ->
    seats_sound (run_ops ops m0).
Proof.
  intros fp d ds ops m0 Hinit.
  assert (H0 : seats_sound m0).
  { cbn in Hinit. injection Hinit as <-.
    destruct (Z.to_nat (d mod 2)) as [|[|[|n]]]; cbn;
      destruct fp as [x|]; constructor; cbn;
      solve [ auto
            | split; [ intros E; discriminate E
                     | intros [E1 E2];
                       first [ exfalso; apply E1; reflexivity
                             | exfalso; apply E2; reflexivity ] ]
            | intros q [E1 E2]; first [discriminate E1 | discriminate E2] ]. }
  clear Hinit. revert m0 H0.
  induction ops as [|[q | q fr ff tr tf] more IH]; intros m Hm; cbn.
  - exact Hm.
  - apply IH, join_keeps_sound, Hm.
  - apply IH, makePly_keeps_sound, Hm.
Qed.

Lemma reachable_matches_sound_witness :
  seats_sound
    (run_ops [DoJoin 7; DoJoin 8; DoPly 8 1 4 2 4; DoJoin 9]
       pending_black_only).
Proof.
  apply (reachable_matches_sound (Some 7) 1 []
           [DoJoin 7; DoJoin 8; DoPly 8 1 4 2 4; DoJoin 9]
           pending_black_only).
  reflexivity.
Defined.

(** ** Identifiers *)

Lemma py_in_Z (x : Z) (l : list Z) : py_in Z.eqb x l = true <-> In x l.
Proof.
  unfold py_in. rewrite existsb_exists. split.
  - intros (y & Hy & E). apply Z.eqb_eq in E. subst. exact Hy.
  - intros H. exists x. split; [exact H | apply Z.eqb_refl].
Qed.

Lemma py_in_string (x : string) (l : list string) :
  py_in String.eqb x l = true <-> In x l.
Proof.
  unfold py_in. rewrite existsb_exists. split.
  - intros (y & Hy & E). apply String.eqb_eq in E. subst. exact Hy.
  - intros H. exists x. split; [exact H | apply String.eqb_refl].
Qed.

Lemma redraw_fresh (taken : list Z) (M : Z) (r r' : rng) (n0 n : Z) :
  1 <= M -> 1 <= n0 <= M ->
  redraw_while_in taken M n0 r = (Return n, r') ->
  ~ In n taken /\ 1 <= n <= M.
Proof.
  intros HM. revert n0.
  induction r as [|d r IH]; intros n0 Hn0 H; cbn in H.
  - destruct (py_in Z.eqb n0 taken) eqn:E; [discriminate H|].
    injection H as <- <-. split; [|exact Hn0].
    intros Hin. apply py_in_Z in Hin. congruence.
  - destruct (py_in Z.eqb n0 taken) eqn:E.
    + apply (IH (1 + d mod (M - 1 + 1))); [|exact H].
      pose proof (Z.mod_pos_bound d (M - 1 + 1) ltac:(lia)). lia.
    + injection H as <- <-. split; [|exact Hn0].
      intros Hin. apply py_in_Z in Hin. congruence.
Qed.

Lemma redraw_returns (taken : list Z) (M : Z) (r : rng) (n0 : Z) :
  ~ In n0 taken
  \/ (exists d, In d r /\ ~ In (1 + d mod (M - 1 + 1)) taken) ->
  exists n r', redraw_while_in taken M n0 r = (Return n, r').
Proof.
  revert n0. induction r as [|d r IH]; intros n0 H; cbn.
  - destruct (py_in Z.eqb n0 taken) eqn:E; [|eauto].
    apply py_in_Z in E. destruct H as [H | (d & [] & _)]. contradiction.
  - destruct (py_in Z.eqb n0 taken) eqn:E; [|eauto].
    apply py_in_Z in E. apply IH.
    destruct H as [H | (d' & [<- | Hin] & Hd')]; [contradiction | |].
    + left. exact Hd'.
    + right. eauto.
Qed.

Lemma maxVals_positive : 1 <= maxVals.
Proof. apply Z.leb_le. reflexivity. Qed.

Lemma getUniqueInt_fresh_in_range_aux :
  forall (taken : list Z) (r : rng),
    (forall n r', _getUniqueInt taken r = (Return n, r') ->
                  ~ In n taken /\ 1 <= n <= maxVals)
    /\ (Z.of_nat (List.length taken) < maxSize ->
        (exists d, In d r /\ ~ In (1 + d mod maxVals) taken) ->
        exists n r', _getUniqueInt taken r = (Return n, r'))
    /\ (maxSize <= Z.of_nat (List.length taken) ->
        _getUniqueInt taken r = (Raise RuntimeError, r)).
Proof.
  intros taken r. unfold _getUniqueInt.
  fold maxVals. fold maxSize.
  pose proof maxVals_positive as HM.
  split; [|split].
  - intros n r' H.
    destruct (Z.of_nat (List.length taken) >=? maxSize); [discriminate H|].
    destruct r as [|d r]; [discriminate H|].
    cbn [bind Monad_M random_randint] in H.
    apply (redraw_fresh taken maxVals r r' (1 + d mod (maxVals - 1 + 1)) n HM);
      [|exact H].
    pose proof (Z.mod_pos_bound d (maxVals - 1 + 1) ltac:(lia)). lia.
  - intros Hsize (d & Hd & Hfresh).
    destruct (Z.geb_spec (Z.of_nat (List.length taken)) maxSize); [lia|].
    destruct r as [|d0 r]; [destruct Hd|].
    cbn [bind Monad_M random_randint].
    replace (maxVals - 1 + 1) with maxVals by lia.
    apply redraw_returns.
    replace (maxVals - 1 + 1) with maxVals by lia.
    destruct Hd as [<- | Hd].
    + left. exact Hfresh.
    + right. exists d. split; assumption.
  - intros Hsize.
    destruct (Z.geb_spec (Z.of_nat (List.length taken)) maxSize); [|lia].
    reflexivity.
Qed.

(** [_getUniqueInt]: a returned identifier is not among the ones given
    and lies in 1..2^32-1; with fewer than 2^31 identifiers given, it
    does return as soon as one draw of the random source falls outside
    them; with 2^31 or more it raises [RuntimeError] without drawing. *)
Theorem getUniqueInt_fresh_in_range :
  forall (taken : list Z) (r : rng),
    (forall n r', _getUniqueInt taken r = (Return n, r') ->
                  ~ In n taken /\ 1 <= n <= maxVals)
    /\ (Z.of_nat (List.length taken) < maxSize ->
        (exists d, In d r /\ ~ In (1 + d mod maxVals) taken) ->
        exists n r', _getUniqueInt taken r = (Return n, r'))
    /\ (maxSize <= Z.of_nat (List.length taken) ->
        _getUniqueInt taken r = (Raise RuntimeError, r)).
Proof. exact getUniqueInt_fresh_in_range_aux. Qed.

Lemma getUniqueInt_fresh_in_range_witness :
  (~ In 8 [42; 5] /\ 1 <= 8 <= maxVals)
  /\ exists n r', _getUniqueInt [42; 5] [41; 4; 7; 9] = (Return n, r').
Proof.
  split.
  - apply (proj1 (getUniqueInt_fresh_in_range [42; 5] [41; 4; 7; 9]) 8 [9]).
    vm_compute. reflexivity.
  - apply (proj1 (proj2 (getUniqueInt_fresh_in_range [42; 5] [41; 4; 7; 9]))).
    + vm_compute. reflexivity.
    + exists 7. split; [cbn; tauto|].
      vm_compute. intros [H | [H | H]]; try discriminate H. exact H.
Defined.

(** ** Registering players *)

Lemma dict_get_none_keys {V : Type} (d : dict V) (k : Z) :
  dict_get d k = None <-> ~ In k (dict_keys d).
Proof.
  induction d as [|[k' v] d IH]; cbn.
  - tauto.
  - destruct (Z.eqb_spec k k') as [-> | Hne].
    + split; [discriminate | intros H; exfalso; apply H; auto].
    + rewrite IH. split; [intros H [E | E]; [congruence | contradiction]
                        | intros H E; apply H; auto].
Qed.

Lemma dict_set_fresh {V : Type} (d : dict V) (k : Z) (v : V) :
  ~ In k (dict_keys d) -> dict_set d k v = d ++ [(k, v)].
Proof.
  induction d as [|[k' v'] d IH]; cbn; intros H; [reflexivity|].
  destruct (Z.eqb_spec k k') as [-> | Hne]; [exfalso; apply H; auto|].
  rewrite IH by tauto. reflexivity.
Qed.

Lemma dict_get_set_same {V : Type} (d : dict V) (k : Z) (v : V) :
  dict_get (dict_set d k v) k = Some v.
Proof.
  induction d as [|[k' v'] d IH]; cbn.
  - rewrite Z.eqb_refl. reflexivity.
  - destruct (Z.eqb_spec k k') as [-> | Hne]; cbn.
    + rewrite Z.eqb_refl. reflexivity.
    + destruct (Z.eqb_spec k k'); [contradiction | exact IH].
Qed.

Lemma dict_get_set_other {V : Type} (d : dict V) (k k' : Z) (v : V) :
  k' <> k -> dict_get (dict_set d k v) k' = dict_get d k'.
Proof.
  intros Hne. induction d as [|[k0 v0] d IH]; cbn.
  - destruct (Z.eqb_spec k' k); [contradiction | reflexivity].
  - destruct (Z.eqb_spec k k0) as [-> | Hk]; cbn.
    + destruct (Z.eqb_spec k' k0); [contradiction | reflexivity].
    + destruct (Z.eqb_spec k' k0); [reflexivity | exact IH].
Qed.

(** What [register] leaves behind. *)
Lemma register_outcome (name : string) (w : TournamentSystem.world) :
  (In name (TournamentSystem.dict_values
              (TournamentSystem.players (TournamentSystem.self w)))
   /\ TournamentSystem.register name w
      = (Return (false,
                 [("error", PyStr "player with this name already exists")]),
         w))
  \/ (~ In name (TournamentSystem.dict_values
                   (TournamentSystem.players (TournamentSystem.self w)))
      /\ ((exists r', (fst (TournamentSystem.register name w) = Stuck
                       \/ exists e, fst (TournamentSystem.register name w)
                                    = Raise e)
                      /\ snd (TournamentSystem.register name w)
                         = TournamentSystem.World (TournamentSystem.self w) r')
          \/ exists n r',
               ~ In n (dict_keys (TournamentSystem.players
                                    (TournamentSystem.self w)))
               /\ 1 <= n <= maxVals
               /\ TournamentSystem.register name w
                  = (Return (true, [("playerID", PyInt n)]),
                     TournamentSystem.World
                       (TournamentSystem.Build
                          (TournamentSystem.games (TournamentSystem.self w))
                          (TournamentSystem.players (TournamentSystem.self w)
                           ++ [(n, name)]))
                       r'))).
Proof.
  unfold TournamentSystem.register. rewrite bind_get.
  destruct (py_in String.eqb name _) eqn:Ein.
  - left. split; [apply py_in_string; exact Ein | reflexivity].
  - right. split.
    { intros H. apply py_in_string in H. congruence. }
    cbn [bind Monad_M]. unfold TournamentSystem.with_random.
    set (keys := dict_keys (TournamentSystem.players (TournamentSystem.self w))).
    destruct (_getUniqueInt keys (TournamentSystem.random w))
      as [[n | e |] r'] eqn:Hn; cbn.
    + right. exists n, r'.
      destruct (proj1 (getUniqueInt_fresh_in_range_aux keys
                         (TournamentSystem.random w)) n r' Hn) as [Hfresh Hrange].
      split; [exact Hfresh|]. split; [exact Hrange|].
      unfold TournamentSystem.set_players. cbn.
      rewrite (dict_set_fresh _ n name Hfresh). reflexivity.
    + left. exists r'. split; [right; eauto | reflexivity].
    + left. exists r'. split; [left; reflexivity | reflexivity].
Qed.

(** A name already registered is refused and the registry, random
    source included, is left as it was; in particular a name that
    [register] has just accepted is refused when offered again. *)
Theorem register_refuses_taken_name :
  forall (w : TournamentSystem.world) (name : string),
    (In name (TournamentSystem.dict_values
                (TournamentSystem.players (TournamentSystem.self w))) ->
     TournamentSystem.register name w = (Return DUPLICATE_NAME, w))
    /\ (forall payload w',
          TournamentSystem.register name w = (Return (true, payload), w') ->
          TournamentSystem.register name w' = (Return DUPLICATE_NAME, w')).
Proof.
  intros w name. split.
  - intros Hin.
    destruct (register_outcome name w) as [[_ E] | [Hnot _]];
      [exact E | contradiction].
  - intros payload w' H.
    destruct (register_outcome name w)
      as [[_ E] | [Hnot [(r' & [E | [e E]] & _) | (n & r' & _ & _ & E)]]];
      try (rewrite E in H; discriminate H);
      try (rewrite H in E; discriminate E).
    rewrite E in H. injection H as _ <-.
    destruct (register_outcome name
                (TournamentSystem.World
                   (TournamentSystem.Build
                      (TournamentSystem.games (TournamentSystem.self w))
                      (TournamentSystem.players (TournamentSystem.self w)
                       ++ [(n, name)])) r'))
      as [[_ E'] | [Hnot' _]]; [exact E'|].
    exfalso. apply Hnot'. cbn. unfold TournamentSystem.dict_values.
    rewrite map_app. apply in_or_app. right. left. reflexivity.
Qed.

Lemma register_refuses_taken_name_witness :
  let w := TournamentSystem.World
             (TournamentSystem.Build [] [(5, "Alice")]) [40] in
  let w1 := TournamentSystem.World
              (TournamentSystem.Build [] [(5, "Alice"); (41, "Bob")]) [] in
  TournamentSystem.register "Alice" w = (Return DUPLICATE_NAME, w)
  /\ TournamentSystem.register "Bob" w1 = (Return DUPLICATE_NAME, w1).
Proof.
  split.
  - apply (proj1 (register_refuses_taken_name
                    (TournamentSystem.World
                       (TournamentSystem.Build [] [(5, "Alice")]) [40])
                    "Alice")).
    left. reflexivity.
  - apply (proj2 (register_refuses_taken_name
                    (TournamentSystem.World
                       (TournamentSystem.Build [] [(5, "Alice")]) [40])
                    "Bob") [("playerID", PyInt 41)]).
    vm_compute. reflexivity.
Defined.

(** A name not yet registered, when [register] returns: the reply
    carries an identifier in 1..2^32-1 that no player had, the
    players map now sends it to the name and is otherwise as before,
    and the games are untouched. *)
Theorem register_adds_fresh_player :
  forall (w w' : TournamentSystem.world) (name : string)
         (reply : TournamentSystem.reply),
    ~ In name (TournamentSystem.dict_values
                 (TournamentSystem.players (TournamentSystem.self w))) ->
    TournamentSystem.register name w = (Return reply, w') ->
    exists n,
      reply = (true, [("playerID", PyInt n)])
      /\ 1 <= n <= maxVals
      /\ dict_get (TournamentSystem.players (TournamentSystem.self w)) n = None
      /\ dict_get (TournamentSystem.players (TournamentSystem.self w')) n
         = Some name
      /\ (forall k, k <> n ->
            dict_get (TournamentSystem.players (TournamentSystem.self w')) k
            = dict_get (TournamentSystem.players (TournamentSystem.self w)) k)
      /\ TournamentSystem.games (TournamentSystem.self w')
         = TournamentSystem.games (TournamentSystem.self w).
Proof.
  intros w w' name reply Hnot H.
  destruct (register_outcome name w)
    as [[Hin _] | [_ [(r' & [E | [e E]] & _) | (n & r' & Hfresh & Hrange & E)]]];
    try contradiction;
    try (rewrite H in E; discriminate E).
  rewrite E in H. injection H as <- <-.
  exists n. cbn [TournamentSystem.self TournamentSystem.players
                 TournamentSystem.games].
  rewrite <- (dict_set_fresh _ n name Hfresh).
  repeat split; try tauto.
  - apply dict_get_none_keys. exact Hfresh.
  - apply dict_get_set_same.
  - intros k Hk. apply dict_get_set_other. exact Hk.
Qed.

Lemma register_adds_fresh_player_witness :
  exists n,
    (true, [("playerID", PyInt 41)]) = (true, [("playerID", PyInt n)])
    /\ 1 <= n <= maxVals
    /\ dict_get [(5, "Alice")] n = None
    /\ dict_get [(5, "Alice"); (41, "Bob")] n = Some "Bob"
    /\ (forall k, k <> n ->
          dict_get [(5, "Alice"); (41, "Bob")] k = dict_get [(5, "Alice")] k)
    /\ @nil (Z * ChessMatch.t) = [].
Proof.
  apply (register_adds_fresh_player
           (TournamentSystem.World
              (TournamentSystem.Build [] [(5, "Alice")]) [40])
           (TournamentSystem.World
              (TournamentSystem.Build [] [(5, "Alice"); (41, "Bob")]) [])
           "Bob" (true, [("playerID", PyInt 41)])).
  - cbn. intros [H | H]; [discriminate H | exact H].
  - vm_compute. reflexivity.
Defined.





(** Two names registered on an empty registry whose random source
    draws the same number twice and then another one: the second call
    redraws, and the two players get different identifiers. *)
Lemma registered_ids_redraw :
  registered_ids ["Alice"; "Bob"]
    (TournamentSystem.World TournamentSystem.init [4; 4; 9]) = [5; 10].
Proof. vm_compute. reflexivity. Qed.

(** ** Cancelling and querying games *)

Lemma has_key_get {V : Type} (d : dict V) (k : Z) (v : V) :
  dict_get d k = Some v -> dict_has_key d k = true.
Proof. unfold dict_has_key. intros ->. reflexivity. Qed.

Lemma with_game_same (gameID : Z) (m : ChessMatch.t)
    (w : TournamentSystem.world) :
  dict_get (TournamentSystem.games (TournamentSystem.self w)) gameID = Some m ->
  with_game gameID m w = w.
Proof.
  intros H. unfold with_game. rewrite (dict_set_same _ _ _ H).
  destruct w as [[gs ps] r]. reflexivity.
Qed.

(** Reading the status of a stored match leaves the registry alone. *)
Lemma read_status (gameID : Z) (m : ChessMatch.t)
    (w : TournamentSystem.world) :
  dict_get (TournamentSystem.games (TournamentSystem.self w)) gameID = Some m ->
  TournamentSystem.on_game gameID
    (lift (fun g => Return (ChessMatch.status g))) w
  = (Return (ChessMatch.status m), w).
Proof.
  intros H. unfold TournamentSystem.on_game. rewrite H. unfold lift.
  fold (with_game gameID m w). rewrite (with_game_same _ _ _ H). reflexivity.
Qed.

Lemma cancelGame_run (gameID : Z) (w : TournamentSystem.world) :
  TournamentSystem.cancelGame gameID w
  = match dict_get (TournamentSystem.games (TournamentSystem.self w)) gameID with
    | None => (Return (Some INVALID_GAME_ID), w)
    | Some m =>
        if py_in ChessMatch.status_eqb (ChessMatch.status m)
             [ChessMatch.STATUS_ONGOING; ChessMatch.STATUS_PENDING]
        then (Return None,
              with_game gameID
                (ChessMatch.set_status ChessMatch.STATUS_CANCELLED m) w)
        else (Return (Some NOT_ACTIVE), w)
    end.
Proof.
  unfold TournamentSystem.cancelGame. rewrite bind_get.
  destruct (dict_get (TournamentSystem.games (TournamentSystem.self w)) gameID)
    as [m|] eqn:Hg.
  - rewrite (has_key_get _ _ _ Hg).
    rewrite (bind_run _ _ _ _ _ (read_status gameID m w Hg)).
    destruct (py_in ChessMatch.status_eqb (ChessMatch.status m) _);
      [|reflexivity].
    cbn [bind Monad_M]. unfold TournamentSystem.on_game. rewrite Hg.
    reflexivity.
  - unfold dict_has_key. rewrite Hg. reflexivity.
Qed.

Lemma getStatus_run (gameID : Z) (w : TournamentSystem.world) :
  TournamentSystem.getStatus gameID w
  = match dict_get (TournamentSystem.games (TournamentSystem.self w)) gameID with
    | None => (Return INVALID_GAME_ID, w)
    | Some m =>
        (Return (true,
                 [("status", PyStr (ChessMatch.status_const (ChessMatch.status m)))]),
         w)
    end.
Proof.
  unfold TournamentSystem.getStatus. rewrite bind_get.
  destruct (dict_get (TournamentSystem.games (TournamentSystem.self w)) gameID)
    as [m|] eqn:Hg.
  - rewrite (has_key_get _ _ _ Hg).
    rewrite (bind_run _ _ _ _ _ (read_status gameID m w Hg)). reflexivity.
  - unfold dict_has_key. rewrite Hg. reflexivity.
Qed.

Lemma active_status (st : ChessMatch.Status) :
  py_in ChessMatch.status_eqb st
    [ChessMatch.STATUS_ONGOING; ChessMatch.STATUS_PENDING] = true
  <-> st = ChessMatch.STATUS_ONGOING \/ st = ChessMatch.STATUS_PENDING.
Proof.
  destruct st; cbn; split; intros H; try reflexivity; try discriminate H;
    auto; destruct H as [H | H]; discriminate H.
Qed.

(** [cancelGame] refuses an unknown game id and a game that is neither
    ONGOING nor PENDING, each with its own error reply, and changes
    nothing. *)
Theorem cancelGame_refusals :
  forall (w : TournamentSystem.world) (gameID : Z),
    (dict_get (TournamentSystem.games (TournamentSystem.self w)) gameID = None ->
     TournamentSystem.cancelGame gameID w = (Return (Some INVALID_GAME_ID), w))
    /\ (forall m,
          dict_get (TournamentSystem.games (TournamentSystem.self w)) gameID
            = Some m ->
          ChessMatch.status m <> ChessMatch.STATUS_ONGOING ->
          ChessMatch.status m <> ChessMatch.STATUS_PENDING ->
          TournamentSystem.cancelGame gameID w = (Return (Some NOT_ACTIVE), w)).
Proof.
  intros w gameID. split.
  - intros H. rewrite cancelGame_run, H. reflexivity.
  - intros m H H1 H2. rewrite cancelGame_run, H.
    destruct (py_in ChessMatch.status_eqb (ChessMatch.status m) _) eqn:E;
      [|reflexivity].
    apply active_status in E. tauto.
Qed.

Lemma cancelGame_refusals_witness :
  TournamentSystem.cancelGame 44 two_games
    = (Return (Some INVALID_GAME_ID), two_games)
  /\ TournamentSystem.cancelGame 43 two_games
     = (Return (Some NOT_ACTIVE), two_games).
Proof.
  split.
  - apply (proj1 (cancelGame_refusals two_games 44)). reflexivity.
  - apply (proj2 (cancelGame_refusals two_games 43)
             (ChessMatch.set_status ChessMatch.STATUS_WHITE_WON ongoing_11_12)).
    + reflexivity.
    + discriminate.
    + discriminate.
Defined.

(** [cancelGame] on a game that is ONGOING or PENDING answers [None]
    (the method has no return value there) and sets that game's status
    to CANCELLED; its board, seats and history, every other game, the
    players and the random source stay as they were. Afterwards
    [getStatus] reports the cancelled status and a second [cancelGame]
    is refused as not active. *)
Theorem cancelGame_cancels_active_game :
  forall (w : TournamentSystem.world) (gameID : Z) (m : ChessMatch.t),
    dict_get (TournamentSystem.games (TournamentSystem.self w)) gameID
      = Some m ->
    ChessMatch.status m = ChessMatch.STATUS_ONGOING
    \/ ChessMatch.status m = ChessMatch.STATUS_PENDING ->
    let w' := with_game gameID
                (ChessMatch.set_status ChessMatch.STATUS_CANCELLED m) w in
    TournamentSystem.cancelGame gameID w = (Return None, w')
    /\ (forall g, g <> gameID ->
          dict_get (TournamentSystem.games (TournamentSystem.self w')) g
          = dict_get (TournamentSystem.games (TournamentSystem.self w)) g)
    /\ TournamentSystem.getStatus gameID w'
       = (Return (true, [("status", PyStr "CANCELD")]), w')
    /\ TournamentSystem.cancelGame gameID w' = (Return (Some NOT_ACTIVE), w').
Proof.
  intros w gameID m Hg Hst w'.
  assert (Hg' : dict_get (TournamentSystem.games (TournamentSystem.self w'))
                  gameID
                = Some (ChessMatch.set_status ChessMatch.STATUS_CANCELLED m)).
  { subst w'. cbn. apply dict_get_set_same. }
  repeat split.
  - rewrite cancelGame_run, Hg.
    rewrite (proj2 (active_status _) Hst). reflexivity.
  - intros g Hne. subst w'. cbn. apply dict_get_set_other. exact Hne.
  - rewrite getStatus_run, Hg'. reflexivity.
  - rewrite cancelGame_run, Hg'. reflexivity.
Qed.

Lemma cancelGame_cancels_active_game_witness :
  let w' := with_game 42
              (ChessMatch.set_status ChessMatch.STATUS_CANCELLED ongoing_11_12)
              two_games in
  TournamentSystem.cancelGame 42 two_games = (Return None, w')
  /\ (forall g, g <> 42 ->
        dict_get (TournamentSystem.games (TournamentSystem.self w')) g
        = dict_get (TournamentSystem.games (TournamentSystem.self two_games)) g)
  /\ TournamentSystem.getStatus 42 w'
     = (Return (true, [("status", PyStr "CANCELD")]), w')
  /\ TournamentSystem.cancelGame 42 w' = (Return (Some NOT_ACTIVE), w').
Proof.
  apply (cancelGame_cancels_active_game two_games 42 ongoing_11_12).
  - reflexivity.
  - left. reflexivity.
Defined.

(** [getStatus] never changes the registry: it reports the status
    constant of a known game and the invalid-id error otherwise. *)
Theorem getStatus_reports_status :
  forall (w : TournamentSystem.world) (gameID : Z),
    snd (TournamentSystem.getStatus gameID w) = w
    /\ (forall m,
          dict_get (TournamentSystem.games (TournamentSystem.self w)) gameID
            = Some m ->
          fst (TournamentSystem.getStatus gameID w)
          = Return (true,
                    [("status",
                      PyStr (ChessMatch.status_const (ChessMatch.status m)))]))
    /\ (dict_get (TournamentSystem.games (TournamentSystem.self w)) gameID
          = None ->
        fst (TournamentSystem.getStatus gameID w) = Return INVALID_GAME_ID).
Proof.
  intros w gameID. rewrite getStatus_run.
  destruct (dict_get (TournamentSystem.games (TournamentSystem.self w)) gameID)
    as [m|]; repeat split; try reflexivity.
  - intros m' E. injection E as <-. reflexivity.
  - intros E. discriminate E.
  - intros m' E. discriminate E.
Qed.

Lemma getStatus_reports_status_witness :
  fst (TournamentSystem.getStatus 43 two_games)
    = Return (true, [("status", PyStr "W_WHITE")])
  /\ fst (TournamentSystem.getStatus 7 two_games) = Return INVALID_GAME_ID.
Proof.
  split.
  - apply (proj1 (proj2 (getStatus_reports_status two_games 43))
             (ChessMatch.set_status ChessMatch.STATUS_WHITE_WON ongoing_11_12)).
    reflexivity.
  - apply (proj2 (proj2 (getStatus_reports_status two_games 7))).
    reflexivity.
Defined.

(** [getState] never returns the state of a game: for a known game it
    raises [AttributeError] (it reads [history] off the board object,
    which has none) and for an unknown one it answers with the
    invalid-id error; the registry is unchanged either way. *)
Theorem getState_never_returns_state :
  forall (w : TournamentSystem.world) (gameID : Z),
    (dict_has_key (TournamentSystem.games (TournamentSystem.self w)) gameID
       = true ->
     TournamentSystem.getState gameID w = (Raise AttributeError, w))
    /\ (dict_has_key (TournamentSystem.games (TournamentSystem.self w)) gameID
          = false ->
        TournamentSystem.getState gameID w
          = (Return (false, inr "Invalid game ID"), w)).
Proof.
  intros w gameID. unfold TournamentSystem.getState. rewrite bind_get.
  split; intros H; rewrite H; [|reflexivity].
  unfold dict_has_key in H.
  destruct (dict_get (TournamentSystem.games (TournamentSystem.self w)) gameID)
    as [m|] eqn:Hg; [|discriminate H].
  unfold TournamentSystem.on_game. rewrite Hg. unfold lift. cbn.
  fold (with_game gameID m w). rewrite (with_game_same _ _ _ Hg). reflexivity.
Qed.

Lemma getState_never_returns_state_witness :
  TournamentSystem.getState 42 two_games = (Raise AttributeError, two_games)
  /\ TournamentSystem.getState 7 two_games
     = (Return (false, inr "Invalid game ID"), two_games).
Proof.
  split.
  - apply (proj1 (getState_never_returns_state two_games 42)). reflexivity.
  - apply (proj2 (getState_never_returns_state two_games 7)). reflexivity.
Defined.

(** ** The request line handler *)

Lemma lookup_not_register (verb : string) (c : NetworkServer.command)
    (expArgs : list string) :
  verb <> "REGISTER" ->
  NetworkServer.lookup verb NetworkServer.validRequests = Some (c, expArgs) ->
  NetworkServer.set_eqb expArgs ["name"] = false.
Proof.
  intros Hne H. cbn in H.
  destruct (String.eqb_spec verb "REGISTER"); [contradiction|].
  repeat match type of H with
         | (if ?t then _ else _) = _ =>
             destruct t; [injection H as <- <-; reflexivity|]
         end.
  discriminate H.
Qed.

(** A refusal that comes back from the called command carries the key
    [error] with the registry's duplicate-name message. *)
Lemma refusals_carry_error (c : NetworkServer.command) (arg : string)
    (w w' : TournamentSystem.world) (payload : list (string * pyval)) :
  NetworkServer.call_with_name c arg w = (Return (false, payload), w') ->
  payload = [("error", PyStr "player with this name already exists")]
  /\ NetworkServer.error_of payload = "player with this name already exists".
Proof.
  intros H. destruct c; cbn [NetworkServer.call_with_name] in H;
    try discriminate H.
  destruct (register_outcome arg w)
    as [[_ E] | [_ [(r' & [E | [e E]] & _) | (n & r' & _ & _ & E)]]];
    try (rewrite H in E; discriminate E).
  rewrite E in H. injection H as <- _. split; reflexivity.
Qed.

(** Every request line whose first word is not REGISTER is answered
    with an ERROR line quoting the request, and the registry is left as
    it was: the handler passes every request the single argument
    [name], which no other request accepts. *)
Theorem lineReceived_only_register_reaches_registry :
  forall (str_of_payload : list (string * pyval) -> string)
         (list_of_set : list string -> list string)
         (line : string) (w : TournamentSystem.world),
    verb_of line <> "REGISTER" ->
    exists errMsg,
      NetworkServer.lineReceived str_of_payload list_of_set line w
      = (Return (error_line line errMsg), w).
Proof.
  intros str_of_payload list_of_set line w Hverb.
  unfold NetworkServer.lineReceived. fold (verb_of line).
  destruct (NetworkServer.lookup (verb_of line) NetworkServer.validRequests)
    as [[c expArgs]|] eqn:Hl.
  - cbn [map fst].
    rewrite (lookup_not_register _ _ _ Hverb Hl). cbn [negb].
    eexists. reflexivity.
  - eexists. reflexivity.
Qed.

Lemma lineReceived_only_register_reaches_registry_witness :
  exists errMsg,
    NetworkServer.lineReceived (fun _ => "") (fun l => l)
      "JOIN_GAME 11" two_games
    = (Return (error_line "JOIN_GAME 11" errMsg), two_games).
Proof.
  apply (lineReceived_only_register_reaches_registry
           (fun _ => "") (fun l => l) "JOIN_GAME 11" two_games).
  vm_compute. discriminate.
Defined.

(** A REGISTER line hands the text after the first space to
    [register]: a name already taken is answered with the ERROR line
    carrying the registry's message and nothing changes; when
    [register] accepts, the answer is SUCCESS followed by the printed
    payload and the registry is the one [register] left. *)
Theorem lineReceived_register :
  forall (str_of_payload : list (string * pyval) -> string)
         (list_of_set : list string -> list string)
         (line : string) (w : TournamentSystem.world),
    verb_of line = "REGISTER" ->
    (In (argument_of line)
        (TournamentSystem.dict_values
           (TournamentSystem.players (TournamentSystem.self w))) ->
     NetworkServer.lineReceived str_of_payload list_of_set line w
     = (Return (error_line line "player with this name already exists"), w))
    /\ (forall payload w',
          TournamentSystem.register (argument_of line) w
            = (Return (true, payload), w') ->
          NetworkServer.lineReceived str_of_payload list_of_set line w
          = (Return (append "SUCCESS " (str_of_payload payload)), w')).
Proof.
  intros str_of_payload list_of_set line w Hverb.
  unfold NetworkServer.lineReceived.
  fold (verb_of line). fold (argument_of line). rewrite Hverb.
  change (NetworkServer.lookup "REGISTER" NetworkServer.validRequests)
    with (Some (NetworkServer.cmd_register, ["name"])).
  cbv iota beta. cbn [map fst].
  change (negb (NetworkServer.set_eqb ["name"] ["name"])) with false.
  cbv iota. unfold NetworkServer.call_with_name.
  split.
  - intros Hin.
    destruct (register_outcome (argument_of line) w) as [[_ E] | [Hnot _]];
      [|contradiction].
    rewrite (bind_run _ _ _ _ _ E). reflexivity.
  - intros payload w' E. rewrite (bind_run _ _ _ _ _ E). reflexivity.
Qed.

Lemma lineReceived_register_witness :
  let w := TournamentSystem.World
             (TournamentSystem.Build [] [(5, "Alice")]) [40] in
  let w' := TournamentSystem.World
              (TournamentSystem.Build [] [(5, "Alice"); (41, "Bob")]) [] in
  NetworkServer.lineReceived (fun _ => "{}") (fun l => l) "REGISTER Alice" w
    = (Return (error_line "REGISTER Alice"
                 "player with this name already exists"), w)
  /\ NetworkServer.lineReceived (fun _ => "{}") (fun l => l) "REGISTER Bob" w
     = (Return (append "SUCCESS " "{}"), w').
Proof.
  split.
  - apply (proj1 (lineReceived_register (fun _ => "{}") (fun l => l)
                    "REGISTER Alice"
                    (TournamentSystem.World
                       (TournamentSystem.Build [] [(5, "Alice")]) [40])
                    eq_refl)).
    left. reflexivity.
  - apply (proj2 (lineReceived_register (fun _ => "{}") (fun l => l)
                    "REGISTER Bob"
                    (TournamentSystem.World
                       (TournamentSystem.Build [] [(5, "Alice")]) [40])
                    eq_refl) [("playerID", PyInt 41)]).
    vm_compute. reflexivity.
Defined.

(** ** Matchmaking and plies through the registry, as the code runs *)

(** [joinGame] on a registry without games creates one: the reply
    carries an identifier in 1..2^32-1, under which a PENDING match on
    a fresh board holds the player alone, and [getStatus] then reports
    PENDING for it. On a registry with any game at all it raises
    [TypeError] and changes nothing. *)
Theorem joinGame_outcomes :
  forall (w : TournamentSystem.world) (playerID : Z),
    (TournamentSystem.games (TournamentSystem.self w) <> [] ->
     TournamentSystem.joinGame playerID w = (Raise TypeError, w))
    /\ (forall d1 d2 r,
          TournamentSystem.games (TournamentSystem.self w) = [] ->
          TournamentSystem.random w = d1 :: d2 :: r ->
          exists gameID seat w',
            1 <= gameID <= maxVals
            /\ TournamentSystem.joinGame playerID w
               = (Return (true, [("gameID", PyInt gameID)]), w')
            /\ TournamentSystem.games (TournamentSystem.self w')
               = [(gameID,
                   ChessMatch.Build ChessBoard.init
                     (pc_set (PerColor None None) seat (Some playerID))
                     ChessMatch.STATUS_PENDING [])]
            /\ TournamentSystem.players (TournamentSystem.self w')
               = TournamentSystem.players (TournamentSystem.self w)
            /\ TournamentSystem.getStatus gameID w'
               = (Return (true, [("status", PyStr "PENDING")]), w')).
Proof.
  intros w p. split.
  - apply joinGame_nonempty_registry.
  - intros d1 d2 r Hg Hr.
    destruct w as [[gs ps] rnd]. cbn in Hg, Hr. subst gs rnd.
    pose proof (joinGame_empty_registry ps p d1 d2 r) as H. cbv zeta in H.
    do 3 eexists. split; [|split; [exact H|]].
    + pose proof (Z.mod_pos_bound d2 (2 ^ 32 - 1 - 1 + 1) ltac:(reflexivity)).
      unfold maxVals. change (2 ^ 32 - 1 - 1 + 1) with (2 ^ 32 - 1) in *. lia.
    + cbn [TournamentSystem.self TournamentSystem.games TournamentSystem.players].
      repeat split.
      rewrite getStatus_run. cbn [TournamentSystem.self TournamentSystem.games
                                  dict_get].
      rewrite Z.eqb_refl. reflexivity.
Qed.

Lemma joinGame_outcomes_witness :
  TournamentSystem.joinGame 12 two_games = (Raise TypeError, two_games)
  /\ exists gameID seat w',
       1 <= gameID <= maxVals
       /\ TournamentSystem.joinGame 11
            (TournamentSystem.World TournamentSystem.init [0; 41])
          = (Return (true, [("gameID", PyInt gameID)]), w')
       /\ TournamentSystem.games (TournamentSystem.self w')
          = [(gameID,
              ChessMatch.Build ChessBoard.init
                (pc_set (PerColor None None) seat (Some 11))
                ChessMatch.STATUS_PENDING [])]
       /\ TournamentSystem.players (TournamentSystem.self w')
          = TournamentSystem.players
              (TournamentSystem.self
                 (TournamentSystem.World TournamentSystem.init [0; 41]))
       /\ TournamentSystem.getStatus gameID w'
          = (Return (true, [("status", PyStr "PENDING")]), w').
Proof.
  split.
  - apply (proj1 (joinGame_outcomes two_games 12)). discriminate.
  - apply (proj2 (joinGame_outcomes
                    (TournamentSystem.World TournamentSystem.init [0; 41]) 11)
             0 41 []); reflexivity.
Defined.

(** [TournamentSystem.makePly] answers an unknown game id with the
    invalid-id error; for every known game it raises [TypeError] (one
    argument too many for the match's method); the registry is
    unchanged either way, so no ply reaches a board through it. *)
Theorem registry_makePly_outcomes :
  forall (w : TournamentSystem.world)
         (playerID gameID fromRank fromFile toRank toFile : Z),
    (dict_has_key (TournamentSystem.games (TournamentSystem.self w)) gameID
       = false ->
     TournamentSystem.makePly playerID gameID fromRank fromFile toRank toFile w
       = (Return INVALID_GAME_ID, w))
    /\ (dict_has_key (TournamentSystem.games (TournamentSystem.self w)) gameID
          = true ->
        TournamentSystem.makePly playerID gameID
          fromRank fromFile toRank toFile w
          = (Raise TypeError, w)).
Proof.
  intros w p g fr ff tr tf. split.
  - apply makePly_unknown_game.
  - apply makePly_known_game.
Qed.

Lemma registry_makePly_outcomes_witness :
  TournamentSystem.makePly 11 7 1 4 2 4 two_games
    = (Return INVALID_GAME_ID, two_games)
  /\ TournamentSystem.makePly 11 42 1 4 2 4 two_games
     = (Raise TypeError, two_games).
Proof.
  split.
  - apply (proj1 (registry_makePly_outcomes two_games 11 7 1 4 2 4)).
    reflexivity.
  - apply (proj2 (registry_makePly_outcomes two_games 11 42 1 4 2 4)).
    reflexivity.
Defined.

(** ** Legality of the other pieces, as the code decides it *)

Lemma isLegalMove_non_pawn_witness :
  ChessBoard.isLegalMove WHITE 0 1 2 2 ChessBoard.init
    = Return (negb (ChessBoard.owned_by WHITE None))
  /\ ChessBoard.isLegalMove WHITE 0 3 7 3 ChessBoard.init
     = Return (negb (ChessBoard.owned_by WHITE (Some (BLACK, QUEN)))).
Proof.
  split.
  - apply (isLegalMove_non_pawn ChessBoard.init WHITE KNGT 0 1 2 2 None);
      [discriminate | reflexivity | reflexivity].
  - apply (isLegalMove_non_pawn ChessBoard.init WHITE QUEN 0 3 7 3
             (Some (BLACK, QUEN)));
      [discriminate | reflexivity | reflexivity].
Defined.

Lemma isLegalMove_double_advance_witness :
  ChessBoard.isLegalMove WHITE 1 2 3 2 ChessBoard.init
    = Return ((2 =? 2) && negb (ChessBoard.owned_by WHITE None))
  /\ ChessBoard.isLegalMove BLACK 6 0 4 0 ChessBoard.init
     = Return ((0 =? 6) && negb (ChessBoard.owned_by BLACK None)).
Proof.
  split.
  - apply (isLegalMove_double_advance ChessBoard.init WHITE 1 2 None);
      reflexivity.
  - apply (isLegalMove_double_advance ChessBoard.init BLACK 6 0 None);
      reflexivity.
Defined.
